(** * Xiaomi Mijia air conditioner (M1) climate entity

    A shallow embedding of [ac_m1.py]: the device wrapper [AirConditionM1],
    the status container [AirConditionStatus] and the climate entity
    [XiaomiAirConditionM1], followed by the properties proved about them.
    ([climate.py] sets the platform up and defines [AirConditionException];
    it takes no part in the operations of the entity.)

    Conventions of the embedding.
    - Python values that cross the wire (JSON) are the inductive [pyval].
    - Python floats are IEEE-754 binary64 numbers, modelled by the standard
      library's executable [spec_float] with [prec = 53] and [emax = 1024].
    - A method of a Python object is a computation in the monad [M]: it reads
      and writes the entity fields, appends to the log of [Device.send] calls,
      and either returns a value or raises an exception.  What was written
      before an exception is raised stays written, as in Python.
    - The device behind [Device.send] is an oracle: a function from the
      requests made so far and the current request to a reply.
    - A coroutine is run to completion without interleaving: every
      [yield from] is a plain call.
    - Logging and the [click] decorators have no effect on the entity or on
      the device and are left out.  *)

From Stdlib Require Import ZArith String Ascii List Bool Lia.
From Stdlib Require Import Floats.SpecFloat.
From stdpp Require Import base strings gmap list.

Local Open Scope string_scope.

(** ** The Python runtime fragment used by the module *)

Module Py.

(** Exceptions that the module can raise or let through. *)
Inductive exn :=
| DeviceException
| NameError (name : string)
| ValueError
| KeyError
| TypeError
| AttributeError
| OverflowError.

Definition is_DeviceException (e : exn) : bool :=
  match e with DeviceException => true | _ => false end.

Definition is_TypeError (e : exn) : bool :=
  match e with TypeError => true | _ => false end.

(** Result of evaluating an expression. *)
Inductive res (A : Type) :=
| Ret (a : A)
| Raise (e : exn).
Arguments Ret {A} a.
Arguments Raise {A} e.

(** Binary64. *)
Definition prec : Z := 53.
Definition emax : Z := 1024.
Definition float := spec_float.

(** JSON values as decoded by the device library. *)
#[warnings="-register-all"]
Inductive pyval :=
| PNone
| PBool (b : bool)
| PInt (n : Z)
| PFloat (f : float)
| PStr (s : string)
| PList (l : list pyval).

(** [v == s] for a string literal [s]. *)
Definition eq_str (v : pyval) (s : string) : bool :=
  match v with
  | PStr s' => String.eqb s' s
  | _ => false
  end.

(** Iterating a value, as [list.extend] does. *)
Definition iterate (v : pyval) : res (list pyval) :=
  match v with
  | PList l => Ret l
  | PStr s => Ret (map (fun c => PStr (String c EmptyString)) (list_ascii_of_string s))
  | _ => Raise TypeError
  end.

(** *** [str.title] and [str.lower] on ASCII strings *)

Definition is_lower (c : ascii) : bool :=
  let n := nat_of_ascii c in (97 <=? n)%nat && (n <=? 122)%nat.

Definition is_upper (c : ascii) : bool :=
  let n := nat_of_ascii c in (65 <=? n)%nat && (n <=? 90)%nat.

Definition to_upper (c : ascii) : ascii :=
  if is_lower c then ascii_of_nat (nat_of_ascii c - 32) else c.

Definition to_lower (c : ascii) : ascii :=
  if is_upper c then ascii_of_nat (nat_of_ascii c + 32) else c.

Fixpoint title_from (previous_is_cased : bool) (s : string) : string :=
  match s with
  | EmptyString => EmptyString
  | String c r =>
      if is_lower c then
        String (if previous_is_cased then c else to_upper c) (title_from true r)
      else if is_upper c then
        String (if previous_is_cased then to_lower c else c) (title_from true r)
      else String c (title_from false r)
  end.

Definition title (s : string) : string := title_from false s.

Fixpoint lower (s : string) : string :=
  match s with
  | EmptyString => EmptyString
  | String c r => String (to_lower c) (lower r)
  end.

(** *** Float arithmetic *)

(** [float(n)] for an integer that is exactly representable. *)
Definition float_of_int (n : Z) : float := binary_normalize prec emax n 0 false.

Definition ten : float := float_of_int 10.

(** [n / 10] for a Python integer [n]: the quotient correctly rounded to
    binary64, or [OverflowError] when it is too large for a float. *)
Definition int_div10 (n : Z) : res float :=
  match n with
  | Z0 => Ret (S754_zero false)
  | _ =>
      let '(q, e, l) := SFdiv_core_binary prec emax (Z.abs n) 0 10 0 in
      match binary_round_aux prec emax (n <? 0)%Z q e l with
      | S754_infinity _ => Raise OverflowError
      | f => Ret f
      end
  end.

(** [x / 10] for a float [x]. *)
Definition float_div10 (x : float) : float := SFdiv prec emax x ten.

(** [x * 10] for a float [x]. *)
Definition float_mul10 (x : float) : float := SFmul prec emax x ten.

(** [int(x)] for a float [x]: truncation towards zero. *)
Definition int_of_float (x : float) : res Z :=
  match x with
  | S754_nan => Raise ValueError
  | S754_infinity _ => Raise OverflowError
  | S754_zero _ => Ret 0%Z
  | S754_finite s m e =>
      let a := match e with
               | Zneg p => Z.shiftr (Zpos m) (Zpos p)
               | _ => Z.shiftl (Zpos m) e
               end in
      Ret (if s then Z.opp a else a)
  end.

(** The integer a float is equal to, when it is equal to one. *)
Definition float_integral (x : float) : option Z :=
  match x with
  | S754_zero _ => Some 0%Z
  | S754_finite s m e =>
      match e with
      | Zneg p =>
          let a := Z.shiftr (Zpos m) (Zpos p) in
          if (Z.shiftl a (Zpos p) =? Zpos m)%Z then Some (if s then Z.opp a else a)
          else None
      | _ => Some (if s then Z.opp (Z.shiftl (Zpos m) e) else Z.shiftl (Zpos m) e)
      end
  | _ => None
  end.

(** [v / 10] for a decoded value [v]. *)
Definition div10 (v : pyval) : res float :=
  match v with
  | PInt n => int_div10 n
  | PBool b => int_div10 (if b then 1 else 0)
  | PFloat x => Ret (float_div10 x)
  | _ => Raise TypeError
  end.

(** The integer a number is equal to, as used when a number is looked up
    among integer enumeration values ([True == 1], [2.0 == 2]). *)
Definition as_integer (v : pyval) : option Z :=
  match v with
  | PInt n => Some n
  | PBool b => Some (if b then 1 else 0)%Z
  | PFloat x => float_integral x
  | _ => None
  end.

End Py.
Import Py.

(** ** Constants of the host platform

    The module imports these names from
    [homeassistant.components.climate.const] and [homeassistant.const],
    which are not part of the repository; they are bound here to the values
    the platform gives them. *)

Definition HVAC_MODE_OFF := "off".
Definition HVAC_MODE_HEAT := "heat".
Definition HVAC_MODE_COOL := "cool".
Definition HVAC_MODE_DRY := "dry".
Definition HVAC_MODE_FAN_ONLY := "fan_only".

Definition SUPPORT_TARGET_TEMPERATURE : Z := 1.
Definition SUPPORT_FAN_MODE : Z := 8.
Definition SUPPORT_PRESET_MODE : Z := 16.
Definition SUPPORT_SWING_MODE : Z := 32.
Definition SUPPORT_AUX_HEAT : Z := 64.

Definition ATTR_TEMPERATURE := "temperature".
Definition ATTR_HVAC_MODE := "hvac_mode".

(** ** Module constants *)

Definition SUCCESS : pyval := PList [PStr "ok"].

Definition SUPPORT_FLAGS : Z :=
  Z.lor (Z.lor (Z.lor SUPPORT_TARGET_TEMPERATURE SUPPORT_FAN_MODE)
               SUPPORT_AUX_HEAT)
        SUPPORT_SWING_MODE.

Definition ATTR_SWING_MODE := "swing_mode".
Definition ATTR_FAN_MODE := "fan_mode".
Definition ATTR_WIND_LEVEL := "wind_level".

(** Three names that the methods below refer to are bound nowhere in the
    module, neither by an import nor by a definition ([AirConditionException]
    is defined in [climate.py], which the module does not import).
    Evaluating such a name raises [NameError]. *)
Definition PRESET_COMFORT : res string := Raise (NameError "PRESET_COMFORT").
Definition PRESET_SLEEP : res string := Raise (NameError "PRESET_SLEEP").
Definition AirConditionException : res exn :=
  Raise (NameError "AirConditionException").

(** [result == SUCCESS]: a list with the single element ['ok']. *)
Definition eq_SUCCESS (result : pyval) : bool :=
  match result with
  | PList [v] => eq_str v "ok"
  | _ => false
  end.

(** ** Enumerations

    Each enumeration comes with its member names, its member values, the
    lookup by value [E(v)] and the lookup by name [E[n]]. *)

Module HVACMode.
Inductive t := Off | Cool | Dry | Fan_Only | Heat.

Definition members : list t := [Off; Cool; Dry; Fan_Only; Heat].

Definition name (m : t) : string :=
  match m with
  | Off => "Off" | Cool => "Cool" | Dry => "Dry"
  | Fan_Only => "Fan_Only" | Heat => "Heat"
  end.

Definition value (m : t) : string :=
  match m with
  | Off => HVAC_MODE_OFF | Cool => HVAC_MODE_COOL | Dry => HVAC_MODE_DRY
  | Fan_Only => HVAC_MODE_FAN_ONLY | Heat => HVAC_MODE_HEAT
  end.

Definition of_value (v : string) : res t :=
  match find (fun m => String.eqb (value m) v) members with
  | Some m => Ret m
  | None => Raise ValueError
  end.

Definition of_name (n : string) : res t :=
  match find (fun m => String.eqb (name m) n) members with
  | Some m => Ret m
  | None => Raise KeyError
  end.
End HVACMode.

Module OperationMode.
Inductive t := Cool | Dry | Fan_Only | Heat.

Definition members : list t := [Cool; Dry; Fan_Only; Heat].

Definition name (m : t) : string :=
  match m with
  | Cool => "Cool" | Dry => "Dry" | Fan_Only => "Fan_Only" | Heat => "Heat"
  end.

Definition value (m : t) : string :=
  match m with
  | Cool => "cooling" | Dry => "arefaction" | Fan_Only => "wind"
  | Heat => HVAC_MODE_HEAT
  end.

(** The argument is any decoded value; only a string can equal a member
    value.  A value that is no member value raises [ValueError]. *)
Definition of_value (v : pyval) : res t :=
  match find (fun m => eq_str v (value m)) members with
  | Some m => Ret m
  | None => Raise ValueError
  end.

Definition of_name (n : string) : res t :=
  match find (fun m => String.eqb (name m) n) members with
  | Some m => Ret m
  | None => Raise KeyError
  end.
End OperationMode.

Module FanSpeed.
Inductive t := Level_1 | Level_2 | Level_3 | Level_4 | Level_5 | Auto.

Definition members : list t := [Level_1; Level_2; Level_3; Level_4; Level_5; Auto].

Definition name (m : t) : string :=
  match m with
  | Level_1 => "Level_1" | Level_2 => "Level_2" | Level_3 => "Level_3"
  | Level_4 => "Level_4" | Level_5 => "Level_5" | Auto => "Auto"
  end.

Definition value (m : t) : Z :=
  match m with
  | Level_1 => 0 | Level_2 => 1 | Level_3 => 2
  | Level_4 => 3 | Level_5 => 4 | Auto => 5
  end.

Definition of_value (v : pyval) : res t :=
  match as_integer v with
  | Some n =>
      match find (fun m => Z.eqb (value m) n) members with
      | Some m => Ret m
      | None => Raise ValueError
      end
  | None => Raise ValueError
  end.

Definition of_name (n : string) : res t :=
  match find (fun m => String.eqb (name m) n) members with
  | Some m => Ret m
  | None => Raise KeyError
  end.
End FanSpeed.

Module SwingMode.
Inductive t := On | Off.

Definition members : list t := [On; Off].

Definition name (m : t) : string :=
  match m with On => "On" | Off => "Off" end.

Definition value (m : t) : string :=
  match m with On => "on" | Off => "off" end.

Definition of_value (v : pyval) : res t :=
  match find (fun m => eq_str v (value m)) members with
  | Some m => Ret m
  | None => Raise ValueError
  end.

Definition of_name (n : string) : res t :=
  match find (fun m => String.eqb (name m) n) members with
  | Some m => Ret m
  | None => Raise KeyError
  end.
End SwingMode.

(** ** The entity and its world *)

(** A call of [Device.send]. *)
Record Request := { method : string; params : pyval }.

(** What [Device.send] does with a request: it returns the decoded result
    or raises [DeviceException]. *)
Inductive Reply :=
| Answer (result : pyval)
| Failure.

Definition Device : Type := list Request -> Request -> Reply.

(** The value of [self._hvac_mode]: [None], one of the host's mode strings,
    or a member of [OperationMode] (stored by [async_set_temperature]). *)
Inductive hvac_mode_value :=
| HvacNone
| HvacStr (s : string)
| HvacOperation (m : OperationMode.t).

(** [self._hvac_mode == s] for a mode string [s]. *)
Definition hvac_eq (v : hvac_mode_value) (s : string) : bool :=
  match v with
  | HvacStr s' => String.eqb s' s
  | _ => false
  end.

(** The fields of [XiaomiAirConditionM1].  [_fan_mode] and
    [_last_on_operation] are not assigned by [__init__]: for these two
    [None] stands for a missing attribute.  The fields [hass] and [_device]
    are never reassigned; the device they lead to is part of the [World]
    below. *)
Record Entity := mkEntity {
  _name : string;
  _unique_id : string;
  _available : bool;
  _state : option bool;
  _state_attrs : gmap string pyval;
  _aux_heat : option bool;
  _max_temp : Z;
  _min_temp : Z;
  _current_temperature : option float;
  _swing_mode : option string;
  _wind_level : option Z;
  _hvac_mode : hvac_mode_value;
  _target_temperature : option float;
  _fan_mode : option string;
  _last_on_operation : option string
}.

Definition with_available (v : bool) (e : Entity) : Entity :=
  mkEntity (_name e) (_unique_id e) v (_state e) (_state_attrs e) (_aux_heat e)
    (_max_temp e) (_min_temp e) (_current_temperature e) (_swing_mode e)
    (_wind_level e) (_hvac_mode e) (_target_temperature e) (_fan_mode e)
    (_last_on_operation e).

Definition with_state (v : option bool) (e : Entity) : Entity :=
  mkEntity (_name e) (_unique_id e) (_available e) v (_state_attrs e) (_aux_heat e)
    (_max_temp e) (_min_temp e) (_current_temperature e) (_swing_mode e)
    (_wind_level e) (_hvac_mode e) (_target_temperature e) (_fan_mode e)
    (_last_on_operation e).

Definition with_state_attrs (v : gmap string pyval) (e : Entity) : Entity :=
  mkEntity (_name e) (_unique_id e) (_available e) (_state e) v (_aux_heat e)
    (_max_temp e) (_min_temp e) (_current_temperature e) (_swing_mode e)
    (_wind_level e) (_hvac_mode e) (_target_temperature e) (_fan_mode e)
    (_last_on_operation e).

Definition with_aux_heat (v : option bool) (e : Entity) : Entity :=
  mkEntity (_name e) (_unique_id e) (_available e) (_state e) (_state_attrs e) v
    (_max_temp e) (_min_temp e) (_current_temperature e) (_swing_mode e)
    (_wind_level e) (_hvac_mode e) (_target_temperature e) (_fan_mode e)
    (_last_on_operation e).

Definition with_current_temperature (v : option float) (e : Entity) : Entity :=
  mkEntity (_name e) (_unique_id e) (_available e) (_state e) (_state_attrs e)
    (_aux_heat e) (_max_temp e) (_min_temp e) v (_swing_mode e)
    (_wind_level e) (_hvac_mode e) (_target_temperature e) (_fan_mode e)
    (_last_on_operation e).

Definition with_swing_mode (v : option string) (e : Entity) : Entity :=
  mkEntity (_name e) (_unique_id e) (_available e) (_state e) (_state_attrs e)
    (_aux_heat e) (_max_temp e) (_min_temp e) (_current_temperature e) v
    (_wind_level e) (_hvac_mode e) (_target_temperature e) (_fan_mode e)
    (_last_on_operation e).

Definition with_hvac_mode (v : hvac_mode_value) (e : Entity) : Entity :=
  mkEntity (_name e) (_unique_id e) (_available e) (_state e) (_state_attrs e)
    (_aux_heat e) (_max_temp e) (_min_temp e) (_current_temperature e)
    (_swing_mode e) (_wind_level e) v (_target_temperature e) (_fan_mode e)
    (_last_on_operation e).

Definition with_target_temperature (v : option float) (e : Entity) : Entity :=
  mkEntity (_name e) (_unique_id e) (_available e) (_state e) (_state_attrs e)
    (_aux_heat e) (_max_temp e) (_min_temp e) (_current_temperature e)
    (_swing_mode e) (_wind_level e) (_hvac_mode e) v (_fan_mode e)
    (_last_on_operation e).

Definition with_fan_mode (v : option string) (e : Entity) : Entity :=
  mkEntity (_name e) (_unique_id e) (_available e) (_state e) (_state_attrs e)
    (_aux_heat e) (_max_temp e) (_min_temp e) (_current_temperature e)
    (_swing_mode e) (_wind_level e) (_hvac_mode e) (_target_temperature e) v
    (_last_on_operation e).

Definition with_last_on_operation (v : option string) (e : Entity) : Entity :=
  mkEntity (_name e) (_unique_id e) (_available e) (_state e) (_state_attrs e)
    (_aux_heat e) (_max_temp e) (_min_temp e) (_current_temperature e)
    (_swing_mode e) (_wind_level e) (_hvac_mode e) (_target_temperature e)
    (_fan_mode e) v.

(** The world a method runs in: the entity it mutates, the device behind
    [self._device], the calls of [Device.send] made so far (oldest first)
    and the number of calls of the host's [schedule_update_ha_state]. *)
Record World := mkWorld {
  self : Entity;
  device : Device;
  sent : list Request;
  scheduled : nat
}.

(** ** The monad of methods *)

Definition M (A : Type) : Type := World -> res A * World.

Global Instance M_ret : MRet M := fun A a w => (Ret a, w).

Global Instance M_bind : MBind M := fun A B f m w =>
  match m w with
  | (Ret a, w') => f a w'
  | (Raise e, w') => (Raise e, w')
  end.

Definition lift {A} (r : res A) : M A := fun w => (r, w).

Definition raise {A} (e : exn) : M A := lift (Raise e).

(** [try: body  except E: handler], where [catches] recognises [E]. *)
Definition try_except {A} (body : M A) (catches : exn -> bool) (handler : M A) : M A :=
  fun w =>
    match body w with
    | (Raise e, w') => if catches e then handler w' else (Raise e, w')
    | r => r
    end.

Definition get {A} (field : Entity -> A) : M A := fun w => (Ret (field (self w)), w).

Definition set (update : Entity -> Entity) : M unit :=
  fun w => (Ret tt, mkWorld (update (self w)) (device w) (sent w) (scheduled w)).

Definition skip : M unit := mret tt.

(** [Entity.schedule_update_ha_state()] of the host. *)
Definition schedule_update_ha_state : M unit :=
  fun w => (Ret tt, mkWorld (self w) (device w) (sent w) (S (scheduled w))).

(** ** [AirConditionStatus] *)

Module AirConditionStatus.

(** The container holds a [defaultdict] whose missing keys read as [None]. *)
Record t := mk { data : gmap string pyval }.

Definition item (st : t) (key : string) : pyval :=
  default PNone (data st !! key).

Definition power (st : t) : pyval := item st "power".

Definition is_on (st : t) : bool := eq_str (power st) "on".

Definition mode (st : t) : res (option OperationMode.t) :=
  match OperationMode.of_value (item st "mode") with
  | Ret m => Ret (Some m)
  | Raise e => if is_TypeError e then Ret None else Raise e
  end.

Definition target_temp (st : t) : res float := div10 (item st "st_temp_dec").

Definition temperature (st : t) : res float := div10 (item st "temp_dec").

Definition swing (st : t) : pyval := item st "vertical_swing".

Definition wind_level (st : t) : pyval := item st "speed_level".

Definition is_aux_heat (st : t) : bool := eq_str (item st "ptc") "on".

End AirConditionStatus.

(** [dict(pairs)]: later pairs overwrite earlier ones. *)
Definition dict_of (pairs : list (string * pyval)) : gmap string pyval :=
  foldl (fun d kv => <[kv.1 := kv.2]> d) ∅ pairs.

(** ** [AirConditionM1], the device wrapper *)

Module AirConditionM1.

(** [Device.send] of the device library: one request, one reply. *)
Definition send (command : string) (parameters : pyval) : M pyval :=
  fun w =>
    let request := {| method := command; params := parameters |} in
    let w' := mkWorld (self w) (device w) (sent w ++ [request]) (scheduled w) in
    match device w (sent w) request with
    | Answer result => (Ret result, w')
    | Failure => (Raise DeviceException, w')
    end.

Definition properties : list string :=
  ["power"; "mode"; "st_temp_dec"; "temp_dec"; "vertical_swing";
   "speed_level"; "ptc"; "silence"; "comfort"].

(** The [while _props:] loop of [status]. *)
Fixpoint status_loop (_props : list string) (values : list pyval) : M (list pyval) :=
  match _props with
  | [] => mret values
  | p :: rest =>
      reply ← send "get_prop" (PList [PStr p]);
      items ← lift (iterate reply);
      status_loop rest (values ++ items)
  end.

Definition status : M AirConditionStatus.t :=
  values ← status_loop properties [];
  mret (AirConditionStatus.mk (dict_of (combine properties values))).

Definition on : M pyval := send "set_power" (PStr "on").

Definition off : M pyval := send "set_power" (PStr "off").

Definition set_temperature (temperature : option float) : M pyval :=
  match temperature with
  | None => raise TypeError
  | Some x =>
      t ← lift (int_of_float (float_mul10 x));
      send "set_temperature" (PList [PInt t])
  end.

Definition set_preset_mode (presetmode : string) : M pyval :=
  comfort ← lift PRESET_COMFORT;
  if String.eqb presetmode comfort then
    send "set_comfort" (PStr "on");; mret PNone
  else
    sleep ← lift PRESET_SLEEP;
    if String.eqb presetmode sleep then
      send "set_silence" (PStr "on");; mret PNone
    else
      send "set_comfort" (PStr "off");;
      send "set_silence" (PStr "off");;
      mret PNone.

Definition turn_aux_heat_on : M pyval :=
  send "set_ptc" (PStr "on");; mret PNone.

Definition turn_aux_heat_off : M pyval :=
  send "set_ptc" (PStr "off");; mret PNone.

Definition set_wind_level (wind_level : Z) : M pyval :=
  if ((wind_level <? 0) || (wind_level >? 7))%Z then
    exception ← lift AirConditionException;
    raise exception
  else send "set_spd_level" (PList [PInt wind_level]).

Definition set_swing (swing : bool) : M pyval :=
  if swing then send "set_vertical" (PStr "on")
  else send "set_vertical" (PStr "off").

Definition set_dry (dry : bool) : M pyval :=
  if dry then send "set_dry" (PStr "on")
  else send "set_dry" (PStr "off").

Definition set_sleep (sleep : bool) : M pyval :=
  if sleep then send "set_silent" (PStr "on")
  else send "set_silent" (PStr "off").

Definition set_mode (mode : OperationMode.t) : M pyval :=
  send "set_mode" (PStr (OperationMode.value mode)).

End AirConditionM1.

(** ** [XiaomiAirConditionM1], the climate entity *)

(** The keyword arguments of the host's [set_temperature] service; [None]
    stands for a key that is missing or bound to [None]. *)
Record TemperatureArgs := {
  kw_temperature : option float;
  kw_hvac_mode : option string
}.

Module XiaomiAirConditionM1.

Definition __init__ (name unique_id : string) (min_temp max_temp : Z) : Entity :=
  {| _name := name;
     _unique_id := unique_id;
     _available := false;
     _state := None;
     _state_attrs :=
       dict_of [(ATTR_TEMPERATURE, PNone); (ATTR_SWING_MODE, PNone);
                (ATTR_HVAC_MODE, PNone)];
     _aux_heat := None;
     _max_temp := max_temp;
     _min_temp := min_temp;
     _current_temperature := None;
     _swing_mode := None;
     _wind_level := None;
     _hvac_mode := HvacNone;
     _target_temperature := None;
     _fan_mode := None;
     _last_on_operation := None |}.

(** [func] stands for [partial(func, *args, **kwargs)], which the host
    runs through [async_add_job]. *)
Definition _try_command (mask_error : string) (func : M pyval) : M bool :=
  try_except
    (result ← func;
     schedule_update_ha_state;;
     mret (eq_SUCCESS result))
    is_DeviceException
    (set (with_available false);;
     mret false).

Definition async_turn_on : M unit :=
  result ← _try_command "Turning the miio device on failed." AirConditionM1.on;
  if (result : bool) then set (with_state (Some true)) else skip.

Definition async_turn_off : M unit :=
  result ← _try_command "Turning the miio device off failed." AirConditionM1.off;
  if (result : bool) then set (with_state (Some false)) else skip.

(** [state.mode.name]: an attribute of [None] does not exist. *)
Definition mode_name (st : AirConditionStatus.t) : res string :=
  match AirConditionStatus.mode st with
  | Ret (Some m) => Ret (OperationMode.name m)
  | Ret None => Raise AttributeError
  | Raise e => Raise e
  end.

Definition async_update : M unit :=
  try_except
    (state ← AirConditionM1.status;
     set (with_available true);;
     n ← lift (mode_name state);
     m ← lift (HVACMode.of_name n);
     set (with_last_on_operation (Some (HVACMode.value m)));;
     (if eq_str (AirConditionStatus.power state) "off" then
        set (with_hvac_mode (HvacStr HVAC_MODE_OFF));;
        set (with_state (Some false))
      else
        last ← get _last_on_operation;
        set (with_hvac_mode (match last with
                             | Some s => HvacStr s
                             | None => HvacNone
                             end));;
        set (with_state (Some true)));;
     target ← lift (AirConditionStatus.target_temp state);
     set (with_target_temperature (Some target));;
     current ← lift (AirConditionStatus.temperature state);
     set (with_current_temperature (Some current));;
     fan ← lift (FanSpeed.of_value (AirConditionStatus.wind_level state));
     set (with_fan_mode (Some (FanSpeed.name fan)));;
     set (with_aux_heat (Some (AirConditionStatus.is_aux_heat state)));;
     swing ← lift (SwingMode.of_value (AirConditionStatus.swing state));
     set (with_swing_mode (Some (SwingMode.name swing)));;
     on ← get _state;
     set (fun e =>
            with_state_attrs
              (<[ATTR_HVAC_MODE :=
                   if bool_decide (on = Some true) then PStr (lower n) else PStr "off"]>
               (<[ATTR_FAN_MODE := AirConditionStatus.wind_level state]>
                (<[ATTR_SWING_MODE := AirConditionStatus.swing state]>
                 (<[ATTR_TEMPERATURE := PFloat target]> (_state_attrs e))))) e))
    is_DeviceException
    (set (with_available false)).

Definition supported_features (e : Entity) : Z := SUPPORT_FLAGS.
Definition min_temp (e : Entity) : Z := _min_temp e.
Definition max_temp (e : Entity) : Z := _max_temp e.
Definition should_poll (e : Entity) : bool := true.
Definition unique_id (e : Entity) : string := _unique_id e.
Definition name (e : Entity) : string := _name e.
Definition available (e : Entity) : bool := _available e.
Definition current_temperature (e : Entity) : option float := _current_temperature e.
Definition target_temperature (e : Entity) : option float := _target_temperature e.
Definition hvac_mode (e : Entity) : hvac_mode_value := _hvac_mode e.
Definition hvac_modes (e : Entity) : list string := map HVACMode.value HVACMode.members.
Definition swing_mode (e : Entity) : option string := _swing_mode e.
Definition swing_modes (e : Entity) : list string := map SwingMode.name SwingMode.members.

(** Reading [_fan_mode] or [_last_on_operation] before the first poll
    raises [AttributeError]. *)
Definition fan_mode (e : Entity) : res string :=
  match _fan_mode e with Some s => Ret s | None => Raise AttributeError end.
Definition last_on_operation (e : Entity) : res string :=
  match _last_on_operation e with Some s => Ret s | None => Raise AttributeError end.

Definition fan_modes (e : Entity) : list string := map FanSpeed.name FanSpeed.members.
Definition preset_modes (e : Entity) : list string := ["none"; "silence"; "comfort"].
Definition is_aux_heat (e : Entity) : option bool := _aux_heat e.

Definition async_set_temperature (kwargs : TemperatureArgs) : M unit :=
  current ← get _hvac_mode;
  if hvac_eq current HVAC_MODE_OFF || hvac_eq current HVAC_MODE_FAN_ONLY then
    skip
  else
    (match kw_temperature kwargs with
     | Some t => set (with_target_temperature (Some t))
     | None => skip
     end);;
    (match kw_hvac_mode kwargs with
     | Some h =>
         m ← lift (OperationMode.of_value (PStr h));
         set (with_hvac_mode (HvacOperation m))
     | None => skip
     end);;
    target ← get _target_temperature;
    _try_command "Setting temperature of the miio device failed."
      (AirConditionM1.set_temperature target);;
    skip.

Definition async_set_preset_mode (preset_mode : string) : M unit :=
  _try_command "Setting temperature of the miio device failed."
    (AirConditionM1.set_preset_mode preset_mode);;
  skip.

Definition async_turn_aux_heat_on : M unit :=
  _try_command "turn_aux_heat_on of the miio device failed."
    AirConditionM1.turn_aux_heat_on;;
  skip.

Definition async_turn_aux_heat_off : M unit :=
  _try_command "turn_aux_heat_off of the miio device failed."
    AirConditionM1.turn_aux_heat_off;;
  skip.

Definition async_set_swing_mode (swing_mode : string) : M unit :=
  features ← get supported_features;
  if (Z.land features SUPPORT_SWING_MODE =? 0)%Z then skip
  else
    m ← lift (SwingMode.of_name (title swing_mode));
    set (with_swing_mode (Some (SwingMode.name m)));;
    stored ← get _swing_mode;
    _try_command "Setting swing mode of the miio device failed."
      (AirConditionM1.set_swing
         (bool_decide (stored = Some (SwingMode.name SwingMode.On))));;
    skip.

Definition async_set_fan_mode (fan_mode : string) : M unit :=
  features ← get supported_features;
  if (Z.land features SUPPORT_FAN_MODE =? 0)%Z then skip
  else
    current ← get _hvac_mode;
    if hvac_eq current HVAC_MODE_DRY then skip
    else
      speed ← lift (FanSpeed.of_name (title fan_mode));
      set (with_fan_mode (Some (FanSpeed.name speed)));;
      speed' ← lift (FanSpeed.of_name (title fan_mode));
      let fan_mode_value := FanSpeed.value speed' in
      _try_command "Setting fan mode of the miio device failed."
        (AirConditionM1.set_wind_level fan_mode_value);;
      skip.

(** [self._hvac_mode.title()] once [_hvac_mode] holds a string. *)
Definition hvac_title (v : hvac_mode_value) : res string :=
  match v with
  | HvacStr s => Ret (title s)
  | _ => Raise AttributeError
  end.

(** The last statement of the method, [self.async_update()], only builds
    a coroutine object that nobody awaits: no statement of [async_update]
    runs. *)
Definition async_set_hvac_mode (hvac_mode : string) : M unit :=
  if String.eqb hvac_mode HVAC_MODE_OFF then
    result ← _try_command "Turning the miio device off failed." AirConditionM1.off;
    if (result : bool) then
      set (with_state (Some false));;
      set (with_hvac_mode (HvacStr HVAC_MODE_OFF))
    else skip
  else
    let change_mode : M unit :=
      m ← lift (HVACMode.of_value hvac_mode);
      set (with_hvac_mode (HvacStr (HVACMode.value m)));;
      set (with_state (Some true));;
      stored ← get _hvac_mode;
      n ← lift (hvac_title stored);
      mode ← lift (OperationMode.of_name n);
      result ← _try_command "Setting hvac mode of the miio device failed."
                 (AirConditionM1.set_mode mode);
      if (result : bool) then skip else skip in
    current ← get _hvac_mode;
    if hvac_eq current HVAC_MODE_OFF then
      result ← _try_command "Turning the miio device on failed." AirConditionM1.on;
      if negb result then skip else change_mode
    else change_mode.

End XiaomiAirConditionM1.

(** ** Vocabulary of the statements *)

(** The request that [send(command, parameters)] records. *)
Definition request (command : string) (parameters : pyval) : Request :=
  {| method := command; params := parameters |}.

Definition power_on_request : Request := request "set_power" (PStr "on").

Definition set_mode_request (mode : OperationMode.t) : Request :=
  request "set_mode" (PStr (OperationMode.value mode)).

Definition get_prop_request (property : string) : Request :=
  request "get_prop" (PList [PStr property]).

(** The table of the operation modes the device reports and the hvac modes
    the host knows. *)
Definition hvac_mode_of_operation (mode : string) : option string :=
  if String.eqb mode "cooling" then Some "cool"
  else if String.eqb mode "arefaction" then Some "dry"
  else if String.eqb mode "wind" then Some "fan_only"
  else if String.eqb mode "heat" then Some "heat"
  else None.

(** ** Devices and worlds used in the examples *)

(** A device that answers every [get_prop] request with the value it was
    built with and every other request with [['ok']]. *)
Definition reporting (power mode : string) (st_temp_dec temp_dec : Z)
    (vertical_swing : string) (speed_level : Z) (ptc : string) : Device :=
  fun _ r =>
    if String.eqb (method r) "get_prop" then
      match params r with
      | PList [PStr "power"] => Answer (PList [PStr power])
      | PList [PStr "mode"] => Answer (PList [PStr mode])
      | PList [PStr "st_temp_dec"] => Answer (PList [PInt st_temp_dec])
      | PList [PStr "temp_dec"] => Answer (PList [PInt temp_dec])
      | PList [PStr "vertical_swing"] => Answer (PList [PStr vertical_swing])
      | PList [PStr "speed_level"] => Answer (PList [PInt speed_level])
      | PList [PStr "ptc"] => Answer (PList [PStr ptc])
      | _ => Answer (PList [PStr "off"])
      end
    else Answer SUCCESS.

(** A device that cannot be reached. *)
Definition unreachable : Device := fun _ _ => Failure.

(** A unit that is drying, and one that is switched off while its mode
    reads ["automode"]. *)
Definition drying : Device := reporting "on" "arefaction" 223 251 "off" 5 "off".
Definition resting : Device := reporting "off" "automode" 260 251 "off" 5 "off".

(** What [status] returns for the drying unit. *)
Definition drying_report : AirConditionStatus.t :=
  AirConditionStatus.mk
    (dict_of (combine AirConditionM1.properties
                [PStr "on"; PStr "arefaction"; PInt 223; PInt 251; PStr "off";
                 PInt 5; PStr "off"; PStr "off"; PStr "off"])).

(** The floats [22.3] and [25.1]. *)
Definition f22_3 : float := S754_finite false 6276891980647629 (-48).
Definition f25_1 : float := S754_finite false 7065021915437466 (-48).

(** The entity as the platform sets it up, with the default temperature
    range of the configuration schema. *)
Definition fresh_entity : Entity :=
  XiaomiAirConditionM1.__init__ "bedroom" "zhimi.aircondition.ma1-x" 16 30.

Definition fresh (d : Device) : World := mkWorld fresh_entity d [] 0.

(** The same entity once it believes the unit to be off. *)
Definition switched_off (d : Device) : World :=
  mkWorld (with_hvac_mode (HvacStr HVAC_MODE_OFF) fresh_entity) d [] 0.

(** The world after the nine requests of one [status] refresh. *)
Definition asked (d : Device) : World :=
  mkWorld fresh_entity d
    (map (fun p => request "get_prop" (PList [PStr p])) AirConditionM1.properties) 0.

(** ** The calls of the host

    The host drives the entity by calling its coroutines one after another.
    [Operation] names these calls and [perform] dispatches them; [run_all]
    performs a sequence of calls, going on after a call that raised, as the
    host does. *)

Inductive Operation :=
| Turn_on
| Turn_off
| Update
| Set_temperature (kwargs : TemperatureArgs)
| Set_preset_mode (preset_mode : string)
| Turn_aux_heat_on
| Turn_aux_heat_off
| Set_swing_mode (swing_mode : string)
| Set_fan_mode (fan_mode : string)
| Set_hvac_mode (hvac_mode : string).

Definition perform (op : Operation) : M unit :=
  match op with
  | Turn_on => XiaomiAirConditionM1.async_turn_on
  | Turn_off => XiaomiAirConditionM1.async_turn_off
  | Update => XiaomiAirConditionM1.async_update
  | Set_temperature kwargs => XiaomiAirConditionM1.async_set_temperature kwargs
  | Set_preset_mode preset_mode => XiaomiAirConditionM1.async_set_preset_mode preset_mode
  | Turn_aux_heat_on => XiaomiAirConditionM1.async_turn_aux_heat_on
  | Turn_aux_heat_off => XiaomiAirConditionM1.async_turn_aux_heat_off
  | Set_swing_mode swing_mode => XiaomiAirConditionM1.async_set_swing_mode swing_mode
  | Set_fan_mode fan_mode => XiaomiAirConditionM1.async_set_fan_mode fan_mode
  | Set_hvac_mode hvac_mode => XiaomiAirConditionM1.async_set_hvac_mode hvac_mode
  end.

Fixpoint run_all (ops : list Operation) (w : World) : World :=
  match ops with
  | [] => w
  | op :: rest => run_all rest (perform op w).2
  end.

(** A computation respects a relation on worlds when the world it leaves
    is related to the world it started in, whether it returns or raises. *)
Definition respects (R : World -> World -> Prop) {A} (m : M A) : Prop :=
  forall w, R w (m w).2.

(** A computation is quiet when no [DeviceException] escapes from it. *)
Definition quiet {A} (m : M A) : Prop :=
  forall w e, (m w).1 = Raise e -> is_DeviceException e = false.

(** The same for a plain result. *)
Definition quiet_result {A} (r : res A) : Prop :=
  forall e, r = Raise e -> is_DeviceException e = false.

(** The world only grew by requests that satisfy [P], on the same device. *)
Definition grew_by (P : Request -> Prop) (w w' : World) : Prop :=
  device w' = device w /\
  exists requests, sent w' = (sent w ++ requests)%list /\ Forall P requests.

(** The fields that the configuration fixes. *)
Definition same_configuration (w w' : World) : Prop :=
  _name (self w') = _name (self w) /\
  _unique_id (self w') = _unique_id (self w) /\
  _min_temp (self w') = _min_temp (self w) /\
  _max_temp (self w') = _max_temp (self w) /\
  _wind_level (self w') = _wind_level (self w).

(** The stored modes are modes that the entity knows: the hvac mode is
    unset, one of [hvac_modes] or a member of [OperationMode]; the fan mode
    is unset or one of [fan_modes]; the swing mode is unset or one of
    [swing_modes]. *)
Definition known_modes (e : Entity) : Prop :=
  match _hvac_mode e with
  | HvacNone => True
  | HvacStr s => In s (XiaomiAirConditionM1.hvac_modes e)
  | HvacOperation _ => True
  end /\
  match _last_on_operation e with
  | None => True
  | Some s => In s (XiaomiAirConditionM1.hvac_modes e)
  end /\
  match _fan_mode e with
  | None => True
  | Some s => In s (XiaomiAirConditionM1.fan_modes e)
  end /\
  match _swing_mode e with
  | None => True
  | Some s => In s (XiaomiAirConditionM1.swing_modes e)
  end.

(** ** [climate.py]: setting the platform up *)

Module Climate.

Definition MODEL_AIRCONDITION_MA2 := "xiaomi.aircondition.ma2".
Definition MODEL_SA1 := "zhimi.aircondition.sa1".
Definition MODEL_MA1 := "zhimi.aircondition.ma1".
Definition MODEL_MA2 := "zhimi.aircondition.ma2".
Definition MODEL_MA3 := "zhimi.aircondition.ma3".
Definition MODEL_MA4 := "zhimi.aircondition.ma4".
Definition MODEL_VA1 := "zhimi.aircondition.va1".
Definition MODEL_ZA1 := "zhimi.aircondition.za1".
Definition MODEL_ZA2 := "zhimi.aircondition.za2".

Definition MODELS_SUPPORTED : list string :=
  [MODEL_AIRCONDITION_MA2; MODEL_SA1; MODEL_MA1; MODEL_MA2; MODEL_MA3;
   MODEL_MA4; MODEL_VA1; MODEL_ZA1; MODEL_ZA2].

(** The attributes of the result of [Device.info()] that the set-up reads;
    the device library gives [None] for an attribute the device did not
    report. *)
Record DeviceInfo := {
  model : option string;
  mac_address : option string;
  firmware_version : option string;
  hardware_version : option string
}.

(** The validated configuration entry. *)
Record Config := {
  host : string;
  token : string;
  name : string;
  min_temp : Z;
  max_temp : Z
}.

(** The entity handed to the host.  [XiaomiAirConditionC1] lives in
    [ac_c1.py]; only the arguments of its construction are kept here. *)
Inductive Companion :=
| C1 (name host token unique_id : string) (min_temp max_temp : Z)
| M1 (host token : string) (entity : Entity).

(** How the set-up ends: with one call of [async_add_devices], with
    [PlatformNotReady], or with another exception passing through. *)
Inductive Outcome :=
| Added (devices : list Companion) (update_before_add : bool)
| PlatformNotReady
| Propagated (e : exn).

(** [str(x)] inside [format]. *)
Definition str (x : option string) : string :=
  match x with
  | Some s => s
  | None => "None"
  end.

(** [model not in MODELS_SUPPORTED]. *)
Definition supported (model : option string) : bool :=
  match model with
  | Some m => existsb (String.eqb m) MODELS_SUPPORTED
  | None => false
  end.

(** [model == MODEL_AIRCONDITION_MA2]. *)
Definition is_ma2 (model : option string) : bool :=
  match model with
  | Some m => String.eqb m MODEL_AIRCONDITION_MA2
  | None => false
  end.

(** [info] is what [Device(host, token).info()] does. *)
Definition async_setup_platform (config : Config) (info : res DeviceInfo) : Outcome :=
  match info with
  | Raise e => if is_DeviceException e then PlatformNotReady else Propagated e
  | Ret device_info =>
      let model := model device_info in
      if negb (supported model) then PlatformNotReady
      else
        let unique_id := (str model ++ "-" ++ str (mac_address device_info))%string in
        let air_condition_companion :=
          if is_ma2 model then
            C1 (name config) (host config) (token config) unique_id
               (min_temp config) (max_temp config)
          else
            M1 (host config) (token config)
               (XiaomiAirConditionM1.__init__ (name config) unique_id
                  (min_temp config) (max_temp config)) in
        Added [air_condition_companion] true
  end.

(** The unique id of the entity handed to the host. *)
Definition unique_id_of (companion : Companion) : string :=
  match companion with
  | C1 _ _ _ unique_id _ _ => unique_id
  | M1 _ _ entity => XiaomiAirConditionM1.unique_id entity
  end.

End Climate.

(** ** More devices for the examples *)

(** A unit that answers every request with an error word. *)
Definition refusing : Device := fun _ _ => Answer (PList [PStr "error"]).

(** A unit that is cooling at wind level 2 with the swing and the
    auxiliary heat on, and one whose wind level is 6. *)
Definition cooling : Device := reporting "on" "cooling" 223 251 "on" 2 "on".
Definition gusty : Device := reporting "on" "cooling" 223 251 "on" 6 "on".

(** The entity once it believes the unit to be cooling. *)
Definition believes_cool (d : Device) : World :=
  mkWorld (with_hvac_mode (HvacStr HVAC_MODE_COOL) fresh_entity) d [] 0.


(** The methods of the requests that the entity can make: the one that
    reads a property and the ones that command the unit. *)
Definition commands : list string :=
  ["set_power"; "set_mode"; "set_temperature"; "set_ptc"; "set_vertical";
   "set_spd_level"].

Definition vocabulary : list string := "get_prop" :: commands.

(** The world differs only in the entity. *)
Definition same_traffic (w w' : World) : Prop :=
  device w' = device w /\ sent w' = sent w.

(** The readings that only a poll refreshes are the same, and the entity
    did not become available. *)
Definition same_readings (w w' : World) : Prop :=
  _current_temperature (self w') = _current_temperature (self w) /\
  _aux_heat (self w') = _aux_heat (self w) /\
  _last_on_operation (self w') = _last_on_operation (self w) /\
  _state_attrs (self w') = _state_attrs (self w) /\
  (_available (self w') = true -> _available (self w) = true).

(** The entity once a poll has found the unit. *)
Definition found (d : Device) : World :=
  mkWorld (with_available true fresh_entity) d [] 0.

(** A property of the entity that holds afterwards if it held before. *)
Definition keeps (I : Entity -> Prop) (w w' : World) : Prop :=
  I (self w) -> I (self w').

(** The entity is the same. *)
Definition same_entity (w w' : World) : Prop := self w' = self w.

(** What [status] returns for the unit whose wind level is 6. *)
Definition gusty_report : AirConditionStatus.t :=
  AirConditionStatus.mk
    (dict_of (combine AirConditionM1.properties
                [PStr "on"; PStr "cooling"; PInt 223; PInt 251; PStr "on";
                 PInt 6; PStr "on"; PStr "off"; PStr "off"])).

(** A configuration entry and two answers of [Device.info()]. *)
Definition bedroom : Climate.Config :=
  {| Climate.host := "192.168.1.20";
     Climate.token := "00112233445566778899aabbccddeeff";
     Climate.name := "bedroom";
     Climate.min_temp := 16;
     Climate.max_temp := 30 |}.

Definition info_of (model mac : string) : Climate.DeviceInfo :=
  {| Climate.model := Some model;
     Climate.mac_address := Some mac;
     Climate.firmware_version := Some "2.0.6";
     Climate.hardware_version := Some "esp8266" |}.

(** What [status] returns for the unit that is switched off. *)
Definition resting_report : AirConditionStatus.t :=
  AirConditionStatus.mk
    (dict_of (combine AirConditionM1.properties
                [PStr "off"; PStr "automode"; PInt 260; PInt 251; PStr "off";
                 PInt 5; PStr "off"; PStr "off"; PStr "off"])).

(** * Properties *)

Import XiaomiAirConditionM1.

Local Open Scope list_scope.

(** ** Running computations *)

Lemma bind_run {A B} (m : M A) (k : A -> M B) (w : World) :
  (m ≫= k) w =
  match m w with
  | (Ret a, w') => k a w'
  | (Raise e, w') => (Raise e, w')
  end.
Proof. reflexivity. Qed.

Ltac run :=
  repeat (rewrite bind_run
          || (progress cbn [lift raise get set skip mret M_ret
                              self device sent scheduled fst snd])).

(** [result == SUCCESS] holds of the list [['ok']] and of nothing else. *)
Lemma eq_SUCCESS_iff (result : pyval) :
  eq_SUCCESS result = true <-> result = SUCCESS.
Proof.
  split.
  - destruct result as [| | | | |l]; try discriminate.
    destruct l as [|v [|? ?]]; try discriminate.
    destruct v; try discriminate.
    cbn. intros H. apply String.eqb_eq in H. now subst.
  - intros ->. reflexivity.
Qed.

Lemma eq_SUCCESS_false (result : pyval) :
  result <> SUCCESS -> eq_SUCCESS result = false.
Proof.
  intros H. destruct (eq_SUCCESS result) eqn:E; [|reflexivity].
  apply eq_SUCCESS_iff in E. contradiction.
Qed.

(** ** [Device.send] *)

Lemma send_run (command : string) (parameters : pyval) (w : World) :
  AirConditionM1.send command parameters w =
  (match device w (sent w) (request command parameters) with
   | Answer result => Ret result
   | Failure => Raise DeviceException
   end,
   mkWorld (self w) (device w) (sent w ++ [request command parameters]) (scheduled w)).
Proof.
  unfold AirConditionM1.send, request.
  now destruct (device w (sent w) _).
Qed.

(** ** [_try_command] *)

Lemma try_command_run (mask_error : string) (func : M pyval) (w : World) :
  _try_command mask_error func w =
  match func w with
  | (Ret result, w') =>
      (Ret (eq_SUCCESS result),
       mkWorld (self w') (device w') (sent w') (S (scheduled w')))
  | (Raise e, w') =>
      if is_DeviceException e then
        (Ret false,
         mkWorld (with_available false (self w')) (device w') (sent w') (scheduled w'))
      else (Raise e, w')
  end.
Proof.
  unfold _try_command, try_except. run.
  destruct (func w) as [[result|e] w']; [reflexivity|].
  now destruct e.
Qed.

(** C10. [_try_command] returns [True] exactly when the wrapped call
    completes and returns the list [['ok']].  When the call raises
    [DeviceException] the exception is not propagated: the method returns
    [False] and the entity's [_available] flag is [False] afterwards.  When
    the call completes with any other result the method returns [False] and
    [_available] is what the call left. *)
Theorem try_command_contract (mask_error : string) (func : M pyval) (w : World) :
  let out := _try_command mask_error func w in
  (out.1 = Ret true <-> exists w1, func w = (Ret SUCCESS, w1)) /\
  (forall w1, func w = (Raise DeviceException, w1) ->
     out.1 = Ret false /\ _available (self out.2) = false) /\
  (forall result w1, func w = (Ret result, w1) -> result <> SUCCESS ->
     out.1 = Ret false /\ _available (self out.2) = _available (self w1)).
Proof.
  cbn zeta. rewrite try_command_run.
  destruct (func w) as [[result|e] w'] eqn:E; repeat split.
  - cbn. intros H. injection H as H. apply eq_SUCCESS_iff in H.
    subst. now exists w'.
  - intros [w1 H]. injection H as -> _. reflexivity.
  - discriminate.
  - discriminate.
  - injection H as -> ->. cbn. now rewrite eq_SUCCESS_false.
  - injection H as -> ->. reflexivity.
  - destruct e; cbn; discriminate.
  - intros [w1 H]. discriminate.
  - injection H as -> ->. reflexivity.
  - injection H as -> ->. reflexivity.
  - discriminate.
  - discriminate.
Qed.

(** Powering on an unreachable unit, and a unit that answers. *)
Lemma try_command_contract_witness :
  let mask := "Turning the miio device on failed." in
  let failed := _try_command mask AirConditionM1.on (fresh unreachable) in
  let done := _try_command mask AirConditionM1.on (fresh drying) in
  (failed.1 = Ret false /\ _available (self failed.2) = false) /\
  done.1 = Ret true.
Proof.
  cbn zeta. split.
  - destruct (try_command_contract "Turning the miio device on failed."
                AirConditionM1.on (fresh unreachable)) as (_ & H & _).
    apply (H (mkWorld fresh_entity unreachable [power_on_request] 0)).
    reflexivity.
  - destruct (try_command_contract "Turning the miio device on failed."
                AirConditionM1.on (fresh drying)) as (H & _).
    apply H. exists (mkWorld fresh_entity drying [power_on_request] 0).
    reflexivity.
Defined.

(** C2. While the stored hvac mode is [HVAC_MODE_DRY], [async_set_fan_mode]
    returns at once: nothing is sent and no field of the entity, the stored
    fan mode included, changes. *)
Theorem set_fan_mode_refused_in_dry (fan_mode : string) (w : World) :
  _hvac_mode (self w) = HvacStr HVAC_MODE_DRY ->
  async_set_fan_mode fan_mode w = (Ret tt, w) /\
  sent (async_set_fan_mode fan_mode w).2 = sent w /\
  _fan_mode (self (async_set_fan_mode fan_mode w).2) = _fan_mode (self w).
Proof.
  intros Hdry.
  assert (E : async_set_fan_mode fan_mode w = (Ret tt, w)).
  { unfold async_set_fan_mode. run. unfold supported_features.
    change (Z.land SUPPORT_FLAGS SUPPORT_FAN_MODE =? 0)%Z with false.
    run. rewrite Hdry. reflexivity. }
  now rewrite E.
Qed.

(** The drying unit, once polled, refuses the fan mode [auto]. *)
Lemma set_fan_mode_refused_in_dry_witness :
  _hvac_mode (self (async_update (fresh drying)).2) = HvacStr HVAC_MODE_DRY /\
  async_set_fan_mode "auto" (async_update (fresh drying)).2
    = (Ret tt, (async_update (fresh drying)).2).
Proof.
  split; [vm_compute; reflexivity|].
  refine (proj1 (set_fan_mode_refused_in_dry "auto" (async_update (fresh drying)).2 _)).
  vm_compute; reflexivity.
Defined.

(** C9. While the stored hvac mode is [HVAC_MODE_OFF] or
    [HVAC_MODE_FAN_ONLY], [async_set_temperature] returns at once: nothing is
    sent, and the stored target temperature and hvac mode are unchanged. *)
Theorem set_temperature_ignored_when_off_or_fan (kwargs : TemperatureArgs) (w : World) :
  _hvac_mode (self w) = HvacStr HVAC_MODE_OFF \/
  _hvac_mode (self w) = HvacStr HVAC_MODE_FAN_ONLY ->
  async_set_temperature kwargs w = (Ret tt, w) /\
  sent (async_set_temperature kwargs w).2 = sent w /\
  _target_temperature (self (async_set_temperature kwargs w).2)
    = _target_temperature (self w) /\
  _hvac_mode (self (async_set_temperature kwargs w).2) = _hvac_mode (self w).
Proof.
  intros Hmode.
  assert (E : async_set_temperature kwargs w = (Ret tt, w)).
  { unfold async_set_temperature. run.
    destruct Hmode as [-> | ->]; reflexivity. }
  now rewrite E.
Qed.

(** The entity that believes the unit to be off ignores a new target of 24
    degrees. *)
Lemma set_temperature_ignored_when_off_or_fan_witness :
  _hvac_mode (self (switched_off drying)) = HvacStr HVAC_MODE_OFF /\
  async_set_temperature
    {| kw_temperature := Some (float_of_int 24); kw_hvac_mode := None |}
    (switched_off drying) = (Ret tt, switched_off drying).
Proof.
  split; [reflexivity|].
  refine (proj1 (set_temperature_ignored_when_off_or_fan
                   {| kw_temperature := Some (float_of_int 24); kw_hvac_mode := None |}
                   (switched_off drying) _)).
  left. reflexivity.
Defined.

(** ** [async_set_hvac_mode] *)

Lemma HVACMode_of_value_inv (v : string) (m : HVACMode.t) :
  HVACMode.of_value v = Ret m -> HVACMode.value m = v.
Proof.
  unfold HVACMode.of_value.
  destruct (find _ _) as [m'|] eqn:F; [|discriminate].
  intros H. injection H as ->.
  apply find_some in F. destruct F as [_ F].
  now apply String.eqb_eq in F.
Qed.

(** C1. When the stored hvac mode is [off] and the target mode is not
    [off], the first request of [async_set_hvac_mode] is [set_power on], and
    the only request that can follow it is one [set_mode].  If powering on
    fails (the device raises or answers anything but [['ok']]) nothing
    follows and the stored hvac mode is unchanged; if it succeeds and the
    target is a mode of the entity, the [set_mode] request for that mode
    follows. *)
Theorem power_on_precedes_set_mode (hvac_mode : string) (w : World) :
  hvac_mode <> HVAC_MODE_OFF ->
  _hvac_mode (self w) = HvacStr HVAC_MODE_OFF ->
  let w' := (async_set_hvac_mode hvac_mode w).2 in
  exists rest,
    sent w' = sent w ++ power_on_request :: rest /\
    (rest = [] \/ exists mode, rest = [set_mode_request mode]) /\
    (device w (sent w) power_on_request <> Answer SUCCESS ->
       rest = [] /\ _hvac_mode (self w') = _hvac_mode (self w)) /\
    (device w (sent w) power_on_request = Answer SUCCESS ->
       forall m, HVACMode.of_value hvac_mode = Ret m ->
       exists mode, OperationMode.name mode = HVACMode.name m /\
                    rest = [set_mode_request mode]).
Proof.
  intros Hnot_off Hoff. cbn zeta.
  unfold async_set_hvac_mode.
  destruct (String.eqb_spec hvac_mode HVAC_MODE_OFF) as [|_]; [contradiction|].
  run. rewrite Hoff. cbn [hvac_eq]. change (String.eqb _ _) with true. cbn iota.
  run. rewrite try_command_run. unfold AirConditionM1.on. rewrite send_run.
  fold power_on_request.
  destruct (device w (sent w) power_on_request) as [result|] eqn:Hreply.
  2:{ (* the device raises *)
      cbn. exists []. repeat split; auto. discriminate. }
  destruct (eq_SUCCESS result) eqn:Hok.
  2:{ (* the device answers something else *)
      cbn. exists []. repeat split; auto.
      intros E. injection E as ->. discriminate. }
  apply eq_SUCCESS_iff in Hok. subst result.
  cbn [negb]. cbn iota. run.
  destruct (HVACMode.of_value hvac_mode) as [m|e] eqn:Hm.
  2:{ (* the target is no mode of the entity *)
      cbn. exists []. repeat split; auto; discriminate. }
  assert (Hv := HVACMode_of_value_inv _ _ Hm).
  destruct m; try (cbn in Hv; congruence);
    run; cbn [hvac_title _hvac_mode with_hvac_mode with_state];
    change (title _) with "Cool" || change (title _) with "Dry"
      || change (title _) with "Fan_Only" || change (title _) with "Heat";
    match goal with
    | |- context [OperationMode.of_name ?n] =>
        let r := eval vm_compute in (OperationMode.of_name n) in
        change (OperationMode.of_name n) with r
    end;
    run; rewrite try_command_run; unfold AirConditionM1.set_mode;
    rewrite send_run; cbn [self device sent scheduled];
    match goal with
    | |- context [request "set_mode" (PStr (OperationMode.value ?om))] =>
        exists [set_mode_request om]
    end;
    (split;
     [match goal with
      | |- context [device w ?h ?r] =>
          destruct (device w h r); [destruct (eq_SUCCESS _)|];
          cbn; now rewrite <- app_assoc
      end|]);
    (split; [right; eexists; reflexivity|]);
    (split; [intros H; now elim H|]);
    intros _ m' Hm'; injection Hm' as <-;
    eexists; (split; [|reflexivity]); reflexivity.
Qed.

(** The entity that believes the unit to be off is asked to cool. *)
Lemma power_on_precedes_set_mode_witness :
  "cool" <> HVAC_MODE_OFF /\
  _hvac_mode (self (switched_off drying)) = HvacStr HVAC_MODE_OFF /\
  exists rest,
    sent (async_set_hvac_mode "cool" (switched_off drying)).2
      = sent (switched_off drying) ++ power_on_request :: rest /\
    (rest = [] \/ exists mode, rest = [set_mode_request mode]) /\
    (device (switched_off drying) (sent (switched_off drying)) power_on_request
       <> Answer SUCCESS ->
       rest = [] /\
       _hvac_mode (self (async_set_hvac_mode "cool" (switched_off drying)).2)
         = _hvac_mode (self (switched_off drying))) /\
    (device (switched_off drying) (sent (switched_off drying)) power_on_request
       = Answer SUCCESS ->
       forall m, HVACMode.of_value "cool" = Ret m ->
       exists mode, OperationMode.name mode = HVACMode.name m /\
                    rest = [set_mode_request mode]).
Proof.
  split; [discriminate|]. split; [reflexivity|].
  apply (power_on_precedes_set_mode "cool" (switched_off drying));
    [discriminate | reflexivity].
Defined.

(** ** Requests made by the device operations *)

(** The loop of [status] asks for the properties one at a time, in order,
    and stops at the first request that raises or whose answer cannot be
    iterated. *)
Lemma status_loop_requests (props : list string) :
  forall (values : list pyval) (w : World),
  exists n, n <= length props /\
    sent (AirConditionM1.status_loop props values w).2
      = sent w ++ map get_prop_request (take n props) /\
    (forall vs w', AirConditionM1.status_loop props values w = (Ret vs, w') ->
       n = length props).
Proof.
  induction props as [|p rest IH]; intros values w.
  - exists 0. cbn. rewrite app_nil_r. auto.
  - cbn [AirConditionM1.status_loop]. rewrite bind_run, send_run.
    fold (get_prop_request p).
    destruct (device w (sent w) (get_prop_request p)) as [reply|].
    + rewrite bind_run. cbn [lift].
      destruct (iterate reply) as [items|e].
      * match goal with
        | |- context [AirConditionM1.status_loop rest ?vs ?w1] =>
            destruct (IH vs w1) as (n & Hn & Hsent & Hall)
        end.
        exists (S n). split; [cbn; lia|]. split.
        -- rewrite Hsent. cbn. now rewrite <- app_assoc.
        -- intros vs w' E. cbn. f_equal. eauto.
      * exists 1. split; [cbn; lia|]. split; [reflexivity|]. discriminate.
    + exists 1. split; [cbn; lia|]. split; [reflexivity|]. discriminate.
Qed.

(** C3 (amended). Every operation of the device wrapper other than [status]
    and [set_preset_mode] makes exactly one call of [Device.send] once its
    argument is accepted (a wind level from 0 to 7, a temperature whose
    tenfold is a finite number).  A [status] refresh makes one ['get_prop']
    request per property, in the order of the property list: nine when it
    returns, and the requests for a prefix of the list when it raises. *)
Theorem device_operations_requests (w : World) :
  sent (AirConditionM1.on w).2 = sent w ++ [request "set_power" (PStr "on")] /\
  sent (AirConditionM1.off w).2 = sent w ++ [request "set_power" (PStr "off")] /\
  sent (AirConditionM1.turn_aux_heat_on w).2
    = sent w ++ [request "set_ptc" (PStr "on")] /\
  sent (AirConditionM1.turn_aux_heat_off w).2
    = sent w ++ [request "set_ptc" (PStr "off")] /\
  (forall swing, sent (AirConditionM1.set_swing swing w).2
     = sent w ++ [request "set_vertical" (PStr (if swing then "on" else "off"))]) /\
  (forall dry, sent (AirConditionM1.set_dry dry w).2
     = sent w ++ [request "set_dry" (PStr (if dry then "on" else "off"))]) /\
  (forall sleep, sent (AirConditionM1.set_sleep sleep w).2
     = sent w ++ [request "set_silent" (PStr (if sleep then "on" else "off"))]) /\
  (forall mode, sent (AirConditionM1.set_mode mode w).2
     = sent w ++ [set_mode_request mode]) /\
  (forall level, (0 <= level <= 7)%Z ->
     sent (AirConditionM1.set_wind_level level w).2
     = sent w ++ [request "set_spd_level" (PList [PInt level])]) /\
  (forall x t, int_of_float (float_mul10 x) = Ret t ->
     sent (AirConditionM1.set_temperature (Some x) w).2
     = sent w ++ [request "set_temperature" (PList [PInt t])]) /\
  (exists n, n <= 9 /\
     sent (AirConditionM1.status w).2
       = sent w ++ map get_prop_request (take n AirConditionM1.properties) /\
     (forall st w', AirConditionM1.status w = (Ret st, w') -> n = 9)).
Proof.
  repeat match goal with |- _ /\ _ => split end.
  - unfold AirConditionM1.on. now rewrite send_run.
  - unfold AirConditionM1.off. now rewrite send_run.
  - unfold AirConditionM1.turn_aux_heat_on. rewrite bind_run, send_run.
    now destruct (device w _ _).
  - unfold AirConditionM1.turn_aux_heat_off. rewrite bind_run, send_run.
    now destruct (device w _ _).
  - intros []; unfold AirConditionM1.set_swing; now rewrite send_run.
  - intros []; unfold AirConditionM1.set_dry; now rewrite send_run.
  - intros []; unfold AirConditionM1.set_sleep; now rewrite send_run.
  - intros mode. unfold AirConditionM1.set_mode. now rewrite send_run.
  - intros level Hlevel. unfold AirConditionM1.set_wind_level.
    replace ((level <? 0) || (level >? 7))%Z with false by lia.
    now rewrite send_run.
  - intros x t Ht. unfold AirConditionM1.set_temperature.
    rewrite bind_run. cbn [lift]. rewrite Ht. now rewrite send_run.
  - unfold AirConditionM1.status.
    destruct (status_loop_requests AirConditionM1.properties [] w)
      as (n & Hn & Hsent & Hall).
    exists n. split; [exact Hn|]. split.
    + rewrite bind_run.
      destruct (AirConditionM1.status_loop _ _ w) as [[vs|e] w1]; exact Hsent.
    + intros st w'. rewrite bind_run.
      destruct (AirConditionM1.status_loop _ _ w) as [[vs|e] w1] eqn:E;
        [|discriminate].
      intros _. now apply (Hall vs w1).
Qed.

(** C3 as stated fails: one refresh of a unit that answers
    every request makes nine requests. *)
Lemma status_sends_nine_requests :
  sent (AirConditionM1.status (fresh drying)).2
    = map get_prop_request AirConditionM1.properties /\
  length (sent (AirConditionM1.status (fresh drying)).2) = 9 /\
  ~ exists r, sent (AirConditionM1.status (fresh drying)).2
              = sent (fresh drying) ++ [r].
Proof.
  split; [vm_compute; reflexivity|].
  split; [vm_compute; reflexivity|].
  intros [r H]. apply (f_equal length) in H. vm_compute in H. discriminate.
Qed.

(** ** [async_update] *)

Lemma hvac_mode_of_operation_inv (mode hvac : string) :
  hvac_mode_of_operation mode = Some hvac ->
  (mode = "cooling" /\ hvac = "cool") \/ (mode = "arefaction" /\ hvac = "dry") \/
  (mode = "wind" /\ hvac = "fan_only") \/ (mode = "heat" /\ hvac = "heat").
Proof.
  unfold hvac_mode_of_operation.
  repeat match goal with
         | |- context [String.eqb mode ?s] => destruct (String.eqb_spec mode s)
         end; intros H; try discriminate; injection H as <-; auto 6.
Qed.

(** What [async_update] does once [status] has returned. *)
Lemma async_update_after_status (w w1 : World) (st : AirConditionStatus.t) :
  AirConditionM1.status w = (Ret st, w1) ->
  forall mode hvac,
  AirConditionStatus.item st "mode" = PStr mode ->
  hvac_mode_of_operation mode = Some hvac ->
  let off := eq_str (AirConditionStatus.power st) "off" in
  _hvac_mode (self (async_update w).2)
    = HvacStr (if off then HVAC_MODE_OFF else hvac) /\
  _state (self (async_update w).2) = Some (negb off) /\
  _last_on_operation (self (async_update w).2) = Some hvac.
Proof.
  intros Hstatus mode hvac Hmode Hhvac. cbn zeta.
  unfold async_update, try_except. rewrite bind_run, Hstatus. run.
  unfold mode_name, AirConditionStatus.mode. rewrite Hmode.
  apply hvac_mode_of_operation_inv in Hhvac.
  destruct Hhvac as [[-> ->]|[[-> ->]|[[-> ->]|[-> ->]]]];
    cbn [OperationMode.of_value OperationMode.members find eq_str
         OperationMode.value String.eqb Ascii.eqb Bool.eqb HVAC_MODE_HEAT
         OperationMode.name];
    run;
    destruct (eq_str (AirConditionStatus.power st) "off");
    run;
    (destruct (AirConditionStatus.target_temp st) as [target|e1];
       [|destruct e1; repeat split; reflexivity]);
    run;
    (destruct (AirConditionStatus.temperature st) as [current|e2];
       [|destruct e2; repeat split; reflexivity]);
    run;
    (destruct (FanSpeed.of_value (AirConditionStatus.wind_level st)) as [fan|e3];
       [|destruct e3; repeat split; reflexivity]);
    run;
    (destruct (SwingMode.of_value (AirConditionStatus.swing st)) as [swing|e4];
       [|destruct e4; repeat split; reflexivity]);
    run; repeat split; reflexivity.
Qed.

(** C4 (amended). For every poll in which [status] returns and the reported
    mode is one of [cooling], [arefaction], [wind] and [heat],
    [async_update] stores [off] as hvac mode when the reported power is
    ["off"], and otherwise the hvac mode of the table ([cool], [dry],
    [fan_only], [heat]); the state flag is [False] in the first case and
    [True] in the second. *)
Theorem async_update_sets_hvac_mode
    (w w1 : World) (st : AirConditionStatus.t) (mode hvac : string) :
  AirConditionM1.status w = (Ret st, w1) ->
  AirConditionStatus.item st "mode" = PStr mode ->
  hvac_mode_of_operation mode = Some hvac ->
  hvac_mode (self (async_update w).2)
    = HvacStr (if eq_str (AirConditionStatus.power st) "off"
               then HVAC_MODE_OFF else hvac) /\
  _state (self (async_update w).2)
    = Some (negb (eq_str (AirConditionStatus.power st) "off")).
Proof.
  intros Hstatus Hmode Hhvac.
  destruct (async_update_after_status w w1 st Hstatus mode hvac Hmode Hhvac)
    as (H1 & H2 & _).
  split; assumption.
Qed.

(** A poll of the drying unit. *)
Lemma async_update_sets_hvac_mode_witness :
  AirConditionM1.status (fresh drying) = (Ret drying_report, asked drying) /\
  AirConditionStatus.item drying_report "mode" = PStr "arefaction" /\
  hvac_mode_of_operation "arefaction" = Some "dry" /\
  hvac_mode (self (async_update (fresh drying)).2) = HvacStr "dry" /\
  _state (self (async_update (fresh drying)).2) = Some true.
Proof.
  assert (Hstatus : AirConditionM1.status (fresh drying)
                    = (Ret drying_report, asked drying))
    by (vm_compute; reflexivity).
  assert (Hmode : AirConditionStatus.item drying_report "mode" = PStr "arefaction")
    by (vm_compute; reflexivity).
  assert (Hpower : eq_str (AirConditionStatus.power drying_report) "off" = false)
    by (vm_compute; reflexivity).
  pose proof (async_update_sets_hvac_mode
                (fresh drying) (asked drying) drying_report "arefaction" "dry"
                Hstatus Hmode eq_refl) as H.
  rewrite Hpower in H.
  exact (conj Hstatus (conj Hmode (conj eq_refl H))).
Defined.

(** C4 as stated fails: a unit that reports the power ["off"]
    and the mode ["automode"] makes the poll raise [ValueError], and the
    stored hvac mode stays what it was instead of becoming [off]. *)
Lemma async_update_unknown_mode :
  (exists st w1,
     AirConditionM1.status (fresh resting) = (Ret st, w1) /\
     AirConditionStatus.power st = PStr "off" /\
     AirConditionStatus.item st "mode" = PStr "automode") /\
  (async_update (fresh resting)).1 = Raise ValueError /\
  hvac_mode (self (fresh resting)) = HvacNone /\
  hvac_mode (self (async_update (fresh resting)).2) = HvacNone /\
  hvac_mode (self (async_update (fresh resting)).2) <> HvacStr HVAC_MODE_OFF.
Proof.
  split.
  - destruct (AirConditionM1.status (fresh resting)) as [[st|e] w1] eqn:E;
      [|vm_compute in E; discriminate].
    exists st, w1. split; [reflexivity|].
    vm_compute in E. injection E as <- _. split; vm_compute; reflexivity.
  - repeat match goal with
           | |- _ /\ _ => split; [vm_compute; reflexivity|]
           end.
    vm_compute. discriminate.
Qed.

(** ** Presets *)

(** C6 (amended). The entity lists the preset names [none], [silence] and
    [comfort], but [supported_features] does not advertise preset-mode
    support: it is the union of target temperature, fan mode, auxiliary heat
    and swing mode, and nothing else. *)
Theorem presets_are_not_advertised (e : Entity) :
  preset_modes e = ["none"; "silence"; "comfort"] /\
  Z.land (supported_features e) SUPPORT_PRESET_MODE = 0%Z /\
  supported_features e
    = (SUPPORT_TARGET_TEMPERATURE + SUPPORT_FAN_MODE
       + SUPPORT_AUX_HEAT + SUPPORT_SWING_MODE)%Z /\
  Z.land (supported_features e) SUPPORT_TARGET_TEMPERATURE = SUPPORT_TARGET_TEMPERATURE /\
  Z.land (supported_features e) SUPPORT_FAN_MODE = SUPPORT_FAN_MODE /\
  Z.land (supported_features e) SUPPORT_AUX_HEAT = SUPPORT_AUX_HEAT /\
  Z.land (supported_features e) SUPPORT_SWING_MODE = SUPPORT_SWING_MODE.
Proof. repeat split. Qed.

(** C6 as stated fails: the feature flags of the entity do not
    contain the preset-mode flag. *)
Lemma preset_support_missing :
  Z.testbit (supported_features fresh_entity) 4 = false /\
  SUPPORT_PRESET_MODE = Z.shiftl 1 4 /\
  Z.land (supported_features fresh_entity) SUPPORT_PRESET_MODE <> SUPPORT_PRESET_MODE.
Proof. repeat split. discriminate. Qed.

(** The handler itself sends no preset command: the device wrapper raises
    [NameError] at its first comparison, before it sends anything. *)
Lemma async_set_preset_mode_run (preset_mode : string) (w : World) :
  async_set_preset_mode preset_mode w = (Raise (NameError "PRESET_COMFORT"), w).
Proof. reflexivity. Qed.

(** ** [set_wind_level] *)

Lemma set_wind_level_in_range (level : Z) (w : World) :
  (0 <= level <= 7)%Z ->
  sent (AirConditionM1.set_wind_level level w).2
    = sent w ++ [request "set_spd_level" (PList [PInt level])].
Proof.
  intros H. unfold AirConditionM1.set_wind_level.
  replace ((level <? 0) || (level >? 7))%Z with false by lia.
  now rewrite send_run.
Qed.

Lemma set_wind_level_out_of_range (level : Z) (w : World) :
  (level < 0 \/ 7 < level)%Z ->
  AirConditionM1.set_wind_level level w
    = (Raise (NameError "AirConditionException"), w).
Proof.
  intros H. unfold AirConditionM1.set_wind_level.
  replace ((level <? 0) || (level >? 7))%Z with true by lia.
  reflexivity.
Qed.

(** C8, at the wind level 8: nothing is sent, but the exception that
    reaches the caller is [NameError], which is no [DeviceException]. *)
Theorem set_wind_level_8 :
  AirConditionM1.set_wind_level 8 (fresh drying)
    = (Raise (NameError "AirConditionException"), fresh drying) /\
  is_DeviceException (NameError "AirConditionException") = false /\
  (_try_command "Setting fan mode of the miio device failed."
     (AirConditionM1.set_wind_level 8) (fresh drying)).1
    = Raise (NameError "AirConditionException").
Proof. repeat split. Qed.

(** ** What the entity keeps between operations *)

(** A poll in which [status] returns and every conversion succeeds. *)
Lemma async_update_completes (w w1 : World) (st : AirConditionStatus.t)
    (mode hvac : string) (target current : float) (fan : FanSpeed.t)
    (swing : SwingMode.t) :
  AirConditionM1.status w = (Ret st, w1) ->
  AirConditionStatus.item st "mode" = PStr mode ->
  hvac_mode_of_operation mode = Some hvac ->
  AirConditionStatus.target_temp st = Ret target ->
  AirConditionStatus.temperature st = Ret current ->
  FanSpeed.of_value (AirConditionStatus.wind_level st) = Ret fan ->
  SwingMode.of_value (AirConditionStatus.swing st) = Ret swing ->
  (async_update w).1 = Ret tt /\
  sent (async_update w).2 = sent w1 /\
  _available (self (async_update w).2) = true /\
  _target_temperature (self (async_update w).2) = Some target /\
  _current_temperature (self (async_update w).2) = Some current /\
  _fan_mode (self (async_update w).2) = Some (FanSpeed.name fan) /\
  _swing_mode (self (async_update w).2) = Some (SwingMode.name swing) /\
  _aux_heat (self (async_update w).2) = Some (AirConditionStatus.is_aux_heat st).
Proof.
  intros Hstatus Hmode Hhvac Htarget Hcurrent Hfan Hswing.
  unfold async_update, try_except. rewrite bind_run, Hstatus. run.
  unfold mode_name, AirConditionStatus.mode. rewrite Hmode.
  apply hvac_mode_of_operation_inv in Hhvac.
  destruct Hhvac as [[-> ->]|[[-> ->]|[[-> ->]|[-> ->]]]];
    cbn [OperationMode.of_value OperationMode.members find eq_str
         OperationMode.value String.eqb Ascii.eqb Bool.eqb HVAC_MODE_HEAT
         OperationMode.name];
    run;
    destruct (eq_str (AirConditionStatus.power st) "off").
  all: run; rewrite Htarget; run; rewrite Hcurrent; run; rewrite Hfan; run.
  all: rewrite Hswing; run.
  all: repeat split; reflexivity.
Qed.

(** The requests of [async_set_fan_mode] for a fan mode of the entity. *)
Lemma async_set_fan_mode_requests (fan_mode : string) (speed : FanSpeed.t) (w : World) :
  FanSpeed.of_name (title fan_mode) = Ret speed ->
  sent (async_set_fan_mode fan_mode w).2
    = if hvac_eq (_hvac_mode (self w)) HVAC_MODE_DRY then sent w
      else sent w ++ [request "set_spd_level" (PList [PInt (FanSpeed.value speed)])].
Proof.
  intros Hspeed. unfold async_set_fan_mode. run. unfold supported_features.
  change (Z.land SUPPORT_FLAGS SUPPORT_FAN_MODE =? 0)%Z with false. run.
  destruct (hvac_eq (_hvac_mode (self w)) HVAC_MODE_DRY); [reflexivity|].
  rewrite Hspeed. run. rewrite try_command_run.
  unfold AirConditionM1.set_wind_level.
  replace ((FanSpeed.value speed <? 0) || (FanSpeed.value speed >? 7))%Z
    with false by (destruct speed; reflexivity).
  rewrite send_run. cbn [self device sent scheduled].
  destruct (device w _ _); reflexivity.
Qed.

(** C7 (amended). The entity keeps the device state of the last poll in its
    fields.  After a poll in which [status] returns and every conversion
    succeeds, the properties [available], [hvac_mode], [target_temperature],
    [current_temperature], [fan_mode], [swing_mode] and [is_aux_heat] return
    the values derived from that report, and the poll has made no request
    besides those of [status].  The handler [async_set_fan_mode] consults
    the stored hvac mode: for a fan mode of the entity it sends nothing when
    the stored mode is [dry] and one [set_spd_level] request otherwise. *)
Theorem polled_state_is_kept (w w1 : World) (st : AirConditionStatus.t)
    (mode hvac : string) (target current : float) (fan : FanSpeed.t)
    (swing : SwingMode.t) :
  AirConditionM1.status w = (Ret st, w1) ->
  AirConditionStatus.item st "mode" = PStr mode ->
  hvac_mode_of_operation mode = Some hvac ->
  AirConditionStatus.target_temp st = Ret target ->
  AirConditionStatus.temperature st = Ret current ->
  FanSpeed.of_value (AirConditionStatus.wind_level st) = Ret fan ->
  SwingMode.of_value (AirConditionStatus.swing st) = Ret swing ->
  let w' := (async_update w).2 in
  (async_update w).1 = Ret tt /\
  sent w' = sent w1 /\
  available (self w') = true /\
  hvac_mode (self w')
    = HvacStr (if eq_str (AirConditionStatus.power st) "off"
               then HVAC_MODE_OFF else hvac) /\
  target_temperature (self w') = Some target /\
  current_temperature (self w') = Some current /\
  XiaomiAirConditionM1.fan_mode (self w') = Ret (FanSpeed.name fan) /\
  swing_mode (self w') = Some (SwingMode.name swing) /\
  is_aux_heat (self w') = Some (AirConditionStatus.is_aux_heat st) /\
  (forall fan_mode speed, FanSpeed.of_name (title fan_mode) = Ret speed ->
     sent (async_set_fan_mode fan_mode w').2
       = if hvac_eq (hvac_mode (self w')) HVAC_MODE_DRY then sent w'
         else sent w' ++ [request "set_spd_level"
                            (PList [PInt (FanSpeed.value speed)])]).
Proof.
  intros Hstatus Hmode Hhvac Htarget Hcurrent Hfan Hswing. cbn zeta.
  destruct (async_update_completes w w1 st mode hvac target current fan swing
              Hstatus Hmode Hhvac Htarget Hcurrent Hfan Hswing)
    as (Hrun & Hsent & Ha & Ht & Hc & Hf & Hs & Hx).
  destruct (async_update_after_status w w1 st Hstatus mode hvac Hmode Hhvac)
    as (Hh & _).
  repeat match goal with |- _ /\ _ => split end; try assumption.
  - unfold XiaomiAirConditionM1.fan_mode. now rewrite Hf.
  - intros fan_mode speed Hspeed.
    now apply async_set_fan_mode_requests.
Qed.

(** A poll of the drying unit, followed by a fan-mode command. *)
Lemma polled_state_is_kept_witness :
  AirConditionM1.status (fresh drying) = (Ret drying_report, asked drying) /\
  AirConditionStatus.target_temp drying_report = Ret f22_3 /\
  AirConditionStatus.temperature drying_report = Ret f25_1 /\
  (async_update (fresh drying)).1 = Ret tt /\
  hvac_mode (self (async_update (fresh drying)).2) = HvacStr "dry" /\
  target_temperature (self (async_update (fresh drying)).2) = Some f22_3 /\
  sent (async_set_fan_mode "auto" (async_update (fresh drying)).2).2
    = sent (async_update (fresh drying)).2.
Proof.
  assert (Hstatus : AirConditionM1.status (fresh drying)
                    = (Ret drying_report, asked drying))
    by (vm_compute; reflexivity).
  assert (Hmode : AirConditionStatus.item drying_report "mode" = PStr "arefaction")
    by (vm_compute; reflexivity).
  assert (Htarget : AirConditionStatus.target_temp drying_report = Ret f22_3)
    by (vm_compute; reflexivity).
  assert (Hcurrent : AirConditionStatus.temperature drying_report = Ret f25_1)
    by (vm_compute; reflexivity).
  assert (Hfan : FanSpeed.of_value (AirConditionStatus.wind_level drying_report)
                 = Ret FanSpeed.Auto)
    by (vm_compute; reflexivity).
  assert (Hswing : SwingMode.of_value (AirConditionStatus.swing drying_report)
                   = Ret SwingMode.Off)
    by (vm_compute; reflexivity).
  assert (Hpower : eq_str (AirConditionStatus.power drying_report) "off" = false)
    by (vm_compute; reflexivity).
  pose proof (polled_state_is_kept
                (fresh drying) (asked drying) drying_report "arefaction" "dry"
                f22_3 f25_1 FanSpeed.Auto SwingMode.Off
                Hstatus Hmode eq_refl Htarget Hcurrent Hfan Hswing) as H.
  cbv zeta in H. rewrite Hpower in H.
  destruct H as (H1 & _ & _ & H4 & H5 & _ & _ & _ & _ & H10).
  assert (Hauto : FanSpeed.of_name (title "auto") = Ret FanSpeed.Auto)
    by (vm_compute; reflexivity).
  assert (Hdry : hvac_eq (HvacStr "dry") HVAC_MODE_DRY = true) by reflexivity.
  specialize (H10 "auto" FanSpeed.Auto Hauto). rewrite H4, Hdry in H10.
  exact (conj Hstatus (conj Htarget (conj Hcurrent
           (conj H1 (conj H4 (conj H5 H10)))))).
Defined.

(** C7 as stated fails: the hvac mode read after a poll is the
    value the poll stored, and two worlds with the same device and the same
    request history, which differ only in what the entity stored, answer
    the same fan-mode command differently. *)
Lemma handler_depends_on_stored_mode :
  let polled := (async_update (fresh drying)).2 in
  let forgetful := mkWorld fresh_entity (device polled) (sent polled) (scheduled polled) in
  hvac_mode (self polled) = HvacStr "dry" /\
  hvac_mode (self forgetful) = HvacNone /\
  sent (async_set_fan_mode "auto" polled).2 = sent polled /\
  sent (async_set_fan_mode "auto" forgetful).2
    = sent polled ++ [request "set_spd_level" (PList [PInt 5])] /\
  sent (async_set_fan_mode "auto" polled).2
    <> sent (async_set_fan_mode "auto" forgetful).2.
Proof.
  cbn zeta.
  repeat match goal with
         | |- _ /\ _ => split; [vm_compute; reflexivity|]
         end.
  vm_compute. discriminate.
Qed.

(** ** Binary64 rounding *)

Section Rounding.

Local Open Scope Z_scope.

(** *** Number of binary digits *)

Lemma digits2_pos_bounds (p : positive) :
  2 ^ (Zpos (digits2_pos p) - 1) <= Zpos p < 2 ^ Zpos (digits2_pos p).
Proof.
  induction p as [p IH|p IH|]; cbn [digits2_pos].
  - rewrite Pos2Z.inj_succ.
    replace (Z.succ (Zpos (digits2_pos p)) - 1) with (Z.succ (Zpos (digits2_pos p) - 1)) by lia.
    rewrite !Z.pow_succ_r by lia. lia.
  - rewrite Pos2Z.inj_succ.
    replace (Z.succ (Zpos (digits2_pos p)) - 1) with (Z.succ (Zpos (digits2_pos p) - 1)) by lia.
    rewrite !Z.pow_succ_r by lia. lia.
  - cbn. lia.
Qed.

Lemma Zdigits2_unique (n d : Z) :
  0 < d -> 2 ^ (d - 1) <= n < 2 ^ d -> Zdigits2 n = d.
Proof.
  intros Hd [Hlo Hhi].
  assert (0 < n) by (pose proof (Z.pow_pos_nonneg 2 (d - 1)); lia).
  destruct n as [|p|p]; try lia. cbn [Zdigits2].
  pose proof (digits2_pos_bounds p) as [Hlo' Hhi'].
  set (d' := Zpos (digits2_pos p)) in *.
  destruct (Z.lt_trichotomy d' d) as [Hlt|[Heq|Hgt]]; [|exact Heq|].
  - assert (2 ^ d' <= 2 ^ (d - 1)) by (apply Z.pow_le_mono_r; lia). lia.
  - assert (2 ^ d <= 2 ^ (d' - 1)) by (apply Z.pow_le_mono_r; lia). lia.
Qed.

(** *** Shifting a mantissa to the right *)

Lemma shr_1_nonneg (m : Z) (r s : bool) :
  0 <= m ->
  shr_1 {| shr_m := m; shr_r := r; shr_s := s |}
    = {| shr_m := m / 2; shr_r := Z.odd m; shr_s := r || s |}.
Proof.
  intros Hm. rewrite <- Z.div2_div.
  destruct m as [|[p|p|]|p]; try lia; reflexivity.
Qed.

Lemma iter_pos_nat {A} (f : A -> A) (p : positive) :
  forall x, SpecFloat.iter_pos f p x = Nat.iter (Pos.to_nat p) f x.
Proof.
  induction p as [p IH|p IH|]; intros x; cbn [SpecFloat.iter_pos].
  - rewrite !IH, Pos2Nat.inj_xI. 
    replace (S (2 * Pos.to_nat p))%nat with (S (Pos.to_nat p + Pos.to_nat p))%nat by lia.
    now rewrite Nat.iter_succ_r, Nat.iter_add.
  - rewrite !IH, Pos2Nat.inj_xO.
    replace (2 * Pos.to_nat p)%nat with (Pos.to_nat p + Pos.to_nat p)%nat by lia.
    now rewrite Nat.iter_add.
  - reflexivity.
Qed.

(** After [n >= 1] shifts of an exact mantissa the record holds the
    quotient, the last bit shifted out and whether anything was shifted out
    before it. *)
Lemma shr_iter_exact (m : Z) (n : nat) :
  0 <= m ->
  Nat.iter (S n) shr_1 {| shr_m := m; shr_r := false; shr_s := false |}
    = {| shr_m := m / 2 ^ Z.of_nat (S n);
         shr_r := Z.odd (m / 2 ^ Z.of_nat n);
         shr_s := negb (m mod 2 ^ Z.of_nat n =? 0) |}.
Proof.
  intros Hm. induction n as [|n IH].
  - cbn [Nat.iter]. rewrite shr_1_nonneg by exact Hm.
    change (2 ^ Z.of_nat 1) with 2. change (2 ^ Z.of_nat 0) with 1.
    now rewrite Z.div_1_r, Z.mod_1_r.
  - rewrite Nat.iter_succ, IH.
    assert (Hpow : 0 < 2 ^ Z.of_nat n) by (apply Z.pow_pos_nonneg; lia).
    rewrite shr_1_nonneg by (apply Z.div_pos; [lia | apply Z.pow_pos_nonneg; lia]).
    f_equal.
    + rewrite Z.div_div by lia.
      rewrite (Nat2Z.inj_succ (S n)), Z.pow_succ_r by lia.
      f_equal. lia.
    + rewrite (Nat2Z.inj_succ n), Z.pow_succ_r by lia.
      rewrite (Z.mul_comm 2), Z.rem_mul_r by lia.
      rewrite Zmod_odd.
      pose proof (Z.mod_pos_bound m (2 ^ Z.of_nat n) Hpow).
      destruct (Z.odd (m / 2 ^ Z.of_nat n));
        destruct (Z.eqb_spec (m mod 2 ^ Z.of_nat n) 0);
        match goal with
        | |- context [(?a =? 0)] => destruct (Z.eqb_spec a 0)
        end; cbn [orb negb]; try reflexivity; exfalso; nia.
Qed.

(** *** Rounding to 53 bits *)

Lemma shr_fexp_fits (m e : Z) (l : location) :
  2 ^ 52 <= m < 2 ^ 53 -> -1074 <= e ->
  shr_fexp prec emax m e l = (shr_record_of_loc m l, e).
Proof.
  intros Hm He. unfold shr_fexp.
  rewrite (Zdigits2_unique m 53) by (cbn; lia).
  unfold fexp, emin, prec, emax.
  replace (Z.max (53 + e - 53) (3 - 1024 - 53) - e) with 0 by lia.
  reflexivity.
Qed.

Lemma shr_fexp_one (m e : Z) (l : location) :
  2 ^ 53 <= m < 2 ^ 54 -> -1075 <= e ->
  shr_fexp prec emax m e l = (shr_1 (shr_record_of_loc m l), e + 1).
Proof.
  intros Hm He. unfold shr_fexp.
  rewrite (Zdigits2_unique m 54) by (cbn; lia).
  unfold fexp, emin, prec, emax.
  replace (Z.max (54 + e - 53) (3 - 1024 - 53) - e) with 1 by lia.
  reflexivity.
Qed.

Lemma shr_fexp_exact (m e : Z) (n : positive) :
  2 ^ (52 + Zpos n) <= m < 2 ^ (53 + Zpos n) -> -1074 <= e + Zpos n ->
  shr_fexp prec emax m e loc_Exact
    = ({| shr_m := m / 2 ^ Zpos n;
          shr_r := Z.odd (m / 2 ^ (Zpos n - 1));
          shr_s := negb (m mod 2 ^ (Zpos n - 1) =? 0) |},
       e + Zpos n).
Proof.
  intros Hm He. unfold shr_fexp.
  rewrite (Zdigits2_unique m (53 + Zpos n)) by (replace (53 + Zpos n - 1) with (52 + Zpos n); lia).
  unfold fexp, emin, prec, emax.
  replace (Z.max (53 + Zpos n + e - 53) (3 - 1024 - 53) - e) with (Zpos n) by lia.
  cbn [shr shr_record_of_loc]. rewrite iter_pos_nat.
  destruct (Pos2Nat.is_succ n) as [n' Hn']. rewrite Hn'.
  assert (0 <= m).
  { pose proof (Z.pow_pos_nonneg 2 (52 + Zpos n)). lia. }
  rewrite shr_iter_exact by assumption.
  assert (E : Zpos n = Z.of_nat (S n')) by lia.
  rewrite E. repeat f_equal; lia.
Qed.

(** The rounding of [binary_round_aux] once the first shift is known and
    the rounded mantissa has 53 bits. *)
Lemma binary_round_aux_finite (s : bool) (mx ex : Z) (lx : location)
    (mrs : shr_record) (e1 M : Z) :
  shr_fexp prec emax mx ex lx = (mrs, e1) ->
  round_nearest_even (shr_m mrs) (loc_of_shr_record mrs) = M ->
  2 ^ 52 <= M < 2 ^ 53 -> -1074 <= e1 <= 971 ->
  binary_round_aux prec emax s mx ex lx = S754_finite s (Z.to_pos M) e1.
Proof.
  intros Hshift Hround HM He. unfold binary_round_aux.
  rewrite Hshift, Hround, shr_fexp_fits by lia.
  cbn [shr_record_of_loc shr_m].
  destruct M as [|p|p]; try (cbn in HM; lia).
  unfold prec, emax. replace (e1 <=? 1024 - 53) with true by lia.
  reflexivity.
Qed.

End Rounding.

Section Tenths.

Local Open Scope Z_scope.

Lemma ten_eq : ten = S754_finite false 5629499534213120 (-49).
Proof. reflexivity. Qed.

Lemma loc_of_shr_record_of_loc (m : Z) (l : location) :
  loc_of_shr_record (shr_record_of_loc m l) = l.
Proof. now destruct l as [|[]]. Qed.

(** Division and remainder of a product by a power of two, once the
    product is known as a linear expression. *)
Ltac by_division :=
  match goal with
  | P := _ |- _ => unfold P
  | _ => idtac
  end;
  Z.div_mod_to_equations; lia.

(** [shifted P top half q b h rest]: the product [P] shifted by [top] is
    [q], the last bit shifted out is [b], and the bits below it are
    [rest]. *)
Ltac shifted P top half q b h rest :=
  replace (P / top) with q by by_division;
  replace (P / half) with (b + 2 * h) by by_division;
  replace (P mod half) with rest by by_division;
  rewrite Z.odd_add_mul_2;
  cbn [Z.odd Z.eqb negb loc_of_shr_record round_nearest_even];
  rewrite ?Z.even_add_mul_2; cbn; lia.

(** The product of a 53-bit mantissa with ten, when the exact product is
    [32 * j + d] units of which sixteen make one unit of the result.  The
    two shapes are those the division by ten leaves: [c = 10] when the
    quotient had 53 bits and [c = 20] when it had 54. *)
Lemma mul10_rounds (s : bool) (M e j d c : Z) (n : positive) :
  2 ^ 52 <= M < 2 ^ 53 ->
  2 ^ 52 <= 2 * j < 2 ^ 53 ->
  -1000 <= e <= 900 ->
  (c = 10 /\ n = 53%positive /\ -4 <= d <= 4 \/
   c = 20 /\ n = 52%positive /\ -8 <= d <= 8) ->
  c * M = 32 * j + d ->
  2 ^ 56 <= c * M < 2 ^ 57 ->
  SFmul prec emax (S754_finite s (Z.to_pos M) e) ten
    = S754_finite s (Z.to_pos (2 * j)) (e - 49 + Zpos n).
Proof.
  intros HM Hj He Hshape Hprod Hrange.
  rewrite ten_eq. cbn [SFmul]. rewrite xorb_false_r.
  rewrite Pos2Z.inj_mul, Z2Pos.id by lia.
  set (P := M * 5629499534213120).
  apply binary_round_aux_finite
    with (mrs := {| shr_m := P / 2 ^ Zpos n;
                    shr_r := Z.odd (P / 2 ^ (Zpos n - 1));
                    shr_s := negb (P mod 2 ^ (Zpos n - 1) =? 0) |});
    [ | | lia | lia].
  - apply shr_fexp_exact; [|lia].
    destruct Hshape as [[-> [-> _]]|[-> [-> _]]]; cbn; unfold P; lia.
  - cbn [shr_m].
    destruct Hshape as [[-> [-> Hd]]|[-> [-> Hd]]].
    + (* ten times a mantissa of the quotient: shift by 53 *)
      assert (Hcases : d = -4 \/ d = -2 \/ d = 0 \/ d = 2 \/ d = 4) by lia.
      change (2 ^ Zpos 53) with 9007199254740992.
      change (2 ^ (Zpos 53 - 1)) with 4503599627370496.
      destruct Hcases as [-> | [-> | [-> | [-> | ->]]]].
      * shifted P 9007199254740992 4503599627370496
                (2 * j - 1) 1 (2 * j - 1) 2251799813685248.
      * shifted P 9007199254740992 4503599627370496
                (2 * j - 1) 1 (2 * j - 1) 3377699720527872.
      * shifted P 9007199254740992 4503599627370496 (2 * j) 0 (2 * j) 0.
      * shifted P 9007199254740992 4503599627370496
                (2 * j) 0 (2 * j) 1125899906842624.
      * shifted P 9007199254740992 4503599627370496
                (2 * j) 0 (2 * j) 2251799813685248.
    + (* twenty times a mantissa of the quotient: shift by 52; the two
         outermost cases are ties, which go to the even mantissa [2 * j] *)
      assert (Hcases : d = -8 \/ d = -4 \/ d = 0 \/ d = 4 \/ d = 8) by lia.
      change (2 ^ Zpos 52) with 4503599627370496.
      change (2 ^ (Zpos 52 - 1)) with 2251799813685248.
      destruct Hcases as [-> | [-> | [-> | [-> | ->]]]].
      * shifted P 4503599627370496 2251799813685248
                (1 + 2 * (j - 1)) 1 (2 * j - 1) 0.
      * shifted P 4503599627370496 2251799813685248
                (2 * j - 1) 1 (2 * j - 1) 1125899906842624.
      * shifted P 4503599627370496 2251799813685248 (2 * j) 0 (2 * j) 0.
      * shifted P 4503599627370496 2251799813685248
                (2 * j) 0 (2 * j) 1125899906842624.
      * shifted P 4503599627370496 2251799813685248
                (0 + 2 * j) 1 (2 * j) 0.
Qed.

Lemma shr_m_of_loc (m : Z) (l : location) : shr_m (shr_record_of_loc m l) = m.
Proof. now destruct l as [|[]]. Qed.

(** The quotient of [32 * j] units by ten, rounded to 53 bits: the
    mantissa [M], its exponent [e], and the distance [d] of [c * M] from
    [32 * j]. *)
Lemma div10_rounds (s : bool) (j e0 : Z) :
  2 ^ 56 <= 32 * j < 2 ^ 57 ->
  -1000 <= e0 <= 900 ->
  exists (M e d c : Z) (n : positive),
    binary_round_aux prec emax s (32 * j / 10) e0
      (new_location 10 ((32 * j) mod 10)) = S754_finite s (Z.to_pos M) e /\
    2 ^ 52 <= M < 2 ^ 53 /\
    (c = 10 /\ n = 53%positive /\ -4 <= d <= 4 \/
     c = 20 /\ n = 52%positive /\ -8 <= d <= 8) /\
    c * M = 32 * j + d /\
    2 ^ 56 <= c * M < 2 ^ 57 /\
    e - 49 + Zpos n = e0 + 4.
Proof.
  intros Hj He.
  pose proof (Z.div_mod (32 * j) 10 ltac:(lia)) as Hdiv.
  pose proof (Z.mod_pos_bound (32 * j) 10 ltac:(lia)) as Hrem.
  set (q := 32 * j / 10) in *. set (r := (32 * j) mod 10) in *.
  clearbody q r.
  change (2 ^ 56) with 72057594037927936 in *.
  change (2 ^ 57) with 144115188075855872 in *.
  change (2 ^ 52) with 4503599627370496.
  change (2 ^ 53) with 9007199254740992.
  assert (Hr : r = 0 \/ r = 2 \/ r = 4 \/ r = 6 \/ r = 8) by lia.
  destruct (Z_lt_le_dec q 9007199254740992) as [Hsmall|Hlarge].
  - (* the quotient has 53 bits: no shift, and the remainder alone decides *)
    assert (Hshift : forall l, shr_fexp prec emax q e0 l = (shr_record_of_loc q l, e0)).
    { intros l. apply shr_fexp_fits; [cbn|]; lia. }
    assert (Hround : forall M d,
               round_nearest_even q (new_location 10 r) = M ->
               10 * M = 32 * j + d -> -4 <= d <= 4 ->
               exists (M e d c : Z) (n : positive),
                 binary_round_aux prec emax s q e0 (new_location 10 r)
                   = S754_finite s (Z.to_pos M) e /\
                 4503599627370496 <= M < 9007199254740992 /\
                 (c = 10 /\ n = 53%positive /\ -4 <= d <= 4 \/
                  c = 20 /\ n = 52%positive /\ -8 <= d <= 8) /\
                 c * M = 32 * j + d /\
                 72057594037927936 <= c * M < 144115188075855872 /\
                 e - 49 + Zpos n = e0 + 4).
    { intros M d HM Hd Hdd. exists M, e0, d, 10, 53%positive.
      split.
      - eapply binary_round_aux_finite; [apply Hshift| | cbn; lia | lia].
        now rewrite shr_m_of_loc, loc_of_shr_record_of_loc.
      - repeat split; first [lia | left; repeat split; lia]. }
    destruct Hr as [-> | [-> | [-> | [-> | ->]]]].
    + apply (Hround q 0); [reflexivity | lia..].
    + apply (Hround q (-2)); [reflexivity | lia..].
    + apply (Hround q (-4)); [reflexivity | lia..].
    + apply (Hround (q + 1) 4); [reflexivity | lia..].
    + apply (Hround (q + 1) 2); [reflexivity | lia..].
  - (* the quotient has 54 bits: one shift, and its last bit counts too *)
    assert (Hshift : forall l,
               shr_fexp prec emax q e0 l = (shr_1 (shr_record_of_loc q l), e0 + 1)).
    { intros l. apply shr_fexp_one; [cbn|]; lia. }
    assert (Hone : forall rb sb,
               shr_1 {| shr_m := q; shr_r := rb; shr_s := sb |}
               = {| shr_m := q / 2; shr_r := Z.odd q; shr_s := rb || sb |}).
    { intros rb sb. apply shr_1_nonneg. lia. }
    assert (Hround : forall M d,
               round_nearest_even (q / 2)
                 (loc_of_shr_record
                    (shr_1 (shr_record_of_loc q (new_location 10 r)))) = M ->
               20 * M = 32 * j + d -> -8 <= d <= 8 ->
               exists (M e d c : Z) (n : positive),
                 binary_round_aux prec emax s q e0 (new_location 10 r)
                   = S754_finite s (Z.to_pos M) e /\
                 4503599627370496 <= M < 9007199254740992 /\
                 (c = 10 /\ n = 53%positive /\ -4 <= d <= 4 \/
                  c = 20 /\ n = 52%positive /\ -8 <= d <= 8) /\
                 c * M = 32 * j + d /\
                 72057594037927936 <= c * M < 144115188075855872 /\
                 e - 49 + Zpos n = e0 + 4).
    { intros M d HM Hd Hdd. exists M, (e0 + 1), d, 20, 52%positive.
      split.
      - eapply binary_round_aux_finite; [apply Hshift| | lia | lia].
        rewrite <- HM. f_equal.
        destruct (new_location 10 r) as [|[]]; cbn [shr_record_of_loc];
          now rewrite Hone.
      - repeat split; first [lia | right; repeat split; lia]. }
    assert (Hparity : Z.odd q = Z.odd (q - 2 * (q / 2))).
    { replace q with ((q - 2 * (q / 2)) + 2 * (q / 2)) at 1 by lia.
      apply Z.odd_add_mul_2. }
    destruct Hr as [-> | [-> | [-> | [-> | ->]]]].
    + assert (Hq : q - 2 * (q / 2) = 0) by (Z.div_mod_to_equations; lia).
      apply (Hround (q / 2) 0); [ | lia..].
      change (new_location 10 0) with loc_Exact. cbn [shr_record_of_loc].
      now rewrite Hone, Hparity, Hq.
    + assert (Hq : q - 2 * (q / 2) = 1) by (Z.div_mod_to_equations; lia).
      apply (Hround (q / 2 + 1) 8); [ | lia..].
      change (new_location 10 2) with (loc_Inexact Lt). cbn [shr_record_of_loc].
      now rewrite Hone, Hparity, Hq.
    + assert (Hq : q - 2 * (q / 2) = 0) by (Z.div_mod_to_equations; lia).
      apply (Hround (q / 2) (-4)); [ | lia..].
      change (new_location 10 4) with (loc_Inexact Lt). cbn [shr_record_of_loc].
      now rewrite Hone, Hparity, Hq.
    + assert (Hq : q - 2 * (q / 2) = 1) by (Z.div_mod_to_equations; lia).
      apply (Hround (q / 2 + 1) 4); [ | lia..].
      change (new_location 10 6) with (loc_Inexact Gt). cbn [shr_record_of_loc].
      now rewrite Hone, Hparity, Hq.
    + assert (Hq : q - 2 * (q / 2) = 0) by (Z.div_mod_to_equations; lia).
      apply (Hround (q / 2) (-8)); [ | lia..].
      change (new_location 10 8) with (loc_Inexact Gt). cbn [shr_record_of_loc].
      now rewrite Hone, Hparity, Hq.
Qed.

(** The division of a positive integer of at most 53 bits by ten, before
    rounding. *)
Lemma SFdiv_core_10 (k d : Z) :
  0 < k -> Zdigits2 k = d -> 1 <= d <= 53 ->
  SFdiv_core_binary prec emax k 0 10 0
    = (k * 2 ^ (57 - d) / 10, d - 57, new_location 10 ((k * 2 ^ (57 - d)) mod 10)).
Proof.
  intros Hk Hd Hrange. unfold SFdiv_core_binary. rewrite Hd.
  change (Zdigits2 10) with 4.
  unfold fexp, emin, prec, emax.
  replace (Z.min (Z.max (d + 0 - (4 + 0) - 53) (3 - 1024 - 53)) (0 - 0))
    with (d - 57) by lia.
  replace (0 - 0 - (d - 57)) with (57 - d) by lia.
  destruct (57 - d) as [|p|p] eqn:Hs; try lia.
  rewrite Z.shiftl_mul_pow2 by lia.
  unfold Z.div, Z.modulo.
  now destruct (Z.div_eucl (k * 2 ^ Zpos p) 10).
Qed.

(** Kahan's identity for the divisor ten: an integer of magnitude at most
    [2 ^ 52], divided by ten and multiplied by ten in binary64, is
    recovered exactly. *)
Lemma int_div10_mul10 (n : Z) :
  Z.abs n <= 2 ^ 52 ->
  exists t, int_div10 n = Ret t /\ int_of_float (float_mul10 t) = Ret n.
Proof.
  intros Hn.
  destruct (Z.eq_dec n 0) as [->|Hnz].
  { exists (S754_zero false). split; reflexivity. }
  set (k := Z.abs n). set (s := n <? 0).
  assert (Hk : 0 < k <= 2 ^ 52) by (unfold k; lia).
  assert (Hsign : n = if s then - k else k).
  { unfold s, k. destruct (Z.ltb_spec n 0); lia. }
  set (d := Zdigits2 k).
  assert (Hbits : 2 ^ (d - 1) <= k < 2 ^ d /\ 0 < d).
  { unfold d. destruct k as [|p|p]; try lia. cbn [Zdigits2].
    split; [apply digits2_pos_bounds | lia]. }
  destruct Hbits as [Hbits Hd].
  assert (Hd53 : d <= 53).
  { destruct (Z_le_gt_dec d 53) as [H|H]; [exact H|].
    assert (2 ^ 53 <= 2 ^ (d - 1)) by (apply Z.pow_le_mono_r; lia).
    change (2 ^ 52) with 4503599627370496 in Hk.
    change (2 ^ 53) with 9007199254740992 in *. lia. }
  (* the scaled numerator is a multiple of 32 with 57 bits *)
  assert (Hpow : 2 ^ (d - 1) * 2 ^ (57 - d) = 2 ^ 56).
  { rewrite <- Z.pow_add_r by lia. f_equal. lia. }
  assert (Hpow' : 2 ^ (57 - d) = 16 * 2 ^ (53 - d)).
  { change 16 with (2 ^ 4). rewrite <- Z.pow_add_r by lia. f_equal. lia. }
  assert (Hpos : 0 < 2 ^ (53 - d)) by (apply Z.pow_pos_nonneg; lia).
  assert (Hj : exists j, k * 2 ^ (57 - d) = 32 * j /\ 2 * j = k * 2 ^ (53 - d)).
  { destruct (Z.eq_dec d 53) as [E|E].
    - assert (k = 2 ^ 52).
      { rewrite E in Hbits. change (53 - 1) with 52 in Hbits. lia. }
      exists (2 ^ 51). rewrite E, H. split; reflexivity.
    - exists (k * 2 ^ (52 - d)).
      assert (2 ^ (53 - d) = 2 * 2 ^ (52 - d)).
      { change 2 with (2 ^ 1) at 2. rewrite <- Z.pow_add_r by lia. f_equal. lia. }
      rewrite Hpow'. lia. }
  destruct Hj as (j & Hj & Hj2).
  assert (Hrange : 2 ^ 56 <= 32 * j < 2 ^ 57).
  { rewrite <- Hj. change (2 ^ 57) with (2 * 2 ^ 56). rewrite <- Hpow.
    assert (2 ^ d = 2 * 2 ^ (d - 1)).
    { change 2 with (2 ^ 1) at 2. rewrite <- Z.pow_add_r by lia. f_equal. lia. }
    assert (0 < 2 ^ (57 - d)) by (apply Z.pow_pos_nonneg; lia).
    nia. }
  destruct (div10_rounds s j (d - 57) Hrange ltac:(lia))
    as (M & e & dd & c & p & Hdiv & HM & Hshape & Hprod & Hprange & He).
  exists (S754_finite s (Z.to_pos M) e). split.
  - unfold int_div10. destruct n as [|pn|pn]; [lia| |];
      fold k; fold s;
      rewrite (SFdiv_core_10 k d) by (auto; lia);
      rewrite Hj, Hdiv; reflexivity.
  - unfold float_mul10.
    assert (Hjr : 2 ^ 52 <= 2 * j < 2 ^ 53).
    { change (2 ^ 56) with (16 * 2 ^ 52) in Hrange.
      change (2 ^ 57) with (16 * 2 ^ 53) in Hrange. lia. }
    rewrite (mul10_rounds s M e j dd c p HM Hjr ltac:(lia) Hshape Hprod Hprange).
    rewrite He. unfold int_of_float.
    replace (d - 57 + 4) with (d - 53) by lia.
    destruct (d - 53) as [|pe|pe] eqn:Hexp; try lia.
    + rewrite Z.shiftl_0_r, Z2Pos.id by lia.
      replace (53 - d) with 0 in Hj2 by lia. rewrite Hj2, Hsign.
      change (2 ^ 0) with 1. rewrite Z.mul_1_r. now destruct s.
    + rewrite Z.shiftr_div_pow2, Z2Pos.id by lia.
      replace (Zpos pe) with (53 - d) by lia.
      rewrite Hj2, Z.div_mul by lia. rewrite Hsign. now destruct s.
Qed.

End Tenths.

(** ** Temperature conversion *)

(** C5 (amended). For every integer [k] of magnitude at most [2 ^ 52], let
    [t] be the float [k / 10], the binary64 number nearest to [k] tenths.
    Then [set_temperature(t)] sends the integer [int(t * 10) = k], and a
    status report whose [st_temp_dec] is [k] has the target temperature [t];
    likewise a report whose [temp_dec] is [k] has the current temperature
    [t]. *)
Theorem temperature_roundtrip (k : Z) :
  (Z.abs k <= 2 ^ 52)%Z ->
  exists t : float,
    int_div10 k = Ret t /\
    int_of_float (float_mul10 t) = Ret k /\
    (forall w, sent (AirConditionM1.set_temperature (Some t) w).2
               = sent w ++ [request "set_temperature" (PList [PInt k])]) /\
    (forall st, AirConditionStatus.item st "st_temp_dec" = PInt k ->
                AirConditionStatus.target_temp st = Ret t) /\
    (forall st, AirConditionStatus.item st "temp_dec" = PInt k ->
                AirConditionStatus.temperature st = Ret t).
Proof.
  intros Hk. destruct (int_div10_mul10 k Hk) as (t & Hdiv & Hmul).
  exists t. split; [exact Hdiv|]. split; [exact Hmul|]. split; [|split].
  - intros w. unfold AirConditionM1.set_temperature.
    rewrite bind_run. cbn [lift]. rewrite Hmul. now rewrite send_run.
  - intros st Hst. unfold AirConditionStatus.target_temp. now rewrite Hst.
  - intros st Hst. unfold AirConditionStatus.temperature. now rewrite Hst.
Qed.

(** The temperature 22.3 degrees. *)
Lemma temperature_roundtrip_witness :
  (Z.abs 223 <= 2 ^ 52)%Z /\
  exists t : float,
    int_div10 223 = Ret t /\
    int_of_float (float_mul10 t) = Ret 223%Z /\
    (forall w, sent (AirConditionM1.set_temperature (Some t) w).2
               = sent w ++ [request "set_temperature" (PList [PInt 223])]) /\
    (forall st, AirConditionStatus.item st "st_temp_dec" = PInt 223 ->
                AirConditionStatus.target_temp st = Ret t) /\
    (forall st, AirConditionStatus.item st "temp_dec" = PInt 223 ->
                AirConditionStatus.temperature st = Ret t).
Proof.
  split; [vm_compute; discriminate|].
  apply (temperature_roundtrip 223). vm_compute. discriminate.
Defined.

(** C5 as stated fails: the float [980240844817914.5] is ten
    times smaller than the integer [9802408448179145], yet
    [set_temperature] sends [9802408448179144] for it, and a report with
    that [st_temp_dec] has another target temperature. *)
Lemma temperature_roundtrip_fails :
  let t := S754_finite false 7841926758543316 (-3) in
  let t' := S754_finite false 7841926758543315 (-3) in
  int_div10 9802408448179145 = Ret t /\
  (Zpos 7841926758543316 * 10 = 9802408448179145 * 2 ^ 3)%Z /\
  sent (AirConditionM1.set_temperature (Some t) (fresh drying)).2
    = [request "set_temperature" (PList [PInt 9802408448179144])] /\
  AirConditionStatus.target_temp
    (AirConditionStatus.mk (dict_of [("st_temp_dec", PInt 9802408448179144)]))
    = Ret t' /\
  t' <> t.
Proof.
  cbn zeta.
  repeat match goal with
         | |- _ /\ _ => split; [vm_compute; reflexivity|]
         end.
  discriminate.
Qed.

(** * Properties of the operations taken together *)

(** ** Rules for [respects] and [quiet] *)

Section Rules.

Context {R : World -> World -> Prop}.
Hypothesis R_refl : forall w, R w w.
Hypothesis R_trans : forall w1 w2 w3, R w1 w2 -> R w2 w3 -> R w1 w3.

Lemma respects_ret {A} (a : A) : respects R (mret a : M A).
Proof. intros w. apply R_refl. Qed.

Lemma respects_lift {A} (r : res A) : respects R (lift r).
Proof. intros w. apply R_refl. Qed.

Lemma respects_get {A} (f : Entity -> A) : respects R (get f).
Proof. intros w. apply R_refl. Qed.

Lemma respects_bind {A B} (m : M A) (k : A -> M B) :
  respects R m -> (forall a, respects R (k a)) -> respects R (m ≫= k).
Proof.
  intros Hm Hk w. rewrite bind_run. specialize (Hm w).
  destruct (m w) as [[a|e] w1]; cbn in *; [|exact Hm].
  eapply R_trans; [exact Hm | apply Hk].
Qed.

(** [get] followed by a continuation that may use what it read. *)
Lemma respects_get_bind {A B} (f : Entity -> A) (k : A -> M B) :
  (forall w, R w (k (f (self w)) w).2) -> respects R (get f ≫= k).
Proof. intros Hk w. rewrite bind_run. cbn. apply Hk. Qed.

Lemma respects_try_except {A} (body handler : M A) (catches : exn -> bool) :
  respects R body -> respects R handler ->
  respects R (try_except body catches handler).
Proof.
  intros Hb Hh w. unfold try_except. specialize (Hb w).
  destruct (body w) as [[a|e] w1]; cbn in *; [exact Hb|].
  destruct (catches e); [|exact Hb].
  eapply R_trans; [exact Hb | apply Hh].
Qed.

End Rules.

Lemma quiet_ret {A} (a : A) : quiet (mret a : M A).
Proof. intros w e H. discriminate. Qed.

Lemma quiet_get {A} (f : Entity -> A) : quiet (get f).
Proof. intros w e H. discriminate. Qed.

Lemma quiet_set (u : Entity -> Entity) : quiet (set u).
Proof. intros w e H. discriminate. Qed.

Lemma quiet_lift {A} (r : res A) : quiet_result r -> quiet (lift r).
Proof. intros Hr w e H. apply Hr. exact H. Qed.

Lemma quiet_bind {A B} (m : M A) (k : A -> M B) :
  quiet m -> (forall a, quiet (k a)) -> quiet (m ≫= k).
Proof.
  intros Hm Hk w e. rewrite bind_run. specialize (Hm w).
  destruct (m w) as [[a|e'] w1]; cbn in *.
  - apply Hk.
  - intros H. injection H as <-. now apply Hm.
Qed.

(** Whatever the body does, a handler for [DeviceException] leaves none. *)
Lemma quiet_try_except {A} (body handler : M A) :
  quiet handler -> quiet (try_except body is_DeviceException handler).
Proof.
  intros Hh w e. unfold try_except.
  destruct (body w) as [[a|e'] w1]; cbn; [discriminate|].
  destruct (is_DeviceException e') eqn:E.
  - apply Hh.
  - intros H. now injection H as <-.
Qed.

Lemma quiet_try_command (mask_error : string) (func : M pyval) :
  quiet (_try_command mask_error func).
Proof.
  unfold _try_command. apply quiet_try_except.
  apply quiet_bind; [apply quiet_set | intros; apply quiet_ret].
Qed.

(** The look-ups of the enumerations raise [ValueError] or [KeyError]. *)
Lemma quiet_find {A B} (o : option A) (f : A -> B) (e : exn) :
  is_DeviceException e = false ->
  quiet_result (match o with Some a => Ret (f a) | None => Raise e end).
Proof. intros He e' H. destruct o; [discriminate|]. now injection H as <-. Qed.

Lemma quiet_HVACMode_of_value (v : string) : quiet_result (HVACMode.of_value v).
Proof. apply (quiet_find _ (fun m => m)). reflexivity. Qed.

Lemma quiet_OperationMode_of_value (v : pyval) : quiet_result (OperationMode.of_value v).
Proof. apply (quiet_find _ (fun m => m)). reflexivity. Qed.

Lemma quiet_OperationMode_of_name (n : string) : quiet_result (OperationMode.of_name n).
Proof. apply (quiet_find _ (fun m => m)). reflexivity. Qed.

Lemma quiet_FanSpeed_of_name (n : string) : quiet_result (FanSpeed.of_name n).
Proof. apply (quiet_find _ (fun m => m)). reflexivity. Qed.

Lemma quiet_SwingMode_of_name (n : string) : quiet_result (SwingMode.of_name n).
Proof. apply (quiet_find _ (fun m => m)). reflexivity. Qed.

Lemma quiet_hvac_title (v : hvac_mode_value) : quiet_result (hvac_title v).
Proof. intros e H. destruct v; try discriminate; now injection H as <-. Qed.

Create HintDb quiet.
#[local] Hint Resolve quiet_ret quiet_get quiet_set quiet_try_command
  quiet_try_except quiet_HVACMode_of_value quiet_OperationMode_of_value
  quiet_OperationMode_of_name quiet_FanSpeed_of_name quiet_SwingMode_of_name
  quiet_hvac_title : quiet.

Ltac quieten :=
  repeat first
    [ apply quiet_bind; [|intros ?]
    | apply quiet_lift
    | match goal with
      | |- quiet (if ?b then _ else _) => destruct b
      | |- quiet (match ?x with _ => _ end) => destruct x
      end
    | solve [auto with quiet]
    | match goal with
      | |- quiet_result _ =>
          let e := fresh in let H := fresh in
          intros e H; first [discriminate H | injection H as <-; reflexivity]
      end ].

(** X1. No operation of the entity lets a [DeviceException] escape: a unit
    that cannot be reached shows in the [available] flag, never as an
    exception of the device library. *)
Theorem no_device_exception_escapes (op : Operation) (w : World) (e : exn) :
  (perform op w).1 = Raise e -> is_DeviceException e = false.
Proof.
  revert w e. change (quiet (perform op)).
  destruct op; cbn [perform];
    unfold async_turn_on, async_turn_off, async_update, async_set_temperature,
      async_set_preset_mode, async_turn_aux_heat_on, async_turn_aux_heat_off,
      async_set_swing_mode, async_set_fan_mode, async_set_hvac_mode, skip;
    cbv zeta; quieten.
Qed.

(** A fan mode that the entity does not know raises [KeyError]. *)
Lemma no_device_exception_escapes_witness :
  (perform (Set_fan_mode "turbo") (fresh drying)).1 = Raise KeyError /\
  is_DeviceException KeyError = false.
Proof.
  assert (H : (perform (Set_fan_mode "turbo") (fresh drying)).1 = Raise KeyError)
    by (vm_compute; reflexivity).
  exact (conj H (no_device_exception_escapes _ _ _ H)).
Defined.

(** ** What a run of operations leaves alone *)

Lemma respects_raise_bind {R : World -> World -> Prop} {A B}
    (R_refl : forall w, R w w) (e : exn) (k : A -> M B) :
  respects R (lift (Raise e) ≫= k).
Proof. intros w. apply R_refl. Qed.

(** Unfolding the operations down to the steps of the monad. *)
Ltac open_operations :=
  cbn [perform];
  unfold async_turn_on, async_turn_off, async_update, async_set_temperature,
    async_set_preset_mode, async_turn_aux_heat_on, async_turn_aux_heat_off,
    async_set_swing_mode, async_set_fan_mode, async_set_hvac_mode,
    _try_command, schedule_update_ha_state, skip,
    AirConditionM1.status, AirConditionM1.on, AirConditionM1.off,
    AirConditionM1.set_temperature, AirConditionM1.set_preset_mode,
    AirConditionM1.turn_aux_heat_on, AirConditionM1.turn_aux_heat_off,
    AirConditionM1.set_wind_level, AirConditionM1.set_swing,
    AirConditionM1.set_mode, PRESET_COMFORT, PRESET_SLEEP,
    AirConditionException, raise;
  cbv zeta.

(** [respect refl trans leaf]: structural descent through a computation;
    [leaf] settles the steps that write a field or call the device. *)
Ltac respect refl trans leaf :=
  repeat first
    [ apply (respects_raise_bind refl)
    | apply (respects_bind trans); [|intros ?]
    | apply (respects_try_except trans)
    | apply (respects_ret refl)
    | apply (respects_lift refl)
    | apply (respects_get refl)
    | match goal with
      | |- respects _ (if ?b then _ else _) => destruct b
      | |- respects _ (match ?x with _ => _ end) => destruct x
      end
    | leaf ].

Lemma same_configuration_refl (w : World) : same_configuration w w.
Proof. repeat split. Qed.

Lemma same_configuration_trans (w1 w2 w3 : World) :
  same_configuration w1 w2 -> same_configuration w2 w3 -> same_configuration w1 w3.
Proof.
  unfold same_configuration.
  intros (A1 & A2 & A3 & A4 & A5) (B1 & B2 & B3 & B4 & B5).
  repeat split; congruence.
Qed.

Ltac frame_step :=
  let w := fresh "w" in
  intros w; rewrite ?send_run; unfold same_configuration; cbn; repeat split.

Lemma same_configuration_status_loop (props : list string) :
  forall values, respects same_configuration (AirConditionM1.status_loop props values).
Proof.
  induction props as [|p rest IH]; intros values; cbn [AirConditionM1.status_loop].
  - apply (respects_ret same_configuration_refl).
  - respect same_configuration_refl same_configuration_trans
      ltac:(first [apply IH | frame_step]).
Qed.

Lemma same_configuration_perform (op : Operation) :
  respects same_configuration (perform op).
Proof.
  destruct op; open_operations;
    respect same_configuration_refl same_configuration_trans
      ltac:(first [apply same_configuration_status_loop | frame_step]).
Qed.

(** X2. Whatever the host calls and in whatever order, the name, the
    unique id, the temperature limits and the (unused) [_wind_level] of the
    entity stay what [__init__] made them. *)
Theorem configuration_is_kept (ops : list Operation) (w : World) :
  same_configuration w (run_all ops w) /\
  min_temp (self (run_all ops w)) = min_temp (self w) /\
  max_temp (self (run_all ops w)) = max_temp (self w) /\
  unique_id (self (run_all ops w)) = unique_id (self w) /\
  name (self (run_all ops w)) = name (self w).
Proof.
  assert (H : same_configuration w (run_all ops w)).
  { revert w. induction ops as [|op rest IH]; intros w; cbn [run_all].
    - apply same_configuration_refl.
    - eapply same_configuration_trans; [apply same_configuration_perform | apply IH]. }
  split; [exact H|]. destruct H as (H1 & H2 & H3 & H4 & _).
  unfold min_temp, max_temp, unique_id, name. auto.
Qed.

(** ** The requests of a run of operations *)

Lemma grew_by_refl (P : Request -> Prop) (w : World) : grew_by P w w.
Proof. split; [reflexivity|]. exists []. now rewrite app_nil_r. Qed.

Lemma grew_by_trans (P : Request -> Prop) (w1 w2 w3 : World) :
  grew_by P w1 w2 -> grew_by P w2 w3 -> grew_by P w1 w3.
Proof.
  intros (D1 & r1 & S1 & F1) (D2 & r2 & S2 & F2). split; [congruence|].
  exists (r1 ++ r2). rewrite S2, S1, app_assoc. split; [reflexivity|].
  apply Forall_app. now split.
Qed.

Lemma grew_by_send (P : Request -> Prop) (command : string) (parameters : pyval) :
  P (request command parameters) ->
  respects (grew_by P) (AirConditionM1.send command parameters).
Proof.
  intros H w. rewrite send_run. split; [reflexivity|].
  exists [request command parameters]. split; [reflexivity|]. now constructor.
Qed.

Lemma grew_by_set (P : Request -> Prop) (update : Entity -> Entity) :
  respects (grew_by P) (set update).
Proof. intros w. apply (grew_by_refl P (mkWorld _ _ _ _)). Qed.

Lemma grew_by_schedule (P : Request -> Prop) :
  respects (grew_by P) schedule_update_ha_state.
Proof. intros w. apply (grew_by_refl P (mkWorld _ _ _ _)). Qed.

Lemma grew_by_status_loop (P : Request -> Prop) (props : list string) :
  (forall p, P (get_prop_request p)) ->
  forall values, respects (grew_by P) (AirConditionM1.status_loop props values).
Proof.
  intros HP. induction props as [|p rest IH]; intros values;
    cbn [AirConditionM1.status_loop].
  - apply (respects_ret (grew_by_refl P)).
  - respect (grew_by_refl P) (grew_by_trans P)
      ltac:(first [apply IH | apply grew_by_send; apply HP]).
Qed.

Ltac traffic_step P listed :=
  first [ apply (grew_by_set P) | apply (grew_by_schedule P)
        | apply (grew_by_send P); listed ].

Lemma in_vocabulary_get_prop (p : string) :
  In (method (get_prop_request p)) vocabulary.
Proof. now left. Qed.

Lemma grew_by_perform (op : Operation) :
  respects (grew_by (fun r => In (method r) vocabulary)) (perform op).
Proof.
  set (P := fun r => In (method r) vocabulary).
  destruct op; open_operations;
    respect (grew_by_refl P) (grew_by_trans P)
      ltac:(first [ apply (grew_by_status_loop P _ in_vocabulary_get_prop)
                  | traffic_step P ltac:(unfold P; cbn; tauto) ]).
Qed.

(** X3. Whatever the host calls and in whatever order, the entity keeps
    talking to the same device, the log of requests only grows, and every
    request it adds is a [get_prop], [set_power], [set_mode],
    [set_temperature], [set_ptc], [set_vertical] or [set_spd_level]: the
    preset requests [set_comfort] and [set_silence] and the wrapper's
    [set_dry] and [set_silent] are never made. *)
Theorem requests_stay_in_vocabulary (ops : list Operation) (w : World) :
  device (run_all ops w) = device w /\
  exists requests,
    sent (run_all ops w) = sent w ++ requests /\
    Forall (fun r => In (method r) vocabulary) requests /\
    Forall (fun r => ~ In (method r)
                         ["set_comfort"; "set_silence"; "set_dry"; "set_silent"])
           requests.
Proof.
  set (P := fun r => In (method r) vocabulary).
  assert (H : grew_by P w (run_all ops w)).
  { revert w. induction ops as [|op rest IH]; intros w; cbn [run_all].
    - apply grew_by_refl.
    - eapply grew_by_trans; [apply grew_by_perform | apply IH]. }
  destruct H as (D & requests & S & F). split; [exact D|].
  exists requests. split; [exact S|]. split; [exact F|].
  eapply Forall_impl; [exact F|]. intros r Hr Hn.
  unfold P, vocabulary, commands in Hr. cbn in Hr, Hn.
  repeat match goal with
         | H : _ \/ _ |- _ => destruct H
         | H : False |- _ => destruct H
         end; congruence.
Qed.

Lemma same_traffic_refl (w : World) : same_traffic w w.
Proof. now split. Qed.

Lemma same_traffic_trans (w1 w2 w3 : World) :
  same_traffic w1 w2 -> same_traffic w2 w3 -> same_traffic w1 w3.
Proof. intros [A1 A2] [B1 B2]. split; congruence. Qed.

Lemma same_traffic_set (update : Entity -> Entity) :
  respects same_traffic (set update).
Proof. intros w. now split. Qed.

Lemma try_except_bind_run {A B} (m : M A) (k : A -> M B) (catches : exn -> bool)
    (handler : M B) (w : World) :
  try_except (m ≫= k) catches handler w =
  match m w with
  | (Ret a, w1) => try_except (k a) catches handler w1
  | (Raise e, w1) => if catches e then handler w1 else (Raise e, w1)
  end.
Proof.
  unfold try_except. rewrite bind_run. now destruct (m w) as [[a|e] w1].
Qed.

(** A poll talks to the device only through [status]. *)
Lemma async_update_traffic (w : World) :
  same_traffic (AirConditionM1.status w).2 (async_update w).2.
Proof.
  unfold async_update. rewrite try_except_bind_run.
  destruct (AirConditionM1.status w) as [[st|e] w1]; cbn [snd].
  - revert w1.
    match goal with
    | |- forall w1, same_traffic w1 (?m w1).2 => change (respects same_traffic m)
    end.
    respect same_traffic_refl same_traffic_trans ltac:(apply same_traffic_set).
  - destruct (is_DeviceException e); now split.
Qed.

Lemma grew_by_command (op : Operation) :
  op <> Update ->
  respects (grew_by (fun r => In (method r) commands)) (perform op).
Proof.
  set (P := fun r => In (method r) commands).
  destruct op; intros Hop; try (now elim Hop); open_operations;
    respect (grew_by_refl P) (grew_by_trans P)
      ltac:(traffic_step P ltac:(unfold P; cbn; tauto)).
Qed.

(** X4. Reading and commanding are kept apart.  A poll makes [get_prop]
    requests only: those for a prefix of the property list, in its order,
    nine at most.  Every other operation makes requests of the commanding
    methods only and never reads a property; in particular a change of the
    hvac mode is not followed by a refresh. *)
Theorem polling_and_commanding_are_apart (op : Operation) (w : World) :
  exists requests,
    sent (perform op w).2 = sent w ++ requests /\
    match op with
    | Update =>
        exists n, n <= 9 /\
          requests = map get_prop_request (take n AirConditionM1.properties)
    | _ =>
        Forall (fun r => In (method r) commands /\ method r <> "get_prop") requests
    end.
Proof.
  assert (Hcommand : op <> Update ->
    exists requests, sent (perform op w).2 = sent w ++ requests /\
      Forall (fun r => In (method r) commands /\ method r <> "get_prop") requests).
  { intros Hop. destruct (grew_by_command op Hop w) as (_ & requests & S & F).
    exists requests. split; [exact S|].
    eapply Forall_impl; [exact F|]. intros r Hr. split; [exact Hr|].
    intros E. unfold commands in Hr. cbn in Hr.
    repeat match goal with
           | H : _ \/ _ |- _ => destruct H
           | H : False |- _ => destruct H
           end; congruence. }
  destruct op; try (apply Hcommand; discriminate).
  cbn [perform]. destruct (async_update_traffic w) as [_ S]. rewrite S.
  unfold AirConditionM1.status. rewrite bind_run.
  destruct (status_loop_requests AirConditionM1.properties [] w) as (n & Hn & Hs & _).
  exists (map get_prop_request (take n AirConditionM1.properties)). split.
  - rewrite <- Hs. now destruct (AirConditionM1.status_loop _ _ w) as [[vs|e] w1].
  - exists n. split; [exact Hn | reflexivity].
Qed.

(** ** What only a poll changes *)

Lemma same_readings_refl (w : World) : same_readings w w.
Proof. repeat split; auto. Qed.

Lemma same_readings_trans (w1 w2 w3 : World) :
  same_readings w1 w2 -> same_readings w2 w3 -> same_readings w1 w3.
Proof.
  unfold same_readings.
  intros (A1 & A2 & A3 & A4 & A5) (B1 & B2 & B3 & B4 & B5).
  repeat split; try congruence. auto.
Qed.

Ltac readings_step :=
  let w := fresh "w" in
  intros w; rewrite ?send_run; unfold same_readings; cbn;
  repeat split; try discriminate; auto.

(** X5. The current temperature, the auxiliary-heat flag, the last
    operation and the state attributes are refreshed by a poll only: no
    other operation changes them, and no other operation makes an
    unavailable entity available. *)
Theorem only_a_poll_refreshes_readings (op : Operation) (w : World) :
  op <> Update ->
  _current_temperature (self (perform op w).2) = _current_temperature (self w) /\
  _aux_heat (self (perform op w).2) = _aux_heat (self w) /\
  _last_on_operation (self (perform op w).2) = _last_on_operation (self w) /\
  _state_attrs (self (perform op w).2) = _state_attrs (self w) /\
  (_available (self (perform op w).2) = true -> _available (self w) = true).
Proof.
  intros Hop. change (same_readings w (perform op w).2). revert w.
  change (respects same_readings (perform op)).
  destruct op; try (now elim Hop); open_operations;
    respect same_readings_refl same_readings_trans ltac:(readings_step).
Qed.

(** Turning on an entity that a poll has found. *)
Lemma only_a_poll_refreshes_readings_witness :
  Turn_on <> Update /\
  _aux_heat (self (perform Turn_on (found drying)).2) = _aux_heat (self (found drying)).
Proof.
  assert (H : Turn_on <> Update) by discriminate.
  exact (conj H (proj1 (proj2 (only_a_poll_refreshes_readings Turn_on (found drying) H)))).
Defined.

(** ** The stored modes *)

Lemma keeps_refl (I : Entity -> Prop) (w : World) : keeps I w w.
Proof. intros H. exact H. Qed.

Lemma keeps_trans (I : Entity -> Prop) (w1 w2 w3 : World) :
  keeps I w1 w2 -> keeps I w2 w3 -> keeps I w1 w3.
Proof. unfold keeps. auto. Qed.

Ltac modes_step :=
  let w := fresh "w" in
  let H := fresh "H" in
  intros w; run; rewrite ?send_run; unfold keeps, known_modes; cbn;
  intros H; decompose [and] H; clear H;
  repeat match goal with
         | |- context [HVACMode.value ?m] => is_var m; destruct m
         | |- context [FanSpeed.name ?m] => is_var m; destruct m
         | |- context [SwingMode.name ?m] => is_var m; destruct m
         | |- context [match _last_on_operation ?e with _ => _ end] =>
             destruct (_last_on_operation e)
         end;
  cbn; repeat split; auto 12.

(** [respect], with the stored value that [get] reads kept in sight. *)
Ltac respect_reading refl trans leaf :=
  repeat first
    [ apply (respects_raise_bind refl)
    | match goal with
      | |- respects _ (get _last_on_operation ≫= _) =>
          apply respects_get_bind; leaf
      end
    | apply (respects_bind trans); [|intros ?]
    | apply (respects_try_except trans)
    | apply (respects_ret refl)
    | apply (respects_lift refl)
    | apply (respects_get refl)
    | match goal with
      | |- respects _ (if ?b then _ else _) => destruct b
      | |- respects _ (match ?x with _ => _ end) => destruct x
      end
    | leaf ].

Lemma known_modes_status_loop (props : list string) :
  forall values, respects (keeps known_modes) (AirConditionM1.status_loop props values).
Proof.
  induction props as [|p rest IH]; intros values; cbn [AirConditionM1.status_loop].
  - apply (respects_ret (keeps_refl known_modes)).
  - respect (keeps_refl known_modes) (keeps_trans known_modes)
      ltac:(first [apply IH | modes_step]).
Qed.

Lemma known_modes_perform (op : Operation) :
  respects (keeps known_modes) (perform op).
Proof.
  destruct op; open_operations;
    respect_reading (keeps_refl known_modes) (keeps_trans known_modes)
      ltac:(first [apply known_modes_status_loop | modes_step]).
Qed.

(** X6. The stored modes stay within what the entity advertises: through
    any run of operations from a fresh entity, the stored fan mode is unset
    or one of [fan_modes], the stored swing mode is unset or one of
    [swing_modes], the last operation is unset or one of [hvac_modes], and
    the stored hvac mode is unset, one of [hvac_modes], or a member of
    [OperationMode] (which [async_set_temperature] stores). *)
Theorem stored_modes_are_known (ops : list Operation) (w : World) :
  known_modes (self w) -> known_modes (self (run_all ops w)).
Proof.
  revert w. induction ops as [|op rest IH]; intros w H; cbn [run_all].
  - exact H.
  - apply IH. now apply known_modes_perform.
Qed.

(** A poll and a change of the fan mode on a fresh entity. *)
Lemma stored_modes_are_known_witness :
  known_modes (self (fresh cooling)) /\
  known_modes (self (run_all [Update; Set_fan_mode "auto"] (fresh cooling))).
Proof.
  assert (H : known_modes (self (fresh cooling))) by (cbv; tauto).
  exact (conj H (stored_modes_are_known [Update; Set_fan_mode "auto"] (fresh cooling) H)).
Defined.

(** ** The report of [status] *)

Lemma lookup_In {A} (l : list A) (i : nat) (x : A) : l !! i = Some x -> In x l.
Proof.
  revert i. induction l as [|y l IH]; intros [|i] H; try discriminate.
  - injection H as ->. now left.
  - right. exact (IH i H).
Qed.

Lemma In_lookup {A} (l : list A) (x : A) : In x l -> exists i, l !! i = Some x.
Proof.
  induction l as [|y l IH]; intros H; [destruct H|].
  destruct H as [->|H]; [now exists 0|].
  destruct (IH H) as [i Hi]. now exists (S i).
Qed.

(** [dict(zip(keys, values))], read at a key that is not among [keys]. *)
Lemma lookup_zip_absent (keys : list string) :
  forall (values : list pyval) (d : gmap string pyval) (k : string),
  ~ In k keys ->
  foldl (fun d kv => <[kv.1 := kv.2]> d) d (combine keys values) !! k = d !! k.
Proof.
  induction keys as [|k0 keys IH]; intros values d k H; [reflexivity|].
  destruct values as [|v0 values]; [reflexivity|]. cbn.
  rewrite IH by (intros H'; apply H; now right).
  apply lookup_insert_ne. intros ->. apply H. now left.
Qed.

(** ... and at the key of position [i], when the keys are distinct. *)
Lemma lookup_zip_present (keys : list string) :
  forall (values : list pyval) (d : gmap string pyval) (i : nat) (k : string),
  List.NoDup keys -> keys !! i = Some k ->
  foldl (fun d kv => <[kv.1 := kv.2]> d) d (combine keys values) !! k
    = match values !! i with Some v => Some v | None => d !! k end.
Proof.
  induction keys as [|k0 keys IH]; intros values d i k Hd Hi; [discriminate|].
  apply List.NoDup_cons_iff in Hd. destruct Hd as [Hk0 Hd].
  destruct values as [|v0 values]; [reflexivity|]. cbn.
  destruct i as [|i]; cbn in Hi |- *.
  - injection Hi as ->. rewrite lookup_zip_absent by exact Hk0.
    apply lookup_insert_eq.
  - rewrite (IH values _ i k Hd Hi).
    destruct (values !! i); [reflexivity|].
    apply lookup_insert_ne. intros ->. apply Hk0. exact (lookup_In _ _ _ Hi).
Qed.

Lemma properties_distinct : List.NoDup AirConditionM1.properties.
Proof.
  unfold AirConditionM1.properties.
  repeat (apply List.NoDup_cons;
          [cbn; intros H;
           repeat match goal with
                  | H : _ \/ _ |- _ => destruct H
                  | H : False |- _ => destruct H
                  end; discriminate|]).
  apply List.NoDup_nil.
Qed.

Lemma item_of_status (values : list pyval) :
  let st := AirConditionStatus.mk (dict_of (combine AirConditionM1.properties values)) in
  (forall i p, AirConditionM1.properties !! i = Some p ->
     AirConditionStatus.item st p = default PNone (values !! i)) /\
  (forall key, ~ In key AirConditionM1.properties ->
     AirConditionStatus.item st key = PNone).
Proof.
  cbn zeta. unfold AirConditionStatus.item, dict_of.
  cbn [AirConditionStatus.data]. split.
  - intros i p Hi.
    rewrite (lookup_zip_present _ values ∅ i p properties_distinct Hi).
    destruct (values !! i); [reflexivity|]. now rewrite lookup_empty.
  - intros key Hkey. rewrite lookup_zip_absent by exact Hkey.
    now rewrite lookup_empty.
Qed.

(** X7. [status] pairs the values it received with the properties by
    position, whatever their number: the property of position [i] reads
    the [i]-th value, a property beyond the values received reads [None],
    and so does every key that is no property. *)
Theorem status_pairs_values_by_position
    (w w' : World) (st : AirConditionStatus.t) :
  AirConditionM1.status w = (Ret st, w') ->
  exists values,
    AirConditionM1.status_loop AirConditionM1.properties [] w = (Ret values, w') /\
    (forall i p, AirConditionM1.properties !! i = Some p ->
       AirConditionStatus.item st p = default PNone (values !! i)) /\
    (forall key, ~ In key AirConditionM1.properties ->
       AirConditionStatus.item st key = PNone).
Proof.
  unfold AirConditionM1.status. rewrite bind_run.
  destruct (AirConditionM1.status_loop _ _ w) as [[values|e] w1]; [|discriminate].
  cbn. intros H. injection H as <- <-. exists values.
  split; [reflexivity|]. apply item_of_status.
Qed.

(** The report of the drying unit. *)
Lemma status_pairs_values_by_position_witness :
  AirConditionM1.status (fresh drying) = (Ret drying_report, asked drying) /\
  exists values,
    AirConditionM1.status_loop AirConditionM1.properties [] (fresh drying)
      = (Ret values, asked drying) /\
    (forall i p, AirConditionM1.properties !! i = Some p ->
       AirConditionStatus.item drying_report p = default PNone (values !! i)) /\
    (forall key, ~ In key AirConditionM1.properties ->
       AirConditionStatus.item drying_report key = PNone).
Proof.
  assert (H : AirConditionM1.status (fresh drying) = (Ret drying_report, asked drying))
    by (vm_compute; reflexivity).
  exact (conj H (status_pairs_values_by_position _ _ _ H)).
Defined.

Lemma status_loop_answers (f : string -> pyval) (props : list string) :
  forall (values : list pyval) (w : World),
  (forall history p, In p props ->
     device w history (get_prop_request p) = Answer (PList [f p])) ->
  exists w', AirConditionM1.status_loop props values w
               = (Ret (values ++ map f props), w') /\
             sent w' = sent w ++ map get_prop_request props.
Proof.
  induction props as [|p rest IH]; intros values w H.
  - exists w. cbn. now rewrite !app_nil_r.
  - cbn [AirConditionM1.status_loop]. rewrite bind_run, send_run.
    fold (get_prop_request p). rewrite (H (sent w) p) by now left.
    rewrite bind_run. cbn [lift iterate].
    match goal with
    | |- context [AirConditionM1.status_loop rest ?vs ?w1] =>
        destruct (IH vs w1) as (w' & Hrun & Hsent)
    end.
    { intros history q Hq. apply H. now right. }
    exists w'. rewrite Hrun, Hsent. cbn [sent map].
    now rewrite <- !app_assoc.
Qed.

(** X8. When the device answers the request for each property with a list
    of one value, [status] returns, having made the nine requests, and the
    report holds that value under the name of the property. *)
Theorem status_reads_each_property (w : World) (f : string -> pyval) :
  (forall history p, In p AirConditionM1.properties ->
     device w history (get_prop_request p) = Answer (PList [f p])) ->
  exists st w',
    AirConditionM1.status w = (Ret st, w') /\
    sent w' = sent w ++ map get_prop_request AirConditionM1.properties /\
    forall p, In p AirConditionM1.properties -> AirConditionStatus.item st p = f p.
Proof.
  intros H.
  destruct (status_loop_answers f AirConditionM1.properties [] w H)
    as (w' & Hrun & Hsent).
  unfold AirConditionM1.status. rewrite bind_run, Hrun. cbn [app].
  eexists _, w'. split; [reflexivity|]. split; [exact Hsent|].
  intros p Hp. destruct (In_lookup _ _ Hp) as [i Hi].
  destruct (item_of_status (map f AirConditionM1.properties)) as [Hitem _].
  rewrite (Hitem i p Hi).
  change (map f AirConditionM1.properties) with (f <$> AirConditionM1.properties).
  now rewrite list_lookup_fmap, Hi.
Qed.

(** The unit that is cooling. *)
Lemma status_reads_each_property_witness :
  let f := fun p => match cooling [] (get_prop_request p) with
                    | Answer (PList [v]) => v
                    | _ => PNone
                    end in
  (forall history p, In p AirConditionM1.properties ->
     device (fresh cooling) history (get_prop_request p) = Answer (PList [f p])) /\
  exists st w',
    AirConditionM1.status (fresh cooling) = (Ret st, w') /\
    sent w' = sent (fresh cooling) ++ map get_prop_request AirConditionM1.properties /\
    forall p, In p AirConditionM1.properties -> AirConditionStatus.item st p = f p.
Proof.
  cbn zeta.
  assert (H : forall history p, In p AirConditionM1.properties ->
     device (fresh cooling) history (get_prop_request p)
     = Answer (PList [match cooling [] (get_prop_request p) with
                      | Answer (PList [v]) => v
                      | _ => PNone
                      end])).
  { intros history p Hp. cbn in Hp.
    repeat match goal with
           | H : _ \/ _ |- _ => destruct H as [<-|H]
           | H : False |- _ => destruct H
           end; vm_compute; reflexivity. }
  exact (conj H (status_reads_each_property (fresh cooling) _ H)).
Defined.

(** ** Switching on and off *)

(** X9. [async_turn_on] and [async_turn_off] make one [set_power] request
    and return.  The state flag follows the request when the unit answers
    [['ok']] and is left alone otherwise; a unit that cannot be reached
    makes the entity unavailable.  The stored hvac mode is not touched:
    an entity that reads [off] still reads [off] after it was turned on,
    until the next poll. *)
Theorem turning_on_and_off (on : bool) (w : World) :
  let handler := if on then async_turn_on else async_turn_off in
  let power := request "set_power" (PStr (if on then "on" else "off")) in
  let w' := (handler w).2 in
  (handler w).1 = Ret tt /\
  sent w' = sent w ++ [power] /\
  _hvac_mode (self w') = _hvac_mode (self w) /\
  match device w (sent w) power with
  | Answer result =>
      _state (self w') = (if eq_SUCCESS result then Some on else _state (self w)) /\
      _available (self w') = _available (self w)
  | Failure =>
      _state (self w') = _state (self w) /\ _available (self w') = false
  end.
Proof.
  cbn zeta.
  destruct on; unfold async_turn_on, async_turn_off; rewrite bind_run;
    rewrite try_command_run;
    unfold AirConditionM1.on, AirConditionM1.off; rewrite send_run;
    (destruct (device w (sent w) _) as [result|];
       [destruct (eq_SUCCESS result)|]); cbn; auto.
Qed.

(** X10. [async_set_hvac_mode] with the target [off] makes one
    [set_power off] request and returns; the stored hvac mode becomes [off]
    and the state flag [False] exactly when the unit answers [['ok']], and
    both keep their values otherwise. *)
Theorem set_hvac_mode_off (w : World) :
  let power := request "set_power" (PStr "off") in
  let w' := (async_set_hvac_mode HVAC_MODE_OFF w).2 in
  (async_set_hvac_mode HVAC_MODE_OFF w).1 = Ret tt /\
  sent w' = sent w ++ [power] /\
  match device w (sent w) power with
  | Answer result =>
      if eq_SUCCESS result then
        _hvac_mode (self w') = HvacStr HVAC_MODE_OFF /\ _state (self w') = Some false
      else
        _hvac_mode (self w') = _hvac_mode (self w) /\ _state (self w') = _state (self w)
  | Failure =>
      _hvac_mode (self w') = _hvac_mode (self w) /\ _state (self w') = _state (self w) /\
      _available (self w') = false
  end.
Proof.
  cbn zeta. unfold async_set_hvac_mode.
  change (String.eqb HVAC_MODE_OFF HVAC_MODE_OFF) with true. cbv iota.
  rewrite bind_run, try_command_run. unfold AirConditionM1.off. rewrite send_run.
  destruct (device w (sent w) _) as [result|];
    [destruct (eq_SUCCESS result)|]; cbn; auto.
Qed.

(** The modes of [hvac_modes] other than [off], each with the operation
    mode that [async_set_hvac_mode] finds for it. *)
Lemma hvac_mode_operation (e : Entity) (h : string) :
  In h (hvac_modes e) -> h <> HVAC_MODE_OFF ->
  exists (hm : HVACMode.t) (m : OperationMode.t),
    HVACMode.of_value h = Ret hm /\ HVACMode.value hm = h /\
    OperationMode.of_name (title h) = Ret m /\
    HVACMode.of_name (OperationMode.name m) = Ret hm /\
    String.eqb h HVAC_MODE_OFF = false.
Proof.
  unfold hvac_modes. cbn. intros H Hoff.
  destruct H as [<-|[<-|[<-|[<-|[<-|[]]]]]]; [now elim Hoff|..].
  - now exists HVACMode.Cool, OperationMode.Cool.
  - now exists HVACMode.Dry, OperationMode.Dry.
  - now exists HVACMode.Fan_Only, OperationMode.Fan_Only.
  - now exists HVACMode.Heat, OperationMode.Heat.
Qed.

(** X11. A change of the hvac mode is recorded before the unit agrees.
    For a target among [hvac_modes] other than [off], and a stored mode
    other than [off], [async_set_hvac_mode] stores the target and sets the
    state flag, makes exactly one request, a [set_mode], and returns; the
    stored mode is the target even when the unit answers with an error or
    cannot be reached. *)
Theorem set_hvac_mode_is_optimistic (hvac_mode : string) (w : World) :
  In hvac_mode (hvac_modes (self w)) -> hvac_mode <> HVAC_MODE_OFF ->
  hvac_eq (_hvac_mode (self w)) HVAC_MODE_OFF = false ->
  let w' := (async_set_hvac_mode hvac_mode w).2 in
  (async_set_hvac_mode hvac_mode w).1 = Ret tt /\
  _hvac_mode (self w') = HvacStr hvac_mode /\
  _state (self w') = Some true /\
  exists m : OperationMode.t,
    OperationMode.of_name (title hvac_mode) = Ret m /\
    sent w' = sent w ++ [set_mode_request m] /\
    _available (self w') =
      match device w (sent w) (set_mode_request m) with
      | Answer _ => _available (self w)
      | Failure => false
      end.
Proof.
  intros Hin Hoff Hstored. cbn zeta.
  destruct (hvac_mode_operation _ _ Hin Hoff) as (hm & m & Hhm & Hv & Hm & _ & Hneq).
  unfold async_set_hvac_mode. rewrite Hneq. cbv zeta. run. rewrite Hstored.
  rewrite Hhm. run. rewrite Hv. cbn [hvac_title with_hvac_mode with_state _hvac_mode].
  run. rewrite Hm. run. rewrite try_command_run.
  unfold AirConditionM1.set_mode. rewrite send_run. fold (set_mode_request m).
  cbn [self device sent scheduled].
  destruct (device w (sent w) (set_mode_request m)) as [result|] eqn:E.
  - destruct (eq_SUCCESS result); cbn; repeat split; exists m; rewrite E; auto.
  - cbn. repeat split. exists m. rewrite E. auto.
Qed.

(** From [cool] to [heat] on a unit that cannot be reached. *)
Lemma set_hvac_mode_is_optimistic_witness :
  In "heat" (hvac_modes (self (believes_cool unreachable))) /\
  "heat" <> HVAC_MODE_OFF /\
  hvac_eq (_hvac_mode (self (believes_cool unreachable))) HVAC_MODE_OFF = false /\
  _hvac_mode (self (async_set_hvac_mode "heat" (believes_cool unreachable)).2)
    = HvacStr "heat".
Proof.
  assert (H1 : In "heat" (hvac_modes (self (believes_cool unreachable))))
    by (cbn; auto 6).
  assert (H2 : "heat" <> HVAC_MODE_OFF) by discriminate.
  assert (H3 : hvac_eq (_hvac_mode (self (believes_cool unreachable))) HVAC_MODE_OFF
               = false) by reflexivity.
  exact (conj H1 (conj H2 (conj H3
    (proj1 (proj2 (set_hvac_mode_is_optimistic "heat" (believes_cool unreachable)
                     H1 H2 H3)))))).
Defined.

(** Running a handler on a world that is not known. *)
Ltac execute :=
  repeat first
    [ rewrite bind_run
    | rewrite try_command_run
    | rewrite send_run
    | progress cbn [lift raise get set skip mret M_ret self device sent scheduled
                    fst snd negb is_DeviceException]
    | progress unfold AirConditionM1.on, AirConditionM1.off, AirConditionM1.set_mode,
        AirConditionM1.set_swing, AirConditionM1.turn_aux_heat_on,
        AirConditionM1.turn_aux_heat_off
    | match goal with
      | |- context [match device ?w ?s ?r with _ => _ end] => destruct (device w s r)
      | |- context [eq_SUCCESS ?r] => destruct (eq_SUCCESS r)
      end ].

Lemma unknown_hvac_mode (e : Entity) (h : string) :
  ~ In h (hvac_modes e) ->
  HVACMode.of_value h = Raise ValueError /\ String.eqb h HVAC_MODE_OFF = false.
Proof.
  unfold hvac_modes, HVACMode.of_value. cbn [map HVACMode.members find HVACMode.value].
  intros H.
  repeat match goal with
         | |- context [String.eqb ?a h] =>
             destruct (String.eqb_spec a h) as [<-|?]; [elim H; cbn; auto 6|]
         end.
  split; [reflexivity|]. apply String.eqb_neq. intros ->. apply H. now left.
Qed.

(** X12. A target that is not among [hvac_modes] is refused with
    [ValueError], and the stored hvac mode and state flag keep their
    values.  When the stored mode is other than [off] nothing at all has
    happened.  When it is [off], the unit has been asked to power on
    before the target was looked at: [ValueError] then follows a power-on
    that the unit acknowledged, and the method returns silently after one
    that it did not. *)
Theorem set_hvac_mode_rejects_unknown (hvac_mode : string) (w : World) :
  ~ In hvac_mode (hvac_modes (self w)) ->
  let out := async_set_hvac_mode hvac_mode w in
  _hvac_mode (self out.2) = _hvac_mode (self w) /\
  _state (self out.2) = _state (self w) /\
  if hvac_eq (_hvac_mode (self w)) HVAC_MODE_OFF then
    sent out.2 = sent w ++ [power_on_request] /\
    out.1 = match device w (sent w) power_on_request with
            | Answer result => if eq_SUCCESS result then Raise ValueError else Ret tt
            | Failure => Ret tt
            end
  else out = (Raise ValueError, w).
Proof.
  intros Hin. cbn zeta.
  destruct (unknown_hvac_mode _ _ Hin) as [Hvalue Hneq].
  unfold async_set_hvac_mode, power_on_request. rewrite Hneq. cbv zeta.
  rewrite bind_run. cbn [get].
  destruct (hvac_eq (_hvac_mode (self w)) HVAC_MODE_OFF).
  - rewrite bind_run, try_command_run. unfold AirConditionM1.on. rewrite send_run.
    destruct (device w (sent w) _) as [result|];
      [destruct (eq_SUCCESS result)|]; cbn [negb]; run; rewrite ?Hvalue; run; auto.
  - run. rewrite Hvalue. auto.
Qed.

(** The host's mode [auto] on an entity that reads [off]. *)
Lemma set_hvac_mode_rejects_unknown_witness :
  ~ In "auto" (hvac_modes (self (switched_off drying))) /\
  (async_set_hvac_mode "auto" (switched_off drying)).1 = Raise ValueError /\
  sent (async_set_hvac_mode "auto" (switched_off drying)).2 = [power_on_request].
Proof.
  assert (H : ~ In "auto" (hvac_modes (self (switched_off drying)))).
  { cbn. intros H.
    repeat match goal with
           | H : _ \/ _ |- _ => destruct H
           | H : False |- _ => destruct H
           end; discriminate. }
  pose proof (set_hvac_mode_rejects_unknown "auto" (switched_off drying) H) as T.
  cbn zeta in T. destruct T as (_ & _ & T).
  change (hvac_eq (_hvac_mode (self (switched_off drying))) HVAC_MODE_OFF) with true in T.
  cbv iota in T. destruct T as [T1 T2].
  split; [exact H|]. split; [exact T2 | exact T1].
Defined.

Lemma fan_mode_speed (e : Entity) (f : string) :
  In f (fan_modes e) ->
  exists m, FanSpeed.of_name (title f) = Ret m /\ FanSpeed.name m = f.
Proof.
  unfold fan_modes. cbn. intros H.
  destruct H as [<-|[<-|[<-|[<-|[<-|[<-|[]]]]]]];
    [ now exists FanSpeed.Level_1 | now exists FanSpeed.Level_2
    | now exists FanSpeed.Level_3 | now exists FanSpeed.Level_4
    | now exists FanSpeed.Level_5 | now exists FanSpeed.Auto ].
Qed.

Lemma swing_mode_member (e : Entity) (s : string) :
  In s (swing_modes e) ->
  exists m, SwingMode.of_name (title s) = Ret m /\ SwingMode.name m = s.
Proof.
  unfold swing_modes. cbn. intros H.
  destruct H as [<-|[<-|[]]];
    [now exists SwingMode.On | now exists SwingMode.Off].
Qed.

Lemma fan_speed_in_range (m : FanSpeed.t) :
  ((FanSpeed.value m <? 0) || (FanSpeed.value m >? 7))%Z = false.
Proof. now destruct m. Qed.

(** X13. Every mode that the entity advertises is accepted by the handler
    it belongs to: whatever the entity has stored and whatever the unit
    answers, the handler returns without an exception for every member of
    [hvac_modes], of [fan_modes] and of [swing_modes]. *)
Theorem advertised_modes_are_accepted (w : World) :
  Forall (fun h => (async_set_hvac_mode h w).1 = Ret tt) (hvac_modes (self w)) /\
  Forall (fun f => (async_set_fan_mode f w).1 = Ret tt) (fan_modes (self w)) /\
  Forall (fun s => (async_set_swing_mode s w).1 = Ret tt) (swing_modes (self w)).
Proof.
  split; [|split]; apply List.Forall_forall.
  - intros h Hin. destruct (String.eqb_spec h HVAC_MODE_OFF) as [->|Hoff].
    + unfold async_set_hvac_mode.
      change (String.eqb HVAC_MODE_OFF HVAC_MODE_OFF) with true. cbv iota.
      execute; reflexivity.
    + destruct (hvac_mode_operation _ _ Hin Hoff) as (hm & m & Hhm & Hv & Hm & _ & Hneq).
      unfold async_set_hvac_mode. rewrite Hneq. cbv zeta. execute.
      destruct (hvac_eq (_hvac_mode (self w)) HVAC_MODE_OFF); execute;
        rewrite ?Hhm; execute; rewrite ?Hv;
        cbn [hvac_title with_hvac_mode with_state _hvac_mode]; execute;
        rewrite ?Hm; execute; reflexivity.
  - intros f Hin. destruct (fan_mode_speed _ _ Hin) as (m & Hm & _).
    unfold async_set_fan_mode. execute. unfold supported_features.
    change (Z.land SUPPORT_FLAGS SUPPORT_FAN_MODE =? 0)%Z with false. execute.
    destruct (hvac_eq (_hvac_mode (self w)) HVAC_MODE_DRY); [reflexivity|].
    rewrite Hm. execute. unfold AirConditionM1.set_wind_level.
    rewrite fan_speed_in_range. execute; reflexivity.
  - intros s Hin. destruct (swing_mode_member _ _ Hin) as (m & Hm & _).
    unfold async_set_swing_mode. execute. unfold supported_features.
    change (Z.land SUPPORT_FLAGS SUPPORT_SWING_MODE =? 0)%Z with false. execute.
    rewrite Hm. execute.
    destruct (bool_decide _); execute; reflexivity.
Qed.

(** ** Polls *)

Lemma try_except_quiet {A} (body handler : M A) (w : World) :
  quiet body -> try_except body is_DeviceException handler w = body w.
Proof.
  intros Hq. unfold try_except. specialize (Hq w).
  destruct (body w) as [[a|e] w1]; [reflexivity|].
  cbn in Hq. now rewrite (Hq e eq_refl).
Qed.

Lemma quiet_mode_name (st : AirConditionStatus.t) : quiet_result (mode_name st).
Proof.
  intros e. unfold mode_name, AirConditionStatus.mode, OperationMode.of_value.
  destruct (find _ _); cbn; [discriminate|].
  intros H. now injection H as <-.
Qed.

Lemma quiet_HVACMode_of_name (n : string) : quiet_result (HVACMode.of_name n).
Proof. apply (quiet_find _ (fun m => m)). reflexivity. Qed.

Lemma quiet_div10 (v : pyval) : quiet_result (div10 v).
Proof.
  assert (Hint : forall n, quiet_result (int_div10 n)).
  { intros n e. unfold int_div10. destruct n; [discriminate|..];
      destruct (SFdiv_core_binary _ _ _ _ _ _) as [[q e'] l];
      destruct (binary_round_aux _ _ _ _ _ _); intros H;
      first [discriminate H | now injection H as <-]. }
  intros e. destruct v; cbn; try apply Hint; intros H;
    first [discriminate H | now injection H as <-].
Qed.

Lemma quiet_target_temp (st : AirConditionStatus.t) :
  quiet_result (AirConditionStatus.target_temp st).
Proof. apply quiet_div10. Qed.

Lemma quiet_temperature (st : AirConditionStatus.t) :
  quiet_result (AirConditionStatus.temperature st).
Proof. apply quiet_div10. Qed.

Lemma quiet_FanSpeed_of_value (v : pyval) : quiet_result (FanSpeed.of_value v).
Proof.
  intros e. unfold FanSpeed.of_value.
  destruct (as_integer v); [destruct (find _ _)|]; intros H;
    first [discriminate H | now injection H as <-].
Qed.

Lemma quiet_SwingMode_of_value (v : pyval) : quiet_result (SwingMode.of_value v).
Proof. apply (quiet_find _ (fun m => m)). reflexivity. Qed.

#[local] Hint Resolve quiet_mode_name quiet_HVACMode_of_name quiet_target_temp
  quiet_temperature quiet_FanSpeed_of_value quiet_SwingMode_of_value : quiet.

(** Opening [async_update] once [status] has returned: what is left is the
    sequence of assignments, out of its [try]. *)
Ltac after_status Hstatus :=
  unfold async_update; rewrite try_except_bind_run, Hstatus;
  rewrite try_except_quiet by quieten.

Lemma same_entity_refl (w : World) : same_entity w w.
Proof. reflexivity. Qed.

Lemma same_entity_trans (w1 w2 w3 : World) :
  same_entity w1 w2 -> same_entity w2 w3 -> same_entity w1 w3.
Proof. unfold same_entity. congruence. Qed.

Lemma same_entity_status_loop (props : list string) :
  forall values, respects same_entity (AirConditionM1.status_loop props values).
Proof.
  induction props as [|p rest IH]; intros values; cbn [AirConditionM1.status_loop].
  - apply (respects_ret same_entity_refl).
  - respect same_entity_refl same_entity_trans
      ltac:(first [apply IH | intros w; now rewrite send_run]).
Qed.

Lemma status_keeps_entity (w : World) : self (AirConditionM1.status w).2 = self w.
Proof.
  revert w. change (respects same_entity AirConditionM1.status).
  unfold AirConditionM1.status.
  apply (respects_bind same_entity_trans);
    [apply same_entity_status_loop | intros; apply (respects_ret same_entity_refl)].
Qed.

Ltac available_step :=
  let w := fresh "w" in
  intros w; unfold keeps; cbn; auto.

(** X14. What a poll does to the availability.  Once [status] has
    returned the entity is available, also when the poll goes on to raise
    over a value of the report.  When [status] raises [DeviceException] the
    poll returns normally and has changed nothing but the availability,
    which is [False].  Any other exception of [status] passes through and
    leaves the entity as it was. *)
Theorem availability_after_poll (w : World) :
  match (AirConditionM1.status w).1 with
  | Ret _ => _available (self (async_update w).2) = true
  | Raise e =>
      if is_DeviceException e then
        (async_update w).1 = Ret tt /\
        self (async_update w).2 = with_available false (self w)
      else
        (async_update w).1 = Raise e /\ self (async_update w).2 = self w
  end.
Proof.
  pose proof (status_keeps_entity w) as Hself.
  destruct (AirConditionM1.status w) as [[st|e] w1] eqn:Hstatus; cbn [fst snd] in *.
  - after_status Hstatus. rewrite bind_run. cbn [set].
    set (I := fun e : Entity => _available e = true).
    match goal with
    | |- _available (self (?m ?w2).2) = true =>
        assert (H : respects (keeps I) m);
        [|exact (H w2 eq_refl)]
    end.
    respect (keeps_refl I) (keeps_trans I) ltac:(available_step).
  - unfold async_update. rewrite try_except_bind_run, Hstatus.
    destruct (is_DeviceException e); cbn; now rewrite Hself.
Qed.

(** A poll that returns after [status] has returned went through every
    conversion and stored every field. *)
Lemma async_update_returned (w w1 : World) (st : AirConditionStatus.t) :
  AirConditionM1.status w = (Ret st, w1) ->
  (async_update w).1 = Ret tt ->
  exists (m : OperationMode.t) (hvac : string) (fan : FanSpeed.t) (swing : SwingMode.t),
    AirConditionStatus.item st "mode" = PStr (OperationMode.value m) /\
    hvac_mode_of_operation (OperationMode.value m) = Some hvac /\
    FanSpeed.of_value (AirConditionStatus.wind_level st) = Ret fan /\
    SwingMode.of_value (AirConditionStatus.swing st) = Ret swing /\
    _hvac_mode (self (async_update w).2)
      = HvacStr (if eq_str (AirConditionStatus.power st) "off"
                 then HVAC_MODE_OFF else hvac) /\
    _fan_mode (self (async_update w).2) = Some (FanSpeed.name fan) /\
    _swing_mode (self (async_update w).2) = Some (SwingMode.name swing).
Proof.
  intros Hstatus. after_status Hstatus. run.
  unfold mode_name, AirConditionStatus.mode, OperationMode.of_value.
  destruct (find _ _) as [m|] eqn:Hfind; cbn [is_TypeError]; run; [|discriminate].
  apply find_some in Hfind. destruct Hfind as [_ Hitem].
  assert (Hmode : AirConditionStatus.item st "mode" = PStr (OperationMode.value m)).
  { destruct (AirConditionStatus.item st "mode"); try discriminate.
    cbn in Hitem. apply String.eqb_eq in Hitem. now subst. }
  clear Hitem.
  destruct (AirConditionStatus.target_temp st) as [target|e1] eqn:Htarget.
  2: { destruct m; cbn; run; destruct (eq_str _ "off"); run; discriminate. }
  destruct (AirConditionStatus.temperature st) as [current|e2] eqn:Hcurrent.
  2: { destruct m; cbn; run; destruct (eq_str _ "off"); run; discriminate. }
  destruct (FanSpeed.of_value (AirConditionStatus.wind_level st)) as [fan|e3] eqn:Hfan.
  2: { destruct m; cbn; run; destruct (eq_str _ "off"); run; discriminate. }
  destruct (SwingMode.of_value (AirConditionStatus.swing st)) as [swing|e4] eqn:Hswing.
  2: { destruct m; cbn; run; destruct (eq_str _ "off"); run; discriminate. }
  intros _.
  exists m, (match m with
             | OperationMode.Cool => "cool" | OperationMode.Dry => "dry"
             | OperationMode.Fan_Only => "fan_only" | OperationMode.Heat => "heat"
             end), fan, swing.
  split; [exact Hmode|]. split; [now destruct m|].
  split; [reflexivity|]. split; [reflexivity|].
  destruct m; cbn; run; destruct (eq_str _ "off"); run; repeat split; reflexivity.
Qed.

(** ** Round trips: what a handler sends is what a poll reads back *)

Lemma hvac_mode_read_back (e : Entity) (h : string) (m : OperationMode.t) :
  In h (hvac_modes e) -> h <> HVAC_MODE_OFF ->
  OperationMode.of_name (title h) = Ret m ->
  hvac_mode_of_operation (OperationMode.value m) = Some h.
Proof.
  unfold hvac_modes. cbn. intros H Hoff.
  destruct H as [<-|[<-|[<-|[<-|[<-|[]]]]]]; [now elim Hoff|..];
    intros Hm; vm_compute in Hm; injection Hm as <-; reflexivity.
Qed.

Lemma async_set_hvac_mode_requests (hvac_mode : string) (m : OperationMode.t) (w : World) :
  In hvac_mode (hvac_modes (self w)) -> hvac_mode <> HVAC_MODE_OFF ->
  hvac_eq (_hvac_mode (self w)) HVAC_MODE_OFF = false ->
  OperationMode.of_name (title hvac_mode) = Ret m ->
  sent (async_set_hvac_mode hvac_mode w).2 = sent w ++ [set_mode_request m].
Proof.
  intros Hin Hoff Hstored Hm.
  destruct (hvac_mode_operation _ _ Hin Hoff) as (hm & m' & Hhm & Hv & Hm' & _ & Hneq).
  unfold async_set_hvac_mode. rewrite Hneq. cbv zeta. run. rewrite Hstored.
  rewrite Hhm. run. rewrite Hv. cbn [hvac_title with_hvac_mode with_state _hvac_mode].
  run. rewrite Hm. unfold set_mode_request. execute; reflexivity.
Qed.

(** X15. The hvac mode makes the round trip.  For a target among
    [hvac_modes] other than [off] (the stored mode being other than [off]),
    [async_set_hvac_mode] asks the unit for an operation mode such that a
    later poll, in which a running unit reports that operation mode,
    stores the target again. *)
Theorem hvac_mode_round_trip (hvac_mode : string) (w : World) :
  In hvac_mode (hvac_modes (self w)) -> hvac_mode <> HVAC_MODE_OFF ->
  hvac_eq (_hvac_mode (self w)) HVAC_MODE_OFF = false ->
  exists m : OperationMode.t,
    sent (async_set_hvac_mode hvac_mode w).2 = sent w ++ [set_mode_request m] /\
    forall (w2 w3 : World) (st : AirConditionStatus.t),
      AirConditionM1.status w2 = (Ret st, w3) ->
      AirConditionStatus.item st "mode" = PStr (OperationMode.value m) ->
      eq_str (AirConditionStatus.power st) "off" = false ->
      _hvac_mode (self (async_update w2).2) = HvacStr hvac_mode /\
      _state (self (async_update w2).2) = Some true.
Proof.
  intros Hin Hoff Hstored.
  destruct (hvac_mode_operation _ _ Hin Hoff) as (hm & m & _ & _ & Hm & _ & _).
  exists m. split; [now apply async_set_hvac_mode_requests|].
  intros w2 w3 st Hstatus Hmode Hon.
  pose proof (hvac_mode_read_back _ _ _ Hin Hoff Hm) as Hback.
  destruct (async_update_after_status w2 w3 st Hstatus _ _ Hmode Hback) as (H1 & H2 & _).
  rewrite Hon in H1, H2. now split.
Qed.

(** The mode [dry], asked of a unit believed to be cooling. *)
Lemma hvac_mode_round_trip_witness :
  In "dry" (hvac_modes (self (believes_cool cooling))) /\
  "dry" <> HVAC_MODE_OFF /\
  hvac_eq (_hvac_mode (self (believes_cool cooling))) HVAC_MODE_OFF = false /\
  exists m : OperationMode.t,
    sent (async_set_hvac_mode "dry" (believes_cool cooling)).2
      = sent (believes_cool cooling) ++ [set_mode_request m] /\
    forall (w2 w3 : World) (st : AirConditionStatus.t),
      AirConditionM1.status w2 = (Ret st, w3) ->
      AirConditionStatus.item st "mode" = PStr (OperationMode.value m) ->
      eq_str (AirConditionStatus.power st) "off" = false ->
      _hvac_mode (self (async_update w2).2) = HvacStr "dry" /\
      _state (self (async_update w2).2) = Some true.
Proof.
  assert (H1 : In "dry" (hvac_modes (self (believes_cool cooling))))
    by (cbn; auto 6).
  assert (H2 : "dry" <> HVAC_MODE_OFF) by discriminate.
  assert (H3 : hvac_eq (_hvac_mode (self (believes_cool cooling))) HVAC_MODE_OFF
               = false) by reflexivity.
  exact (conj H1 (conj H2 (conj H3
    (hvac_mode_round_trip "dry" (believes_cool cooling) H1 H2 H3)))).
Defined.

Lemma FanSpeed_of_value_value (m : FanSpeed.t) :
  FanSpeed.of_value (PInt (FanSpeed.value m)) = Ret m.
Proof. now destruct m. Qed.

Lemma SwingMode_of_value_value (m : SwingMode.t) :
  SwingMode.of_value (PStr (SwingMode.value m)) = Ret m.
Proof. now destruct m. Qed.

(** X16. The fan mode makes the round trip.  Unless the stored hvac mode is
    [dry], [async_set_fan_mode] accepts the name of a fan speed in any
    letter case that [title] brings to it: it stores the name, asks the
    unit for the level of that speed and returns; a later poll that
    returns and reads this level back stores the same name.  Any other
    word is refused with [KeyError] and nothing is changed or sent. *)
Theorem fan_mode_round_trip (fan_mode : string) (w : World) :
  hvac_eq (_hvac_mode (self w)) HVAC_MODE_DRY = false ->
  match FanSpeed.of_name (title fan_mode) with
  | Ret m =>
      (async_set_fan_mode fan_mode w).1 = Ret tt /\
      _fan_mode (self (async_set_fan_mode fan_mode w).2) = Some (FanSpeed.name m) /\
      sent (async_set_fan_mode fan_mode w).2
        = sent w ++ [request "set_spd_level" (PList [PInt (FanSpeed.value m)])] /\
      forall (w2 w3 : World) (st : AirConditionStatus.t),
        AirConditionM1.status w2 = (Ret st, w3) ->
        AirConditionStatus.wind_level st = PInt (FanSpeed.value m) ->
        (async_update w2).1 = Ret tt ->
        _fan_mode (self (async_update w2).2) = Some (FanSpeed.name m)
  | Raise _ => async_set_fan_mode fan_mode w = (Raise KeyError, w)
  end.
Proof.
  intros Hdry.
  destruct (FanSpeed.of_name (title fan_mode)) as [m|e] eqn:Hm.
  - assert (Hrun : (async_set_fan_mode fan_mode w).1 = Ret tt /\
                   _fan_mode (self (async_set_fan_mode fan_mode w).2)
                     = Some (FanSpeed.name m)).
    { unfold async_set_fan_mode. run. unfold supported_features.
      change (Z.land SUPPORT_FLAGS SUPPORT_FAN_MODE =? 0)%Z with false. run.
      rewrite Hdry, Hm. run. unfold AirConditionM1.set_wind_level.
      rewrite fan_speed_in_range. execute; now split. }
    destruct Hrun as [Hret Hstored]. split; [exact Hret|]. split; [exact Hstored|].
    split.
    + rewrite (async_set_fan_mode_requests _ _ w Hm). now rewrite Hdry.
    + intros w2 w3 st Hstatus Hlevel Hreturned.
      destruct (async_update_returned _ _ _ Hstatus Hreturned)
        as (m' & hvac & fan & swing & _ & _ & Hfan & _ & _ & Hfield & _).
      rewrite Hfield. rewrite Hlevel, FanSpeed_of_value_value in Hfan.
      injection Hfan as Heq. now rewrite <- Heq.
  - unfold async_set_fan_mode. run. unfold supported_features.
    change (Z.land SUPPORT_FLAGS SUPPORT_FAN_MODE =? 0)%Z with false. run.
    rewrite Hdry, Hm. cbn.
    unfold FanSpeed.of_name in Hm. destruct (find _ _); [discriminate|].
    now injection Hm as <-.
Qed.

(** The word [auto] on a fresh entity. *)
Lemma fan_mode_round_trip_witness :
  hvac_eq (_hvac_mode (self (fresh cooling))) HVAC_MODE_DRY = false /\
  _fan_mode (self (async_set_fan_mode "auto" (fresh cooling)).2) = Some "Auto" /\
  sent (async_set_fan_mode "auto" (fresh cooling)).2
    = [request "set_spd_level" (PList [PInt 5])].
Proof.
  assert (H : hvac_eq (_hvac_mode (self (fresh cooling))) HVAC_MODE_DRY = false)
    by reflexivity.
  pose proof (fan_mode_round_trip "auto" (fresh cooling) H) as T.
  change (FanSpeed.of_name (title "auto")) with (Ret FanSpeed.Auto) in T.
  cbv iota in T. destruct T as (_ & T1 & T2 & _).
  exact (conj H (conj T1 T2)).
Defined.

(** X17. The swing mode makes the round trip.  [async_set_swing_mode]
    accepts the words that [title] brings to [On] or [Off]: it stores the
    name, asks the unit for the matching vertical swing and returns,
    whatever the unit answers; a later poll that returns and reads this
    value back stores the same name.  Any other word is refused with
    [KeyError] and nothing is changed or sent. *)
Theorem swing_mode_round_trip (swing_mode : string) (w : World) :
  match SwingMode.of_name (title swing_mode) with
  | Ret m =>
      (async_set_swing_mode swing_mode w).1 = Ret tt /\
      _swing_mode (self (async_set_swing_mode swing_mode w).2)
        = Some (SwingMode.name m) /\
      sent (async_set_swing_mode swing_mode w).2
        = sent w ++ [request "set_vertical" (PStr (SwingMode.value m))] /\
      forall (w2 w3 : World) (st : AirConditionStatus.t),
        AirConditionM1.status w2 = (Ret st, w3) ->
        AirConditionStatus.swing st = PStr (SwingMode.value m) ->
        (async_update w2).1 = Ret tt ->
        _swing_mode (self (async_update w2).2) = Some (SwingMode.name m)
  | Raise _ => async_set_swing_mode swing_mode w = (Raise KeyError, w)
  end.
Proof.
  destruct (SwingMode.of_name (title swing_mode)) as [m|e] eqn:Hm.
  - assert (Hrun : (async_set_swing_mode swing_mode w).1 = Ret tt /\
                   _swing_mode (self (async_set_swing_mode swing_mode w).2)
                     = Some (SwingMode.name m) /\
                   sent (async_set_swing_mode swing_mode w).2
                     = sent w ++ [request "set_vertical" (PStr (SwingMode.value m))]).
    { unfold async_set_swing_mode. run. unfold supported_features.
      change (Z.land SUPPORT_FLAGS SUPPORT_SWING_MODE =? 0)%Z with false. run.
      rewrite Hm. run. cbn [with_swing_mode _swing_mode].
      destruct m; cbn [SwingMode.name SwingMode.value];
        first [ rewrite bool_decide_eq_true_2 by reflexivity
              | rewrite bool_decide_eq_false_2 by discriminate ];
        execute; repeat split; reflexivity. }
    destruct Hrun as (Hret & Hstored & Hsent).
    split; [exact Hret|]. split; [exact Hstored|]. split; [exact Hsent|].
    intros w2 w3 st Hstatus Hswing Hreturned.
    destruct (async_update_returned _ _ _ Hstatus Hreturned)
      as (m' & hvac & fan & swing & _ & _ & _ & Hread & _ & _ & Hfield).
    rewrite Hfield. rewrite Hswing, SwingMode_of_value_value in Hread.
    injection Hread as Heq. now rewrite <- Heq.
  - unfold async_set_swing_mode. run. unfold supported_features.
    change (Z.land SUPPORT_FLAGS SUPPORT_SWING_MODE =? 0)%Z with false. run.
    rewrite Hm. cbn.
    unfold SwingMode.of_name in Hm. destruct (find _ _); [discriminate|].
    now injection Hm as <-.
Qed.

(** X18. A poll stops at the first value it cannot convert and keeps what
    it stored before.  The wrapper accepts the wind levels 0 to 7, but
    [FanSpeed] knows the levels 0 to 5 only: when the report carries a
    wind level that is no [FanSpeed], the poll raises [ValueError] to the
    host, after it has stored the availability, the hvac mode and both
    temperatures of the report, and without refreshing the fan mode, the
    auxiliary heat, the swing mode and the state attributes. *)
Theorem poll_stops_at_unknown_wind_level
    (w w1 : World) (st : AirConditionStatus.t) (mode hvac : string)
    (target current : float) :
  AirConditionM1.status w = (Ret st, w1) ->
  AirConditionStatus.item st "mode" = PStr mode ->
  hvac_mode_of_operation mode = Some hvac ->
  AirConditionStatus.target_temp st = Ret target ->
  AirConditionStatus.temperature st = Ret current ->
  FanSpeed.of_value (AirConditionStatus.wind_level st) = Raise ValueError ->
  (async_update w).1 = Raise ValueError /\
  _available (self (async_update w).2) = true /\
  _hvac_mode (self (async_update w).2)
    = HvacStr (if eq_str (AirConditionStatus.power st) "off"
               then HVAC_MODE_OFF else hvac) /\
  _target_temperature (self (async_update w).2) = Some target /\
  _current_temperature (self (async_update w).2) = Some current /\
  _fan_mode (self (async_update w).2) = _fan_mode (self w) /\
  _aux_heat (self (async_update w).2) = _aux_heat (self w) /\
  _swing_mode (self (async_update w).2) = _swing_mode (self w) /\
  _state_attrs (self (async_update w).2) = _state_attrs (self w).
Proof.
  intros Hstatus Hmode Hhvac Htarget Hcurrent Hfan.
  pose proof (status_keeps_entity w) as Hself. rewrite Hstatus in Hself.
  cbn [snd] in Hself.
  after_status Hstatus. run.
  unfold mode_name, AirConditionStatus.mode. rewrite Hmode.
  apply hvac_mode_of_operation_inv in Hhvac.
  destruct Hhvac as [[-> ->]|[[-> ->]|[[-> ->]|[-> ->]]]];
    cbn [OperationMode.of_value OperationMode.members find eq_str
         OperationMode.value String.eqb Ascii.eqb Bool.eqb HVAC_MODE_HEAT
         OperationMode.name];
    run;
    destruct (eq_str (AirConditionStatus.power st) "off");
    run; rewrite Htarget; run; rewrite Hcurrent; run; rewrite Hfan; run;
    cbn; rewrite Hself; repeat split; reflexivity.
Qed.

(** The unit whose wind level is 6. *)
Lemma poll_stops_at_unknown_wind_level_witness :
  AirConditionM1.status (fresh gusty) = (Ret gusty_report, asked gusty) /\
  AirConditionStatus.item gusty_report "mode" = PStr "cooling" /\
  hvac_mode_of_operation "cooling" = Some "cool" /\
  AirConditionStatus.target_temp gusty_report = Ret f22_3 /\
  AirConditionStatus.temperature gusty_report = Ret f25_1 /\
  FanSpeed.of_value (AirConditionStatus.wind_level gusty_report) = Raise ValueError /\
  (async_update (fresh gusty)).1 = Raise ValueError /\
  _hvac_mode (self (async_update (fresh gusty)).2) = HvacStr "cool" /\
  _target_temperature (self (async_update (fresh gusty)).2) = Some f22_3 /\
  _fan_mode (self (async_update (fresh gusty)).2) = _fan_mode (self (fresh gusty)).
Proof.
  assert (Hstatus : AirConditionM1.status (fresh gusty)
                    = (Ret gusty_report, asked gusty))
    by (vm_compute; reflexivity).
  assert (Hmode : AirConditionStatus.item gusty_report "mode" = PStr "cooling")
    by (vm_compute; reflexivity).
  assert (Htarget : AirConditionStatus.target_temp gusty_report = Ret f22_3)
    by (vm_compute; reflexivity).
  assert (Hcurrent : AirConditionStatus.temperature gusty_report = Ret f25_1)
    by (vm_compute; reflexivity).
  assert (Hfan : FanSpeed.of_value (AirConditionStatus.wind_level gusty_report)
                 = Raise ValueError)
    by (vm_compute; reflexivity).
  assert (Hpower : eq_str (AirConditionStatus.power gusty_report) "off" = false)
    by (vm_compute; reflexivity).
  pose proof (poll_stops_at_unknown_wind_level
                (fresh gusty) (asked gusty) gusty_report "cooling" "cool"
                f22_3 f25_1 Hstatus Hmode eq_refl Htarget Hcurrent Hfan) as H.
  rewrite Hpower in H.
  destruct H as (H1 & _ & H3 & H4 & _ & H6 & _).
  exact (conj Hstatus (conj Hmode (conj eq_refl (conj Htarget (conj Hcurrent
           (conj Hfan (conj H1 (conj H3 (conj H4 H6))))))))).
Defined.

(** ** Setting the temperature *)

Lemma quiet_int_of_float (x : float) : quiet_result (int_of_float x).
Proof.
  intros e H. destruct x; cbn in H;
    first [discriminate H | now injection H as <-].
Qed.

(** X19. [async_set_temperature] stores the target before it talks to the
    unit.  With a stored hvac mode other than [off] and [fan_only] and no
    [hvac_mode] argument, the target becomes the [temperature] argument, or
    stays the stored one when the argument is missing; then ten times the
    target, truncated to an integer, is sent in one [set_temperature]
    request.  When there is no target at all the call fails with
    [TypeError], and when the target is not a finite number with
    [ValueError] or [OverflowError]; nothing is sent then, but the target
    is stored all the same. *)
Theorem set_temperature_stores_then_sends (temperature : option float) (w : World) :
  hvac_eq (_hvac_mode (self w)) HVAC_MODE_OFF = false ->
  hvac_eq (_hvac_mode (self w)) HVAC_MODE_FAN_ONLY = false ->
  let out := async_set_temperature
               {| kw_temperature := temperature; kw_hvac_mode := None |} w in
  let target := match temperature with
                | Some t => Some t
                | None => _target_temperature (self w)
                end in
  _target_temperature (self out.2) = target /\
  _hvac_mode (self out.2) = _hvac_mode (self w) /\
  match target with
  | None => out.1 = Raise TypeError /\ sent out.2 = sent w
  | Some t =>
      match int_of_float (float_mul10 t) with
      | Ret k =>
          out.1 = Ret tt /\
          sent out.2 = sent w ++ [request "set_temperature" (PList [PInt k])]
      | Raise e => out.1 = Raise e /\ sent out.2 = sent w
      end
  end.
Proof.
  intros Hoff Hfan. cbn zeta.
  unfold async_set_temperature. rewrite bind_run. cbn [get].
  rewrite Hoff, Hfan. cbn [orb kw_temperature kw_hvac_mode].
  assert (Hsend : forall (t : float) (w0 : World),
    _target_temperature (self w0) = Some t ->
    let out := (target ← get _target_temperature;
                _try_command "Setting temperature of the miio device failed."
                  (AirConditionM1.set_temperature target);;
                skip) w0 in
    _target_temperature (self out.2) = Some t /\
    _hvac_mode (self out.2) = _hvac_mode (self w0) /\
    match int_of_float (float_mul10 t) with
    | Ret k =>
        out.1 = Ret tt /\
        sent out.2 = sent w0 ++ [request "set_temperature" (PList [PInt k])]
    | Raise e => out.1 = Raise e /\ sent out.2 = sent w0
    end).
  { intros t w0 Ht. cbn zeta. rewrite bind_run. cbn [get]. rewrite Ht.
    rewrite bind_run, try_command_run. unfold AirConditionM1.set_temperature.
    rewrite bind_run. cbn [lift].
    pose proof (quiet_int_of_float (float_mul10 t)) as Hq.
    destruct (int_of_float (float_mul10 t)) as [k|e].
    - rewrite send_run. cbn [self device sent scheduled].
      destruct (device w0 (sent w0) _); cbn; rewrite ?Ht; auto.
    - rewrite (Hq e eq_refl). cbn. auto. }
  destruct temperature as [t|].
  - rewrite bind_run. cbn [set]. rewrite bind_run. cbn [skip mret M_ret].
    match goal with
    | |- context [(get _target_temperature ≫= _) ?w0] =>
        destruct (Hsend t w0 eq_refl) as (H1 & H2 & H3)
    end.
    cbn zeta in *. split; [exact H1|]. split; [exact H2|]. exact H3.
  - rewrite bind_run. cbn [skip mret M_ret]. rewrite bind_run. cbn [skip mret M_ret].
    destruct (_target_temperature (self w)) as [t|] eqn:Ht.
    + destruct (Hsend t w Ht) as (H1 & H2 & H3).
      cbn zeta in *. split; [exact H1|]. split; [exact H2|]. exact H3.
    + rewrite bind_run. cbn [get]. rewrite Ht.
      rewrite bind_run, try_command_run. cbn. rewrite Ht. auto.
Qed.

(** 22.3 degrees, asked of a unit believed to be cooling. *)
Lemma set_temperature_stores_then_sends_witness :
  hvac_eq (_hvac_mode (self (believes_cool cooling))) HVAC_MODE_OFF = false /\
  hvac_eq (_hvac_mode (self (believes_cool cooling))) HVAC_MODE_FAN_ONLY = false /\
  _target_temperature
    (self (async_set_temperature
             {| kw_temperature := Some f22_3; kw_hvac_mode := None |}
             (believes_cool cooling)).2) = Some f22_3.
Proof.
  assert (H1 : hvac_eq (_hvac_mode (self (believes_cool cooling))) HVAC_MODE_OFF = false)
    by reflexivity.
  assert (H2 : hvac_eq (_hvac_mode (self (believes_cool cooling))) HVAC_MODE_FAN_ONLY
               = false) by reflexivity.
  exact (conj H1 (conj H2
    (proj1 (set_temperature_stores_then_sends (Some f22_3) (believes_cool cooling)
              H1 H2)))).
Defined.

(** The members of [hvac_modes] as values of [OperationMode]: [heat] is
    the only one. *)
Lemma hvac_mode_as_operation (e : Entity) (h : string) :
  In h (hvac_modes e) ->
  OperationMode.of_value (PStr h)
    = if String.eqb h HVAC_MODE_HEAT then Ret OperationMode.Heat else Raise ValueError.
Proof.
  unfold hvac_modes. cbn. intros H.
  destruct H as [<-|[<-|[<-|[<-|[<-|[]]]]]]; reflexivity.
Qed.

(** X20. The [hvac_mode] argument of [async_set_temperature] is looked up
    among the values of [OperationMode], which are the words of the unit
    and not those of the host.  Of the modes in [hvac_modes] only [heat] is
    found; the stored hvac mode then becomes the member [OperationMode.Heat],
    which equals none of the host's mode strings.  Every other mode of
    [hvac_modes] makes the call fail with [ValueError]: nothing is sent and
    the hvac mode keeps its value, but the target temperature has already
    been stored. *)
Theorem set_temperature_with_hvac_mode
    (temperature : option float) (hvac_mode : string) (w : World) :
  hvac_eq (_hvac_mode (self w)) HVAC_MODE_OFF = false ->
  hvac_eq (_hvac_mode (self w)) HVAC_MODE_FAN_ONLY = false ->
  In hvac_mode (hvac_modes (self w)) ->
  let out := async_set_temperature
               {| kw_temperature := temperature; kw_hvac_mode := Some hvac_mode |} w in
  let target := match temperature with
                | Some t => Some t
                | None => _target_temperature (self w)
                end in
  _target_temperature (self out.2) = target /\
  if String.eqb hvac_mode HVAC_MODE_HEAT then
    _hvac_mode (self out.2) = HvacOperation OperationMode.Heat /\
    forall s, hvac_eq (_hvac_mode (self out.2)) s = false
  else
    out.1 = Raise ValueError /\
    sent out.2 = sent w /\
    _hvac_mode (self out.2) = _hvac_mode (self w).
Proof.
  intros Hoff Hfan Hin. cbn zeta.
  unfold async_set_temperature. rewrite bind_run. cbn [get].
  rewrite Hoff, Hfan. cbn [orb kw_temperature kw_hvac_mode].
  rewrite (hvac_mode_as_operation _ _ Hin).
  destruct (String.eqb hvac_mode HVAC_MODE_HEAT).
  2: { destruct temperature as [t|]; run; cbn; auto. }
  assert (Hsend : forall (t : float) (w0 : World),
    let out := (let (r, w') :=
                  _try_command "Setting temperature of the miio device failed."
                    (AirConditionM1.set_temperature (Some t)) w0 in
                match r with
                | Ret _ => skip w'
                | Raise e => (Raise e, w')
                end) in
    _target_temperature (self out.2) = _target_temperature (self w0) /\
    _hvac_mode (self out.2) = _hvac_mode (self w0)).
  { intros t w0. cbn zeta. rewrite try_command_run.
    unfold AirConditionM1.set_temperature. rewrite bind_run. cbn [lift].
    pose proof (quiet_int_of_float (float_mul10 t)) as Hq.
    destruct (int_of_float (float_mul10 t)) as [k|e].
    - rewrite send_run. cbn [self device sent scheduled].
      destruct (device w0 (sent w0) _); cbn; auto.
    - rewrite (Hq e eq_refl). cbn. auto. }
  destruct temperature as [t|]; run;
    cbn [with_hvac_mode with_target_temperature _target_temperature].
  - match goal with
    | |- context [_try_command _ _ ?w0] => destruct (Hsend t w0) as (H1 & H2)
    end.
    cbn zeta in *. rewrite H1, H2. cbn. auto.
  - destruct (_target_temperature (self w)) as [t|] eqn:Ht.
    + match goal with
      | |- context [_try_command _ _ ?w0] => destruct (Hsend t w0) as (H1 & H2)
      end.
      cbn zeta in *. rewrite H1, H2. cbn. auto.
    + rewrite try_command_run. cbn. auto.
Qed.

(** The mode [cool], asked of a unit believed to be cooling. *)
Lemma set_temperature_with_hvac_mode_witness :
  hvac_eq (_hvac_mode (self (believes_cool cooling))) HVAC_MODE_OFF = false /\
  hvac_eq (_hvac_mode (self (believes_cool cooling))) HVAC_MODE_FAN_ONLY = false /\
  In "cool" (hvac_modes (self (believes_cool cooling))) /\
  (async_set_temperature
     {| kw_temperature := Some f22_3; kw_hvac_mode := Some "cool" |}
     (believes_cool cooling)).1 = Raise ValueError /\
  _target_temperature
    (self (async_set_temperature
             {| kw_temperature := Some f22_3; kw_hvac_mode := Some "cool" |}
             (believes_cool cooling)).2) = Some f22_3.
Proof.
  assert (H1 : hvac_eq (_hvac_mode (self (believes_cool cooling))) HVAC_MODE_OFF = false)
    by reflexivity.
  assert (H2 : hvac_eq (_hvac_mode (self (believes_cool cooling))) HVAC_MODE_FAN_ONLY
               = false) by reflexivity.
  assert (H3 : In "cool" (hvac_modes (self (believes_cool cooling))))
    by (cbn; auto 6).
  pose proof (set_temperature_with_hvac_mode (Some f22_3) "cool"
                (believes_cool cooling) H1 H2 H3) as T.
  cbn zeta in T. change (String.eqb "cool" HVAC_MODE_HEAT) with false in T.
  cbv iota in T. destruct T as (T1 & T2 & _).
  exact (conj H1 (conj H2 (conj H3 (conj T2 T1)))).
Defined.

(** ** The auxiliary heat *)

(** X21. [async_turn_aux_heat_on] and [async_turn_aux_heat_off] make one
    [set_ptc] request and return.  They do not look at the answer and do
    not touch the stored auxiliary-heat flag, which changes with the next
    poll only: the entity is what it was, except that it is unavailable
    after a request that could not reach the unit. *)
Theorem aux_heat_is_fire_and_forget (on : bool) (w : World) :
  let handler := if on then async_turn_aux_heat_on else async_turn_aux_heat_off in
  let ptc := request "set_ptc" (PStr (if on then "on" else "off")) in
  (handler w).1 = Ret tt /\
  sent (handler w).2 = sent w ++ [ptc] /\
  self (handler w).2 =
    match device w (sent w) ptc with
    | Answer _ => self w
    | Failure => with_available false (self w)
    end.
Proof.
  cbn zeta.
  destruct on; unfold async_turn_aux_heat_on, async_turn_aux_heat_off;
    rewrite bind_run, try_command_run;
    unfold AirConditionM1.turn_aux_heat_on, AirConditionM1.turn_aux_heat_off;
    rewrite bind_run, send_run;
    destruct (device w (sent w) _); cbn; auto.
Qed.

(** ** Setting the platform up *)

Lemma supported_In (model : option string) :
  Climate.supported model = true <->
  exists m, model = Some m /\ In m Climate.MODELS_SUPPORTED.
Proof.
  unfold Climate.supported. split.
  - destruct model as [m|]; [|discriminate]. intros H.
    apply existsb_exists in H. destruct H as (m' & Hin & Heq).
    apply String.eqb_eq in Heq. subst m'. now exists m.
  - intros (m & -> & Hin). apply existsb_exists. exists m.
    split; [exact Hin | apply String.eqb_refl].
Qed.

(** X22. The set-up adds exactly one entity or none.  It adds one, asking
    for an update before the entity is added, exactly when [Device.info()]
    returned a model of [MODELS_SUPPORTED]: the entity of [ac_c1.py] for
    [xiaomi.aircondition.ma2] and the entity of [ac_m1.py] for every other
    model ([zhimi.aircondition.ma2] too), set up with the name and the
    temperature limits of the configuration and the unique id
    [<model>-<mac address>].  It ends with [PlatformNotReady] exactly when
    the device library raised [DeviceException] or the model is missing or
    not supported, and lets every other exception through. *)
Theorem setup_adds_one_entity_or_none
    (config : Climate.Config) (info : res Climate.DeviceInfo) :
  match Climate.async_setup_platform config info with
  | Climate.Added devices update_before_add =>
      update_before_add = true /\
      exists device_info m,
        info = Ret device_info /\
        Climate.model device_info = Some m /\
        In m Climate.MODELS_SUPPORTED /\
        let unique_id := (m ++ "-" ++ Climate.str (Climate.mac_address device_info))%string in
        devices =
          [if String.eqb m "xiaomi.aircondition.ma2" then
             Climate.C1 (Climate.name config) (Climate.host config)
               (Climate.token config) unique_id
               (Climate.min_temp config) (Climate.max_temp config)
           else
             Climate.M1 (Climate.host config) (Climate.token config)
               (__init__ (Climate.name config) unique_id
                  (Climate.min_temp config) (Climate.max_temp config))]
  | Climate.PlatformNotReady =>
      (exists e, info = Raise e /\ is_DeviceException e = true) \/
      (exists device_info,
         info = Ret device_info /\
         forall m, Climate.model device_info = Some m ->
                   ~ In m Climate.MODELS_SUPPORTED)
  | Climate.Propagated e => info = Raise e /\ is_DeviceException e = false
  end.
Proof.
  unfold Climate.async_setup_platform.
  destruct info as [device_info|e].
  - destruct (Climate.supported (Climate.model device_info)) eqn:Hs; cbn [negb].
    + apply supported_In in Hs. destruct Hs as (m & Hm & Hin).
      split; [reflexivity|]. exists device_info, m.
      split; [reflexivity|]. split; [exact Hm|]. split; [exact Hin|].
      cbn zeta. rewrite Hm. reflexivity.
    + right. exists device_info. split; [reflexivity|].
      intros m Hm Hin.
      assert (Climate.supported (Climate.model device_info) = true)
        by (apply supported_In; now exists m).
      congruence.
  - destruct (is_DeviceException e) eqn:He.
    + left. now exists e.
    + now split.
Qed.

Lemma append_dash_inj (m a1 a2 : string) :
  (m ++ "-" ++ a1 = m ++ "-" ++ a2)%string -> a1 = a2.
Proof.
  induction m as [|c m IH]; cbn; intros H.
  - now injection H.
  - injection H as H. now apply IH.
Qed.

(** X23. The unique ids tell the devices apart: two set-ups that add an
    entity for devices that reported their MAC addresses give the two
    entities the same unique id only when the devices have the same model
    and the same MAC address. *)
Theorem unique_ids_tell_devices_apart
    (config1 config2 : Climate.Config) (info1 info2 : Climate.DeviceInfo)
    (companion1 companion2 : Climate.Companion) (mac1 mac2 : string) :
  Climate.async_setup_platform config1 (Ret info1) = Climate.Added [companion1] true ->
  Climate.async_setup_platform config2 (Ret info2) = Climate.Added [companion2] true ->
  Climate.mac_address info1 = Some mac1 ->
  Climate.mac_address info2 = Some mac2 ->
  Climate.unique_id_of companion1 = Climate.unique_id_of companion2 ->
  Climate.model info1 = Climate.model info2 /\ mac1 = mac2.
Proof.
  assert (Hid : forall config info companion mac,
    Climate.async_setup_platform config (Ret info) = Climate.Added [companion] true ->
    Climate.mac_address info = Some mac ->
    exists m, Climate.model info = Some m /\ In m Climate.MODELS_SUPPORTED /\
              Climate.unique_id_of companion = (m ++ "-" ++ mac)%string).
  { intros config info companion mac Hsetup Hmac.
    unfold Climate.async_setup_platform in Hsetup.
    destruct (Climate.supported (Climate.model info)) eqn:Hs; [|discriminate].
    apply supported_In in Hs. destruct Hs as (m & Hm & Hin).
    exists m. split; [exact Hm|]. split; [exact Hin|].
    cbn [negb] in Hsetup. cbv zeta in Hsetup. rewrite Hm, Hmac in Hsetup.
    injection Hsetup as <-.
    match goal with |- context [if ?b then _ else _] => destruct b end; reflexivity. }
  intros Hsetup1 Hsetup2 Hmac1 Hmac2 Hsame.
  destruct (Hid _ _ _ _ Hsetup1 Hmac1) as (m1 & Hm1 & Hin1 & Hid1).
  destruct (Hid _ _ _ _ Hsetup2 Hmac2) as (m2 & Hm2 & Hin2 & Hid2).
  rewrite Hid1, Hid2 in Hsame. rewrite Hm1, Hm2.
  assert (Hm : m1 = m2).
  { unfold Climate.MODELS_SUPPORTED in Hin1, Hin2. cbn in Hin1, Hin2.
    repeat match goal with
           | H : _ \/ _ |- _ => destruct H as [<-|H]
           | H : False |- _ => destruct H
           end;
      first [reflexivity | cbn in Hsame; discriminate Hsame]. }
  subst m2. split; [reflexivity|]. exact (append_dash_inj _ _ _ Hsame).
Qed.

(** The same unit, described twice. *)
Lemma unique_ids_tell_devices_apart_witness :
  let first := info_of "zhimi.aircondition.ma1" "AA:BB:CC:00:00:01" in
  let again := {| Climate.model := Some "zhimi.aircondition.ma1";
                  Climate.mac_address := Some "AA:BB:CC:00:00:01";
                  Climate.firmware_version := None;
                  Climate.hardware_version := None |} in
  let companion :=
    Climate.M1 (Climate.host bedroom) (Climate.token bedroom)
      (__init__ "bedroom" "zhimi.aircondition.ma1-AA:BB:CC:00:00:01" 16 30) in
  Climate.async_setup_platform bedroom (Ret first) = Climate.Added [companion] true /\
  Climate.async_setup_platform bedroom (Ret again) = Climate.Added [companion] true /\
  Climate.mac_address first = Some "AA:BB:CC:00:00:01" /\
  Climate.mac_address again = Some "AA:BB:CC:00:00:01" /\
  Climate.unique_id_of companion = Climate.unique_id_of companion /\
  Climate.model first = Climate.model again.
Proof.
  cbn zeta.
  set (first := info_of "zhimi.aircondition.ma1" "AA:BB:CC:00:00:01").
  set (again := {| Climate.model := Some "zhimi.aircondition.ma1";
                   Climate.mac_address := Some "AA:BB:CC:00:00:01";
                   Climate.firmware_version := None;
                   Climate.hardware_version := None |}).
  set (companion :=
         Climate.M1 (Climate.host bedroom) (Climate.token bedroom)
           (__init__ "bedroom" "zhimi.aircondition.ma1-AA:BB:CC:00:00:01" 16 30)).
  assert (H1 : Climate.async_setup_platform bedroom (Ret first)
               = Climate.Added [companion] true) by (vm_compute; reflexivity).
  assert (H2 : Climate.async_setup_platform bedroom (Ret again)
               = Climate.Added [companion] true) by (vm_compute; reflexivity).
  pose proof (unique_ids_tell_devices_apart bedroom bedroom first again
                companion companion "AA:BB:CC:00:00:01" "AA:BB:CC:00:00:01"
                H1 H2 eq_refl eq_refl eq_refl) as [T _].
  exact (conj H1 (conj H2 (conj eq_refl (conj eq_refl (conj eq_refl T))))).
Defined.

(** ** Reports that the entity cannot read *)

(** X24. A report whose mode is none of the four values of
    [OperationMode] (a missing mode too, which reads [None]) makes the poll
    raise [ValueError] to the host: [AirConditionStatus.mode] never returns
    [None], its handler for [TypeError] is never entered.  The poll has
    then marked the entity available and changed nothing else, whatever
    the rest of the report holds. *)
Theorem poll_rejects_unknown_mode (w w1 : World) (st : AirConditionStatus.t) :
  AirConditionM1.status w = (Ret st, w1) ->
  (forall m, AirConditionStatus.item st "mode" <> PStr (OperationMode.value m)) ->
  AirConditionStatus.mode st = Raise ValueError /\
  (async_update w).1 = Raise ValueError /\
  self (async_update w).2 = with_available true (self w).
Proof.
  intros Hstatus Hmode.
  pose proof (status_keeps_entity w) as Hself. rewrite Hstatus in Hself.
  cbn [snd] in Hself.
  assert (H : AirConditionStatus.mode st = Raise ValueError).
  { unfold AirConditionStatus.mode, OperationMode.of_value.
    destruct (find _ _) as [m|] eqn:Hfind; [|reflexivity].
    apply find_some in Hfind. destruct Hfind as [_ Hitem].
    elim (Hmode m).
    destruct (AirConditionStatus.item st "mode"); try discriminate.
    cbn in Hitem. apply String.eqb_eq in Hitem. now subst. }
  split; [exact H|].
  after_status Hstatus. run. unfold mode_name. rewrite H. cbn.
  now rewrite Hself.
Qed.

(** The unit that is switched off and reports ["automode"]. *)
Lemma poll_rejects_unknown_mode_witness :
  AirConditionM1.status (fresh resting) = (Ret resting_report, asked resting) /\
  (forall m, AirConditionStatus.item resting_report "mode"
             <> PStr (OperationMode.value m)) /\
  (async_update (fresh resting)).1 = Raise ValueError /\
  self (async_update (fresh resting)).2 = with_available true (self (fresh resting)).
Proof.
  assert (Hstatus : AirConditionM1.status (fresh resting)
                    = (Ret resting_report, asked resting))
    by (vm_compute; reflexivity).
  assert (Hitem : AirConditionStatus.item resting_report "mode" = PStr "automode")
    by (vm_compute; reflexivity).
  assert (Hmode : forall m, AirConditionStatus.item resting_report "mode"
                            <> PStr (OperationMode.value m)).
  { intros m. rewrite Hitem. destruct m; discriminate. }
  exact (conj Hstatus (conj Hmode
           (proj2 (poll_rejects_unknown_mode _ _ _ Hstatus Hmode)))).
Defined.

(** ** Before the first poll *)

(** X25. [__init__] does not assign [_fan_mode] and [_last_on_operation].
    Until a poll or a change of the fan mode assigns them, reading the
    properties [fan_mode] and [last_on_operation] of a new entity raises
    [AttributeError], whatever else the host has called in between. *)
Theorem fan_mode_is_missing_before_the_first_poll
    (name unique_id : string) (min_temp max_temp : Z) (d : Device)
    (ops : list Operation) :
  Forall (fun op => op <> Update /\ forall f, op <> Set_fan_mode f) ops ->
  let e := self (run_all ops
                   (mkWorld (__init__ name unique_id min_temp max_temp) d [] 0)) in
  fan_mode e = Raise AttributeError /\
  last_on_operation e = Raise AttributeError.
Proof.
  intros Hops. cbn zeta.
  set (I := fun e : Entity => _fan_mode e = None /\ _last_on_operation e = None).
  assert (Hperform : forall op,
            op <> Update -> (forall f, op <> Set_fan_mode f) ->
            respects (keeps I) (perform op)).
  { intros op H1 H2.
    destruct op; try (now elim H1); try (exfalso; eapply H2; reflexivity); open_operations;
      respect (keeps_refl I) (keeps_trans I)
        ltac:(let w := fresh "w" in
              intros w; rewrite ?send_run; unfold keeps, I; cbn; auto). }
  assert (Hrun : forall w, I (self w) -> I (self (run_all ops w))).
  { induction Hops as [|op rest [H1 H2] _ IH]; intros w Hw; cbn [run_all].
    - exact Hw.
    - apply IH. now apply (Hperform op H1 H2 w). }
  destruct (Hrun (mkWorld (__init__ name unique_id min_temp max_temp) d [] 0))
    as [Hfan Hlast]; [now split|].
  unfold fan_mode, last_on_operation. now rewrite Hfan, Hlast.
Qed.

(** A new entity that was turned on and given a swing mode. *)
Lemma fan_mode_is_missing_before_the_first_poll_witness :
  Forall (fun op => op <> Update /\ forall f, op <> Set_fan_mode f)
         [Turn_on; Set_swing_mode "on"] /\
  fan_mode (self (run_all [Turn_on; Set_swing_mode "on"] (fresh cooling)))
    = Raise AttributeError.
Proof.
  assert (H : Forall (fun op => op <> Update /\ forall f, op <> Set_fan_mode f)
                     [Turn_on; Set_swing_mode "on"]).
  { repeat constructor; discriminate. }
  exact (conj H (proj1 (fan_mode_is_missing_before_the_first_poll
                          "bedroom" "zhimi.aircondition.ma1-x" 16 30 cooling
                          [Turn_on; Set_swing_mode "on"] H))).
Defined.
